(** * LocalPulse API: the chat service (rag.py) and the HTTP data endpoints
    (api.py), embedded as Rocq functions, with the properties of the
    specification proved about them.

    Conventions of the embedding.
    - A Python [str] is a [string] (its UTF-8 bytes).  All keywords and
      constants of the program are ASCII, so the substring test [in] on
      code points and on bytes agree.
    - [str.lower] on queries is a variable of the service section (Python
      lower-cases any script), as are [json.dumps] and [str] of a list,
      which are total.  [str.upper] and [str.title] are written out for
      ASCII letters and leave other bytes alone: the program only compares
      their results with ASCII constants, which no other text maps to.
    - SQL integers are [Z]; a double is the rational [Q] of the decimal it
      is written and printed as, so that comparisons are exact.  Arithmetic
      on doubles rounds: AVG, multiplication and ROUND are the engine's, and
      come with the [database], as does the order of the groups of GROUP BY,
      which is also the order ORDER BY leaves among tied groups; rows of
      the table that ORDER BY leaves tied are kept in table order.  A
      nullable SQL value is an [option]; SQL's three-valued logic is
      written out.
    - A Python exception is the text [str(e)] it carries; code that can
      raise lives in [result], stateful code in the state monad [M]. *)

From Stdlib Require Import ZArith QArith String Ascii List Lia Sorted Permutation.
From stdpp Require Import base option strings gmap pretty.

Local Open Scope string_scope.
Local Open Scope Z_scope.

(** ** Python building blocks *)

Module Py.

(** [str(e)] of a raised exception. *)
Definition exn : Type := string.

Inductive result (A : Type) : Type :=
| Return (a : A)
| Raise (e : exn).
Arguments Return {A} a.
Arguments Raise {A} e.

Definition is_raise {A} (r : result A) : bool :=
  match r with Raise _ => true | Return _ => false end.

Definition rbind {A B} (r : result A) (k : A -> result B) : result B :=
  match r with
  | Return a => k a
  | Raise e => Raise e
  end.

(** Stateful computations that may raise: the state survives an exception
    (Python does not roll back attribute writes). *)
Definition M (S A : Type) : Type := S -> result A * S.

Definition ret {S A} (a : A) : M S A := fun s => (Return a, s).
Definition raise {S A} (e : exn) : M S A := fun s => (Raise e, s).
Definition bind {S A B} (m : M S A) (k : A -> M S B) : M S B :=
  fun s => match m s with
           | (Return a, s') => k a s'
           | (Raise e, s') => (Raise e, s')
           end.
Definition lift {S A} (r : result A) : M S A := fun s => (r, s).
Definition gets {S A} (f : S -> A) : M S A := fun s => (Return (f s), s).
Definition modify {S} (f : S -> S) : M S unit := fun s => (Return tt, f s).

(** [try: body  except Exception as e: handler(e)] *)
Definition try_except {S A} (body : M S A) (handler : exn -> M S A) : M S A :=
  fun s => match body s with
           | (Return a, s') => (Return a, s')
           | (Raise e, s') => handler e s'
           end.

(** [s] begins with [w]. *)
Fixpoint starts_with (w s : string) : bool :=
  match w, s with
  | EmptyString, _ => true
  | String a w', String b s' => Ascii.eqb a b && starts_with w' s'
  | String _ _, EmptyString => false
  end.

(** [w in s] on strings: [w] occurs in [s] as a contiguous substring. *)
Fixpoint str_in (w s : string) : bool :=
  starts_with w s ||
  match s with
  | EmptyString => false
  | String _ s' => str_in w s'
  end.

Definition is_upper (c : ascii) : bool :=
  let n := nat_of_ascii c in (65 <=? n)%nat && (n <=? 90)%nat.
Definition is_lower (c : ascii) : bool :=
  let n := nat_of_ascii c in (97 <=? n)%nat && (n <=? 122)%nat.
Definition is_cased (c : ascii) : bool := is_upper c || is_lower c.

Definition upper_char (c : ascii) : ascii :=
  if is_lower c then ascii_of_nat (nat_of_ascii c - 32) else c.
Definition lower_char (c : ascii) : ascii :=
  if is_upper c then ascii_of_nat (nat_of_ascii c + 32) else c.

Fixpoint map_string (f : ascii -> ascii) (s : string) : string :=
  match s with
  | EmptyString => EmptyString
  | String c s' => String (f c) (map_string f s')
  end.

(** [s.upper()] and [s.lower()] on ASCII text. *)
Definition upper (s : string) : string := map_string upper_char s.
Definition ascii_lower (s : string) : string := map_string lower_char s.

(** [s.title()]: a cased character is upper-cased when the character before
    it is not cased, and lower-cased otherwise. *)
Fixpoint title_from (previous_is_cased : bool) (s : string) : string :=
  match s with
  | EmptyString => EmptyString
  | String c s' =>
      String (if previous_is_cased then lower_char c else upper_char c)
             (title_from (is_cased c) s')
  end.
Definition title (s : string) : string := title_from false s.

Definition newline : string := String (ascii_of_nat 10) EmptyString.
Definition dquote : string := String (ascii_of_nat 34) EmptyString.

(** The text of a triple-quoted literal, line by line. *)
Fixpoint unlines (ls : list string) : string :=
  match ls with
  | [] => EmptyString
  | [l] => l
  | l :: rest => l +:+ newline +:+ unlines rest
  end.

End Py.
Import Py.

Notation "x <- m ;; k" := (bind m (fun x => k))
  (at level 100, m at next level, right associativity).
Notation "m ;;; k" := (bind m (fun _ => k))
  (at level 100, right associativity).

(** ** The embedded database: table [poi_density] and the program's queries *)

Module Duckdb.

(** Modelled from the spec: the schema of table [poi_density] (data model,
    "POI record"); its DDL is in the database set-up script, which is not
    among the sources.  Only the bank columns are nullable. *)
Record poi : Type := {
  id : Z;
  name : string;
  category : string;
  latitude : Q;
  longitude : Q;
  province : string;
  district : string;
  intensity : Q;
  rating : Q;
  rating_count : Z;
  gmaps_link : string;
  bank_category : option string;
  bank_colorcode : option string
}.

(** The SQL statements the program sends. *)
Inductive statement : Type :=
| CountBanks
| CountAtms
| CountPoi
| DistrictAnalysis
| BusinessOpportunities
| FinancialInstitutions.

(** The database as one operation sees it: the table; which of
    [duckdb.connect] (by attempt), [execute]/[fetch] (by statement) and
    [close] raise; and what is the engine's to decide, its arithmetic on
    doubles and the order of the groups of a statement. *)
Record database : Type := {
  poi_density : list poi;
  connect_error : nat -> option exn;
  execute_error : statement -> option exn;
  close_error : option exn;
  (** AVG over the doubles of a group that has rows *)
  AVG : list Q -> Q;
  (** [x * y] on doubles *)
  TIMES : Q -> Q -> Q;
  (** ROUND(x, digits) *)
  ROUND : Q -> Z -> Q;
  (** the rank of a group, by statement and district: GROUP BY yields its
      groups by rank -- by first row where ranks agree -- and ORDER BY keeps
      that order among groups that compare equal *)
  group_rank : statement -> string -> nat
}.

Definition Qsum (xs : list Q) : Q := fold_right Qplus 0%Q xs.

(** Arithmetic without rounding error: the mean, and rounding to [digits]
    decimals, halves away from zero. *)
Definition exact_avg (xs : list Q) : Q :=
  Qred (Qsum xs / inject_Z (Z.of_nat (length xs))).

Definition exact_round (x : Q) (digits : Z) : Q :=
  let scale := 10 ^ digits in
  let n := Qnum x * scale in
  let d := Z.pos (Qden x) in
  Qred (Qmake (Z.sgn n * ((2 * Z.abs n + d) / (2 * d))) (Z.to_pos scale)).

(** A database on which nothing raises.  Its engine is the simplest one:
    it computes without rounding error and yields the groups in table
    order. *)
Definition healthy (table : list poi) : database :=
  {| poi_density := table;
     connect_error := fun _ => None;
     execute_error := fun _ => None;
     close_error := None;
     AVG := exact_avg;
     TIMES := Qmult;
     ROUND := exact_round;
     group_rank := fun _ _ => O |}.

Definition outcome (error : option exn) : result unit :=
  match error with
  | Some e => Raise e
  | None => Return tt
  end.

(** [duckdb.connect(path)], the [attempt]-th of the operation. *)
Definition connect (db : database) (attempt : nat) : result unit :=
  outcome (connect_error db attempt).

(** [conn.execute(stmt, params).fetchall()], [rows] being what the engine
    computes for the statement. *)
Definition execute {A} (db : database) (stmt : statement) (rows : A) : result A :=
  rbind (outcome (execute_error db stmt)) (fun _ => Return rows).

Definition close (db : database) : result unit := outcome (close_error db).

(** *** SQL expressions *)

Definition Qltb (x y : Q) : bool := negb (Qle_bool y x).

(** A condition evaluates to TRUE, FALSE or NULL ([None]). *)
Definition sql_bool : Type := option bool.

Definition sql_and (a b : sql_bool) : sql_bool :=
  match a, b with
  | Some false, _ | _, Some false => Some false
  | Some true, Some true => Some true
  | _, _ => None
  end.

Definition sql_gt (x : option Q) (y : Q) : sql_bool := Qltb y <$> x.
Definition sql_lt (x : option Q) (y : Q) : sql_bool := (fun a => Qltb a y) <$> x.

(** WHEN takes its branch only on TRUE. *)
Definition when (c : sql_bool) : bool :=
  match c with Some true => true | _ => false end.

Definition is_financial (c : string) : bool :=
  String.eqb c "Bank" || String.eqb c "ATM".

(** The CASE expression of the district analysis, on [p.avg_poi_density]
    (NULL for a district without POI rows) and [d.total_financial]. *)
Definition area_classification (avg_poi_density : option Q) (total_financial : Z) : string :=
  if when (sql_and (sql_gt avg_poi_density 0.7) (Some (total_financial <? 2)))
  then "HIGH_PRIORITY_WHITESPACE"
  else if when (sql_and (sql_gt avg_poi_density 0.5) (Some (total_financial <? 3)))
  then "MEDIUM_PRIORITY_WHITESPACE"
  else if when (sql_and (sql_lt avg_poi_density 0.3) (Some (total_financial >? 2)))
  then "POTENTIAL_RISK_OVERSUPPLY"
  else if when (sql_and (sql_lt avg_poi_density 0.2) (Some (total_financial >? 0)))
  then "HIGH_RISK_LOW_DEMAND"
  else "BALANCED".

(** *** Aggregation *)

Definition count_where {A} (p : A -> bool) (rows : list A) : Z :=
  Z.of_nat (length (List.filter p rows)).

(** GROUP BY keys, in order of first appearance. *)
Fixpoint distinct (keys : list string) : list string :=
  match keys with
  | [] => []
  | k :: rest => k :: List.filter (fun k' => negb (String.eqb k k')) (distinct rest)
  end.

(** AVG: NULL over no rows. *)
Definition sql_avg (db : database) (xs : list Q) : option Q :=
  match xs with
  | [] => None
  | _ => Some (AVG db xs)
  end.

(** ORDER BY: a stable insertion sort; [before x y] when [x] may precede [y]. *)
Fixpoint insert_by {A} (before : A -> A -> bool) (x : A) (sorted : list A) : list A :=
  match sorted with
  | [] => [x]
  | y :: rest => if before x y then x :: y :: rest else y :: insert_by before x rest
  end.

Definition order_by {A} (before : A -> A -> bool) (rows : list A) : list A :=
  fold_right (insert_by before) [] rows.

(** DESC NULLS LAST *)
Definition desc_nulls_last (a b : option Q) : bool :=
  match a, b with
  | Some x, Some y => Qle_bool y x
  | Some _, None => true
  | None, Some _ => false
  | None, None => true
  end.

Definition string_le (a b : string) : bool :=
  match String.compare a b with Gt => false | _ => true end.

(** GROUP BY on the district: the keys of the groups, as the engine yields
    them for statement [stmt]. *)
Definition group_by (db : database) (stmt : statement) (keys : list string) : list string :=
  order_by (fun a b => (group_rank db stmt a <=? group_rank db stmt b)%nat)
           (distinct keys).

(** *** The statements *)

Definition in_province (location : string) (r : poi) : bool :=
  String.eqb (province r) location.

(** SELECT COUNT( * ) FROM poi_density WHERE category = 'Bank' AND province = ? *)
Definition count_banks (table : list poi) (location : string) : Z :=
  count_where (fun r => String.eqb (category r) "Bank" && in_province location r) table.

(** SELECT COUNT( * ) FROM poi_density WHERE category = 'ATM' AND province = ? *)
Definition count_atms (table : list poi) (location : string) : Z :=
  count_where (fun r => String.eqb (category r) "ATM" && in_province location r) table.

(** SELECT COUNT( * ) FROM poi_density
    WHERE category NOT IN ('Bank', 'ATM') AND province = ? *)
Definition count_poi (table : list poi) (location : string) : Z :=
  count_where (fun r => negb (is_financial (category r)) && in_province location r) table.

(** One row of the district analysis:
    (district, banks, atms, total_financial, avg_poi_density,
     area_classification). *)
Definition district_row : Type := string * Z * Z * Z * Q * string.

(** Subquery [d] joined (LEFT JOIN) with subquery [p]: per district the
    bank, ATM and total counts and the nullable average intensity. *)
Definition district_join (db : database) (location : string)
  : list (string * Z * Z * Z * option Q) :=
  let table := poi_density db in
  let financial :=
    List.filter (fun r => is_financial (category r) && in_province location r) table in
  let other :=
    List.filter (fun r => negb (is_financial (category r)) && in_province location r) table in
  map (fun d =>
         let group := List.filter (fun r => String.eqb (district r) d) financial in
         (d,
          count_where (fun r => String.eqb (category r) "Bank") group,
          count_where (fun r => String.eqb (category r) "ATM") group,
          Z.of_nat (length group),
          sql_avg db
            (map intensity (List.filter (fun r => String.eqb (district r) d) other))))
      (group_by db DistrictAnalysis (map district financial)).

Definition district_analysis (db : database) (location : string) : list district_row :=
  map (fun '(d, banks, atms, total_financial, avg) =>
         (d, banks, atms, total_financial, default 0%Q avg,
          area_classification avg total_financial))
      (order_by (fun a b => desc_nulls_last (snd a) (snd b))
                (district_join db location)).

(** One row of the business opportunities:
    (district, avg_activity_density, total_activity_points,
     high_activity_spots, business_opportunity_score). *)
Definition opportunity_row : Type := string * Q * Z * Z * Q.

Definition business_opportunities (db : database) (location : string)
  : list opportunity_row :=
  let table := poi_density db in
  let other :=
    List.filter (fun r => negb (is_financial (category r)) && in_province location r) table in
  let groups :=
    map (fun d =>
           let xs := map intensity (List.filter (fun r => String.eqb (district r) d) other) in
           let avg := default 0%Q (sql_avg db xs) in
           let n := Z.of_nat (length xs) in
           (d, avg, n, count_where (fun x => Qltb 0.7 x) xs,
            ROUND db (TIMES db avg (inject_Z n)) 2))
        (group_by db BusinessOpportunities (map district other)) in
  take 10
    (order_by (fun a b => Qle_bool (snd b) (snd a))
       (List.filter (fun '(_, avg, _, _, _) => Qltb 0.5 avg) groups)).

(** SELECT ... FROM poi_density WHERE category IN ('Bank', 'ATM')
    AND province = ? [AND district = ?] [AND category = ?]
    ORDER BY category, name.  The selected columns are all of [poi] but
    [intensity]; the rows are kept as [poi] records. *)
Definition financial_institutions (table : list poi) (province_filter : string)
    (district_param category_param : option string) : list poi :=
  order_by
    (fun a b =>
       match String.compare (category a) (category b) with
       | Lt => true
       | Gt => false
       | Eq => string_le (name a) (name b)
       end)
    (List.filter
       (fun r =>
          is_financial (category r) && in_province province_filter r
          && from_option (String.eqb (district r)) true district_param
          && from_option (String.eqb (category r)) true category_param)
       table).

End Duckdb.

(** ** rag.py: the chat service *)

Module Rag.
Import Duckdb.

(** Instructions for map visualization based on LLM analysis.  [filters]
    only ever holds flags set to [True]; [highlights] defaults to [None]. *)
Record MapDirective : Type := {
  mode : string;
  filters : gmap string bool;
  center : option (Q * Q);
  zoom : option Z;
  highlights : option (list (gmap string string))
}.

#[global] Instance Q_inhabited : Inhabited Q := populate 0%Q.

#[global] Instance MapDirective_inhabited : Inhabited MapDirective :=
  populate {| mode := EmptyString; filters := ∅; center := None;
              zoom := None; highlights := None |}.

(** An entry of [recommended_business_areas]. *)
Record business_area : Type := {
  area_name : string;
  coordinates : Q * Q;
  area_district : string;
  business_potential : string
}.

(** The values held by a context dictionary. *)
Inductive pyvalue : Type :=
| PyInt (n : Z)
| PyDistricts (rows : list district_row)
| PyOpportunities (rows : list opportunity_row)
| PyAreas (areas : list business_area).

(** An entry of the conversation history. *)
Record conversation_entry : Type := {
  timestamp : string;
  query : string;
  response : string
}.

(** The mutable attributes of a [ClaudeService] object. *)
Record ClaudeService : Type := {
  conversation_history : list conversation_entry;
  _db_cache : gmap string (gmap string pyvalue)
}.

(** [__init__]: empty history, empty cache. *)
Definition init : ClaudeService :=
  {| conversation_history := []; _db_cache := ∅ |}.

(** A reference to a context dictionary.  [get_basic_stats] hands out
    either the very object stored in [_db_cache] under a key, or a
    dictionary no one else holds; writing through the former changes the
    cache. *)
Inductive dict_ref : Type :=
| Cached (cache_key : string)
| Fresh (d : gmap string pyvalue).

Definition deref (r : dict_ref) (self : ClaudeService) : gmap string pyvalue :=
  match r with
  | Cached cache_key => default ∅ (_db_cache self !! cache_key)
  | Fresh d => d
  end.

(** [r[key] = v] *)
Definition setitem (r : dict_ref) (key : string) (v : pyvalue) : M ClaudeService dict_ref :=
  match r with
  | Cached cache_key =>
      modify (fun self =>
                {| conversation_history := conversation_history self;
                   _db_cache := alter (insert key v) cache_key (_db_cache self) |}) ;;;
      ret (Cached cache_key)
  | Fresh d => ret (Fresh (<[key := v]> d))
  end.

(** [self._db_cache[cache_key] = stats] *)
Definition cache_store (cache_key : string) (stats : gmap string pyvalue) : M ClaudeService unit :=
  modify (fun self =>
            {| conversation_history := conversation_history self;
               _db_cache := <[cache_key := stats]> (_db_cache self) |}).

(** [m] run from [self] returns normally and leaves the conversation
    history as it was. *)
Definition returns {A} (m : M ClaudeService A) (self : ClaudeService) : Prop :=
  exists a self', m self = (Return a, self')
    /\ conversation_history self' = conversation_history self.

(** Simplified intent keywords; a dict, iterated in insertion order. *)
Definition INTENT_KEYWORDS : list (string * list string) :=
  [ ("greeting", ["halo"; "hai"; "hello"; "apa kabar"; "selamat"]);
    ("whitespots", ["belum terjangkau"; "white-spot"; "white spot"; "lokasi terbaik"; "ekspansi"]);
    ("risk_assessment", ["cabang berisiko"; "pengawasan"; "berisiko"]);
    ("gdp_national", ["kondisi nasional"; "ekonomi nasional"; "gdp"; "nasional"]);
    ("business_analysis", ["coffee shop"; "kedai kopi"; "lokasi strategis"; "usaha"]);
    ("bank_distribution", ["sebaran bank"; "lokasi bank"; "cabang bank"]) ].

(** Bank entity patterns *)
Definition BANK_ENTITIES : list string :=
  ["bni"; "bca"; "bri"; "mandiri"; "bsi"; "btn"; "cimb"; "danamon"].

(** Default map centers *)
Definition MAP_CENTERS : gmap string (Q * Q) :=
  {[ "Bali" := ((-8.6705)%Q, 115.2126%Q);
     "Indonesia" := ((-2.5)%Q, 118%Q) ]}.

(** Get database connection with simple retry logic: a second attempt, and
    the first exception when that fails too. *)
Definition get_db_connection (db : database) : result unit :=
  match connect db 0 with
  | Return conn => Return conn
  | Raise e =>
      match connect db 1 with
      | Return conn => Return conn
      | Raise _ => Raise e
      end
  end.

(** An operation's database session -- connect, execute [stmts], close --
    raises at some step. *)
Definition session_raises (db : database) (stmts : list statement) : Prop :=
  is_raise (get_db_connection db) = true
  \/ (exists stmt, In stmt stmts /\ is_Some (execute_error db stmt))
  \/ is_Some (close_error db).

(** The loop over [INTENT_KEYWORDS.items()] with its [break]. *)
Fixpoint first_matching_intent (table : list (string * list string))
    (query_lower : string) (default_intent : string) : string :=
  match table with
  | [] => default_intent
  | (intent_type, keywords) :: rest =>
      if existsb (fun word => str_in word query_lower) keywords
      then intent_type
      else first_matching_intent rest query_lower default_intent
  end.

(** What the world outside the service answers during one request. *)
Record request : Type := {
  model : string;
  max_tokens : Z;
  system : string;
  messages : list (string * string)
}.

Record world : Type := {
  db : database;
  (** [client.messages.create]: the texts of [response.content], or an
      exception (network, auth, provider error) *)
  messages_create : request -> result (list string);
  (** [datetime.now().strftime('%Y-%m-%d')] when the prompt is built *)
  today : string;
  (** [datetime.now().isoformat()] when the history entry is built *)
  now : string
}.

Section Service.

(** [str.lower] *)
Variable lower : string -> string.
(** [json.dumps(_, indent=2, default=str)] *)
Variable json_dumps : gmap string pyvalue -> string.
(** [str] of a list value inside an f-string *)
Variable repr : pyvalue -> string.

(** Fast intent extraction using keyword matching. *)
Definition extract_intent_and_entities (query : string) : string * list string * string :=
  let query_lower := lower query in
  let intent := first_matching_intent INTENT_KEYWORDS query_lower "general_info" in
  let entities := if str_in "bali" query_lower then ["Bali"] else [] in
  let bank_entities :=
    map upper (List.filter (fun bank => str_in bank query_lower) BANK_ENTITIES) in
  let entities := (entities ++ bank_entities)%list in
  let location :=
    if str_in "bali" query_lower then "Bali"
    else if String.eqb intent "gdp_national" then "Indonesia" else "Bali" in
  (intent, entities, location).

Definition zero_stats : gmap string pyvalue :=
  {[ "total_banks" := PyInt 0; "total_atms" := PyInt 0; "total_poi" := PyInt 0 ]}.

(** The three COUNT queries of [get_basic_stats], between connecting and
    closing. *)
Definition query_basic_stats (db : database) (location : string)
  : result (gmap string pyvalue) :=
  rbind (get_db_connection db) (fun conn =>
  rbind (execute db CountBanks (count_banks (poi_density db) location)) (fun total_banks =>
  rbind (execute db CountAtms (count_atms (poi_density db) location)) (fun total_atms =>
  rbind (execute db CountPoi (count_poi (poi_density db) location)) (fun total_poi =>
  rbind (close db) (fun _ =>
  Return ({[ "total_banks" := PyInt total_banks;
             "total_atms" := PyInt total_atms;
             "total_poi" := PyInt total_poi ]} : gmap string pyvalue)))))).

(** Get basic database statistics (cached for performance). *)
Definition get_basic_stats (db : database) (location : string) : M ClaudeService dict_ref :=
  let cache_key := "basic_stats_" +:+ location in
  cache <- gets _db_cache ;;
  match cache !! cache_key with
  | Some _ => ret (Cached cache_key)
  | None =>
      try_except
        (stats <- lift (query_basic_stats db location) ;;
         cache_store cache_key stats ;;;
         ret (Cached cache_key))
        (fun e => ret (Fresh zero_stats))
  end.

(** Get district analysis for whitespots and risk assessment. *)
Definition get_district_analysis (db : database) (location : string)
  : M ClaudeService (list district_row) :=
  try_except
    (lift (get_db_connection db) ;;;
     result <- lift (execute db DistrictAnalysis
                       (district_analysis db location)) ;;
     lift (close db) ;;;
     ret result)
    (fun e => ret []).

(** Get business opportunity analysis with recommended areas. *)
Definition get_business_opportunities (db : database) (location : string)
  : M ClaudeService (list opportunity_row) :=
  try_except
    (lift (get_db_connection db) ;;;
     opportunities <- lift (execute db BusinessOpportunities
                              (business_opportunities db location)) ;;
     lift (close db) ;;;
     ret opportunities)
    (fun e => ret []).

Definition recommended_business_areas : list business_area :=
  [ {| area_name := "Seminyak Business District";
       coordinates := ((-8.6872)%Q, 115.1748%Q);
       area_district := "Badung";
       business_potential := "HIGH" |};
    {| area_name := "Ubud Cultural Center";
       coordinates := ((-8.5088)%Q, 115.2623%Q);
       area_district := "Gianyar";
       business_potential := "HIGH" |};
    {| area_name := "Canggu Beach Area";
       coordinates := ((-8.6482)%Q, 115.1374%Q);
       area_district := "Badung";
       business_potential := "HIGH" |} ].

(** Get context based on intent. *)
Definition get_database_context (db : database) (intent location : string)
  : M ClaudeService dict_ref :=
  let location :=
    if String.eqb location EmptyString || String.eqb location "None"
    then "Bali" else location in
  context <- get_basic_stats db location ;;
  if String.eqb intent "whitespots" || String.eqb intent "risk_assessment" then
    rows <- get_district_analysis db location ;;
    setitem context "district_analysis" (PyDistricts rows)
  else if String.eqb intent "business_analysis" then
    rows <- get_business_opportunities db location ;;
    context <- setitem context "business_opportunities" (PyOpportunities rows) ;;
    if String.eqb location "Bali"
    then setitem context "recommended_business_areas" (PyAreas recommended_business_areas)
    else ret context
  else ret context.

(** Generate map visualization directives. *)
Definition generate_map_directive (intent location : string) : MapDirective :=
  let center := default (MAP_CENTERS !!! "Bali") (MAP_CENTERS !! location) in
  let zoom := if String.eqb location "Bali" then 10 else 5 in
  let config (mode : string) (filters : list string) (center : Q * Q) (zoom : Z) :=
    {| mode := mode;
       filters := list_to_map ((fun flag => (flag, true)) <$> filters);
       center := Some center;
       zoom := Some zoom;
       highlights := None |} in
  let directive_config : gmap string MapDirective :=
    {[ "gdp_national" := config "gdp" [] (MAP_CENTERS !!! "Indonesia") 5;
       "whitespots" :=
         config "whitespots" ["show_heatmap"; "show_financial"] center zoom;
       "risk_assessment" :=
         config "risk" ["show_heatmap"; "show_financial"; "highlight_risk"] center zoom;
       "bank_distribution" :=
         config "financial" ["show_financial"; "group_by_category"] center zoom;
       "business_analysis" :=
         config "business_analysis"
           ["show_heatmap"; "show_poi_density"; "show_financial"; "show_recommended_areas"]
           center 11 ]} in
  default (directive_config !!! "gdp_national") (directive_config !! intent).

(** Fixed prompts of the basic intents. *)
Definition simple_intents : gmap string string :=
  {[ "greeting" := "You are LocalPulse.AI assistant. Say hello, mention you help with banking/economic analysis, ask how to help. Be friendly and concise (max 2 sentences).";
     "general_info" := "You are LocalPulse.AI. Briefly explain you help analyze banking and economic data in Indonesia. Be concise (max 3 sentences).";
     "gdp_national" := "You are LocalPulse.AI. Give a general economic overview for Indonesia without detailed analysis (max 4 sentences)." ]}.

(** Create appropriate system prompt based on complexity. *)
Definition create_system_prompt (today : string) (intent location : string)
    (db_context : gmap string pyvalue) : string :=
  match simple_intents !! intent with
  | Some prompt => prompt
  | None =>
      unlines
        [ EmptyString;
          "        You are LocalPulse.AI, an advanced economic and banking analysis system for Indonesia.";
          EmptyString;
          "        **Analysis Context:**";
          "        - Intent: " +:+ intent;
          "        - Location: " +:+ location;
          "        - Date: " +:+ today;
          EmptyString;
          "        **Database Context:**";
          "        " +:+ json_dumps db_context;
          EmptyString;
          "        **Guidelines:**";
          "        1. Use real data from the context";
          "        2. Be specific with numbers and district names";
          "        3. Provide actionable insights";
          "        4. Match user's language (Indonesian/English)";
          "        5. Structure clearly with headings and bullet points";
          EmptyString;
          "        **Focus Areas:**";
          "        - whitespots: High-opportunity areas with specific recommendations";
          "        - risk_assessment: Branch vulnerability with risk classifications  ";
          "        - bank_distribution: Coverage analysis by district";
          "        - business_analysis: Market opportunities with competitive analysis";
          "        " ]
  end.

(** A value interpolated in an f-string. *)
Definition format_value (v : pyvalue) : string :=
  match v with
  | PyInt n => pretty n
  | _ => repr v
  end.

(** [db_context.get(key, 0)], formatted. *)
Definition stat (db_context : gmap string pyvalue) (key : string) : string :=
  format_value (default (PyInt 0) (db_context !! key)).

(** Fallback response with available data. *)
Definition error_response (location : string) (db_context : gmap string pyvalue)
    (e : exn) : string :=
  unlines
    [ EmptyString;
      "            **⚠️ Analisis Terbatas - API Error**";
      "            ";
      "            Data " +:+ location +:+ ":";
      "            - Bank: " +:+ stat db_context "total_banks" +:+ " lokasi";
      "            - ATM: " +:+ stat db_context "total_atms" +:+ " lokasi  ";
      "            - POI: " +:+ stat db_context "total_poi" +:+ " titik aktivitas";
      "            ";
      "            Error: " +:+ e;
      "            " ].

(** [self.conversation_history.append(entry)] *)
Definition history_append (entry : conversation_entry) : M ClaudeService unit :=
  modify (fun self =>
            {| conversation_history := (conversation_history self ++ [entry])%list;
               _db_cache := _db_cache self |}).

(** [response.content[0].text] *)
Definition first_text (content : list string) : result string :=
  match content with
  | text :: _ => Return text
  | [] => Raise "list index out of range"
  end.

(** Generate intelligent response with map directives.  The [print] calls
    of the handlers write the text of the exception to standard output and
    are left out. *)
Definition generate_response (w : world) (query : string)
  : M ClaudeService (string * MapDirective) :=
  let '(intent, entities, location) := extract_intent_and_entities query in
  let map_directive := generate_map_directive intent location in
  let needs_deep_analysis :=
    bool_decide (intent ∈ ["whitespots"; "risk_assessment"; "business_analysis";
                           "bank_distribution"]) in
  db_context <- (if needs_deep_analysis
                 then get_database_context (db w) intent location
                 else get_basic_stats (db w) location) ;;
  let max_tokens := if needs_deep_analysis then 800 else 200 in
  context <- gets (deref db_context) ;;
  let system_prompt := create_system_prompt (today w) intent location context in
  try_except
    (content <- lift (messages_create w
                        {| model := "claude-3-5-sonnet-20241022";
                           max_tokens := max_tokens;
                           system := system_prompt;
                           messages :=
                             [("user",
                               "User Query: " +:+ dquote +:+ query +:+ dquote
                               +:+ newline +:+ newline
                               +:+ "Provide helpful response based on context.")] |}) ;;
     text <- lift (first_text content) ;;
     history_append {| timestamp := now w; query := query; response := text |} ;;;
     ret (text, map_directive))
    (fun e =>
       context <- gets (deref db_context) ;;
       ret (error_response location context e, map_directive)).

(** Get conversation history. *)
Definition get_conversation_history : M ClaudeService (list conversation_entry) :=
  gets conversation_history.

(** Clear conversation history and cache. *)
Definition clear_conversation_history : M ClaudeService unit :=
  modify (fun _ => {| conversation_history := []; _db_cache := ∅ |}).

End Service.
End Rag.

(** ** api.py: the financial-institutions endpoint *)

Module Api.
Import Duckdb.

(** Get database connection. *)
Definition get_db_connection (db : database) : result unit := connect db 0.

(** The dictionary built for each row. *)
Record institution : Type := {
  inst_id : Z;
  inst_name : string;
  inst_type : string;
  lat : Q;
  lng : Q;
  inst_province : string;
  inst_district : string;
  inst_rating : Q;
  inst_rating_count : Z;
  inst_gmaps_link : string;
  inst_bank_category : option string;
  inst_bank_colorcode : option string
}.

Definition institution_of_row (row : poi) : institution :=
  {| inst_id := id row;
     inst_name := name row;
     inst_type := category row;
     lat := latitude row;
     lng := longitude row;
     inst_province := province row;
     inst_district := district row;
     inst_rating := rating row;
     inst_rating_count := rating_count row;
     inst_gmaps_link := gmaps_link row;
     inst_bank_category := bank_category row;
     inst_bank_colorcode := bank_colorcode row |}.

(** The JSON bodies: [{success: True, count, data: {banks, atms}}] with
    status 200, or [{success: False, error}] with status 500. *)
Record financial_data : Type := {
  count : Z;
  banks : list institution;
  atms : list institution
}.

Inductive http_response : Type :=
| Ok200 (data : financial_data)
| Error500 (error : string).

(** Truth value of an optional query parameter: present and not empty. *)
Definition truthy (arg : option string) : bool :=
  match arg with
  | Some s => negb (String.eqb s EmptyString)
  | None => false
  end.

(** The [category = ?] parameter added for a recognised [type]. *)
Definition category_param (type_filter : option string) : option string :=
  match type_filter with
  | Some t =>
      if truthy type_filter && bool_decide (upper t ∈ ["BANK"; "ATM"])
      then Some (title t) else None
  | None => None
  end.

(** The loop that sorts the rows into the two lists. *)
Definition format_rows (result : list poi) : financial_data :=
  fold_left
    (fun data row =>
       let institution := institution_of_row row in
       if String.eqb (category row) "Bank"
       then {| count := count data;
               banks := (banks data ++ [institution])%list;
               atms := atms data |}
       else {| count := count data;
               banks := banks data;
               atms := (atms data ++ [institution])%list |})
    result
    {| count := Z.of_nat (length result); banks := []; atms := [] |}.

(** Get financial institutions data from poi_density table; the arguments
    are the query parameters [type], [province] and [district]. *)
Definition get_financial_data (db : database)
    (type_arg province_arg district_arg : option string) : http_response :=
  let body :=
    rbind (get_db_connection db) (fun conn =>
    let type_filter := type_arg in
    let province_filter := default "Bali" province_arg in
    let district_filter := district_arg in
    rbind (execute db FinancialInstitutions
             (financial_institutions (poi_density db) province_filter
                (if truthy district_filter then district_filter else None)
                (category_param type_filter))) (fun result =>
    rbind (close db) (fun _ =>
    Return (format_rows result)))) in
  match body with
  | Return data => Ok200 data
  | Raise e => Error500 e
  end.

End Api.

(** ** Sample data *)

Module Sample.
Import Duckdb.

Definition bank_denpasar : poi :=
  {| id := 1; name := "BCA KCU Denpasar"; category := "Bank";
     latitude := (-8.6525)%Q; longitude := 115.219%Q;
     province := "Bali"; district := "Denpasar"; intensity := 0.5%Q;
     rating := 4.2%Q; rating_count := 120; gmaps_link := "https://maps.example/1";
     bank_category := Some "BCA"; bank_colorcode := Some "#0060AF" |}.

Definition atm_kuta : poi :=
  {| id := 2; name := "ATM BNI Kuta"; category := "ATM";
     latitude := (-8.7185)%Q; longitude := 115.1686%Q;
     province := "Bali"; district := "Badung"; intensity := 0.5%Q;
     rating := 3.9%Q; rating_count := 14; gmaps_link := "https://maps.example/2";
     bank_category := Some "BNI"; bank_colorcode := Some "#F15A23" |}.

Definition cafe_ubud : poi :=
  {| id := 3; name := "Kopi Ubud"; category := "Cafe";
     latitude := (-8.5088)%Q; longitude := 115.2623%Q;
     province := "Bali"; district := "Gianyar"; intensity := 0.9%Q;
     rating := 4.7%Q; rating_count := 310; gmaps_link := "https://maps.example/3";
     bank_category := None; bank_colorcode := None |}.

Definition table : list poi := [bank_denpasar; atm_kuta; cafe_ubud].

(** A database file that cannot be opened. *)
Definition unreachable : database :=
  {| poi_density := table;
     connect_error := fun _ => Some "IO Error: Cannot open file";
     execute_error := fun _ => None;
     close_error := None;
     AVG := exact_avg;
     TIMES := Qmult;
     ROUND := exact_round;
     group_rank := fun _ _ => O |}.

(** A service that answered once and holds zero counts for Bali. *)
Definition stale : Rag.ClaudeService :=
  {| Rag.conversation_history :=
       [ {| Rag.timestamp := "2025-01-01T00:00:00";
            Rag.query := "Halo";
            Rag.response := "Halo!" |} ];
     Rag._db_cache := {[ "basic_stats_Bali" := Rag.zero_stats ]} |}.

End Sample.

(** ** api.py: the chat, search, conversation and health routes *)

Module Routes.
Import Duckdb.

#[local] Set Warnings "-register-all".

(** A parsed JSON body, as [request.get_json()] returns it; [JNonFinite]
    stands for the floats NaN and Infinity, which the parser accepts. *)
Inductive json : Type :=
| JNull
| JBool (b : bool)
| JNumber (x : Q)
| JNonFinite (text : string)
| JString (s : string)
| JArray (items : list json)
| JObject (fields : gmap string json).

(** Python truth value of a parsed body ([not data] is its negation). *)
Definition truth (data : json) : bool :=
  match data with
  | JNull => false
  | JBool b => b
  | JNumber x => negb (Qeq_bool x 0)
  | JNonFinite _ => true
  | JString s => negb (String.eqb s EmptyString)
  | JArray items => match items with [] => false | _ :: _ => true end
  | JObject fields => negb (size fields =? 0)%nat
  end.

(** The JSON form of a [MapDirective] in the chat response. *)
Record directive_json : Type := {
  mode : string;
  filters : gmap string bool;
  center : option (Q * Q);
  zoom : option Z;
  highlights : list (gmap string string)
}.

(** The chat route answers 200 with [{success: True, query, response,
    map_directive, timestamp}], or [{success: False, error}] with a status. *)
Inductive chat_response : Type :=
| ChatOk (query response : string) (map_directive : directive_json) (timestamp : string)
| ChatError (status : Z) (error : string).

Inductive search_response : Type :=
| SearchOk (query location : json) (results : list json) (timestamp : string)
| SearchError (status : Z) (error : string).

Inductive conversation_response : Type :=
| HistoryOk (history : list Rag.conversation_entry)
| ClearedOk (message : string)
| ConversationError (status : Z) (error : string).

Record health : Type := {
  poi_total : Z;
  poi_financial : Z;
  poi_density : Z;
  enabled : bool;
  status : string;
  endpoints : list string
}.

Inductive health_response : Type :=
| HealthOk (report : health)
| HealthError (status : Z) (error : string).

(** The three COUNT statements of the health check. *)
Inductive health_statement : Type :=
| CountAll
| CountFinancial
| CountDensity.

(** Run a method of the service object held in the global
    [claude_service]. *)
Definition on_service {A} (m : M Rag.ClaudeService A) (self : Rag.ClaudeService)
  : M (option Rag.ClaudeService) A :=
  fun _ => let '(r, self') := m self in (r, Some self').

Section Handlers.

Variable lower : string -> string.
Variable json_dumps : gmap string Rag.pyvalue -> string.
Variable repr : Rag.pyvalue -> string.
(** [str.strip] *)
Variable strip : string -> string.
(** [str(e)] of the TypeError or AttributeError that an operation raises on
    a value it does not apply to. *)
Variable wrong_type : string -> json -> exn.
(** [print(text)]: writing to standard output encodes the text, which
    raises on a text that cannot be encoded -- a query can hold a lone
    surrogate, sent as a JSON escape. *)
Variable print : string -> result unit.
(** [len] of a string, in code points. *)
Variable len : string -> Z.

(** ['query' in data] *)
Definition contains_query (data : json) : result bool :=
  match data with
  | JObject fields =>
      Return (match fields !! "query" with Some _ => true | None => false end)
  | JArray items =>
      Return (existsb (fun item => match item with
                                   | JString s => String.eqb s "query"
                                   | _ => false
                                   end) items)
  | JString s => Return (str_in "query" s)
  | _ => Raise (wrong_type "in" data)
  end.

(** [data['query']] *)
Definition getitem_query (data : json) : result json :=
  match data with
  | JObject fields =>
      match fields !! "query" with
      | Some v => Return v
      | None => Raise "'query'"
      end
  | _ => Raise (wrong_type "getitem" data)
  end.

(** [v.strip()] *)
Definition strip_of (v : json) : result string :=
  match v with
  | JString s => Return (strip s)
  | _ => Raise (wrong_type "strip" v)
  end.

(** [data.get(key, default)] *)
Definition get_or (data : json) (key : string) (default_value : json) : result json :=
  match data with
  | JObject fields => Return (default default_value (fields !! key))
  | _ => Raise (wrong_type "get" data)
  end.

Definition directive_to_json (d : Rag.MapDirective) : directive_json :=
  {| mode := Rag.mode d;
     filters := Rag.filters d;
     center := Rag.center d;
     zoom := Rag.zoom d;
     highlights := default [] (Rag.highlights d) |}.

(** Main chat endpoint with Claude LLM integration.  [timestamp] is the
    clock when the response is built.  An exception of the handler's own
    [print] leaves the route. *)
Definition chat_endpoint (w : Rag.world) (timestamp : string)
    (request_json : result json) : M (option Rag.ClaudeService) chat_response :=
  try_except
    (data <- lift request_json ;;
     missing <- lift (if negb (truth data) then Return true
                      else rbind (contains_query data) (fun c => Return (negb c))) ;;
     if missing : bool then ret (ChatError 400 "Query is required")
     else
       query <- lift (rbind (getitem_query data) strip_of) ;;
       claude_service <- gets (fun service : option Rag.ClaudeService => service) ;;
       match claude_service with
       | None =>
           ret (ChatError 503
                  "Claude service not available. Please set CLAUDE_API_KEY environment variable.")
       | Some self =>
           lift (print ("Processing query: " +:+ query)) ;;;
           answer <- on_service (Rag.generate_response lower json_dumps repr w query) self ;;
           let '(response_text, map_directive) := answer in
           lift (print ("Response generated: " +:+ pretty (len response_text)
                        +:+ " characters")) ;;;
           ret (ChatOk query response_text (directive_to_json map_directive) timestamp)
       end)
    (fun e =>
       lift (print ("Chat endpoint error: " +:+ e)) ;;;
       ret (ChatError 500 e)).

(** Perform web search for real-time data: a placeholder. *)
Definition perform_web_search (query location : json) : list json := [].

(** Web search integration for real-time data. *)
Definition search_endpoint (timestamp : string) (request_json : result json)
  : search_response :=
  match
    rbind request_json (fun data =>
    rbind (get_or data "query" (JString EmptyString)) (fun query =>
    rbind (get_or data "location" (JString "Bali")) (fun location =>
    let search_results := perform_web_search query location in
    Return (SearchOk query location search_results timestamp))))
  with
  | Return response => response
  | Raise e => SearchError 500 e
  end.

(** Get conversation history. *)
Definition get_conversation_history : M (option Rag.ClaudeService) conversation_response :=
  claude_service <- gets (fun service : option Rag.ClaudeService => service) ;;
  match claude_service with
  | None => ret (ConversationError 503 "Claude service not available")
  | Some self =>
      try_except
        (history <- on_service Rag.get_conversation_history self ;;
         ret (HistoryOk history))
        (fun e => ret (ConversationError 500 e))
  end.

(** Clear conversation history. *)
Definition clear_conversation_history : M (option Rag.ClaudeService) conversation_response :=
  claude_service <- gets (fun service : option Rag.ClaudeService => service) ;;
  match claude_service with
  | None => ret (ConversationError 503 "Claude service not available")
  | Some self =>
      try_except
        (on_service Rag.clear_conversation_history self ;;;
         ret (ClearedOk "Conversation history cleared"))
        (fun e => ret (ConversationError 500 e))
  end.

(** Enhanced health check with Claude service status.  [health_error]
    tells which of the three statements raise. *)
Definition health_check (db : database) (health_error : health_statement -> option exn)
    (claude_service : option Rag.ClaudeService) : health_response :=
  let table := Duckdb.poi_density db in
  let run (stmt : health_statement) (n : Z) : result Z :=
    rbind (outcome (health_error stmt)) (fun _ => Return n) in
  match
    rbind (Api.get_db_connection db) (fun conn =>
    rbind (run CountAll (Z.of_nat (length table))) (fun poi_total =>
    rbind (run CountFinancial
             (count_where (fun r => is_financial (category r)) table)) (fun poi_financial =>
    rbind (run CountDensity
             (count_where (fun r => negb (is_financial (category r))) table)) (fun poi_density =>
    rbind (close db) (fun _ =>
    Return {| poi_total := poi_total;
              poi_financial := poi_financial;
              poi_density := poi_density;
              enabled := match claude_service with Some _ => true | None => false end;
              status := match claude_service with
                        | Some _ => "ready" | None => "disabled" end;
              endpoints := ["/api/financial"; "/api/poi"; "/api/health"; "/api/chat";
                            "/api/search"] |})))))
  with
  | Return report => HealthOk report
  | Raise e => HealthError 500 e
  end.

End Handlers.
End Routes.

(** ** db.py: the connection manager *)

Module Manager.

(** The attributes of a [DatabaseManager]: whether [_lock] (a
    [threading.Lock], not reentrant) is held, whether [_connection] is an
    open connection, and [_connection_count]. *)
Record DatabaseManager : Type := {
  lock_held : bool;
  connected : bool;
  _connection_count : Z
}.

(** [__init__] *)
Definition init : DatabaseManager :=
  {| lock_held := false; connected := false; _connection_count := 0 |}.

(** A call returns, raises, or blocks for ever on a lock. *)
Inductive outcome (A : Type) : Type :=
| Finished (r : result A)
| Blocked.
Arguments Finished {A} r.
Arguments Blocked {A}.

Definition T (A : Type) : Type := DatabaseManager -> outcome A * DatabaseManager.

Definition done {A} (a : A) : T A := fun self => (Finished (Return a), self).
Definition throw {A} (e : exn) : T A := fun self => (Finished (Raise e), self).
Definition andthen {A B} (m : T A) (k : A -> T B) : T B :=
  fun self =>
    match m self with
    | (Finished (Return a), self') => k a self'
    | (Finished (Raise e), self') => (Finished (Raise e), self')
    | (Blocked, self') => (Blocked, self')
    end.
Definition update (f : DatabaseManager -> DatabaseManager) : T unit :=
  fun self => (Finished (Return tt), f self).

(** [try: body  except Exception as e: handler(e)  finally: cleanup]; a
    blocked body or handler never reaches the cleanup. *)
Definition try_except_finally {A} (body : T A) (handler : exn -> T A) (cleanup : T unit)
  : T A :=
  fun self =>
    let after :=
      match body self with
      | (Finished (Raise e), self') => handler e self'
      | other => other
      end in
    match after with
    | (Finished r, self') =>
        match cleanup self' with
        | (Finished (Return _), self'') => (Finished r, self'')
        | (Finished (Raise e), self'') => (Finished (Raise e), self'')
        | (Blocked, self'') => (Blocked, self'')
        end
    | (Blocked, self') => (Blocked, self')
    end.

(** [with self._lock: body]: acquiring a held lock blocks; the lock is
    released however the body ends, unless it blocks. *)
Definition with_lock {A} (body : T A) : T A :=
  fun self =>
    if lock_held self then (Blocked, self)
    else
      match body {| lock_held := true; connected := connected self;
                    _connection_count := _connection_count self |} with
      | (Finished r, self') =>
          (Finished r, {| lock_held := false; connected := connected self';
                          _connection_count := _connection_count self' |})
      | (Blocked, self') => (Blocked, self')
      end.

(** Get or create a database connection; [connect_error] is what
    [duckdb.connect] raises, if it does. *)
Definition _get_connection (connect_error : option exn) : T unit :=
  fun self =>
    if connected self then (Finished (Return tt), self)
    else match connect_error with
         | Some e => (Finished (Raise e), self)
         | None => (Finished (Return tt),
                    {| lock_held := lock_held self; connected := true;
                       _connection_count := _connection_count self |})
         end.

(** Safely close the database connection; an error of [close] is logged
    and dropped. *)
Definition close_connection : T unit :=
  with_lock
    (fun self =>
       if connected self
       then (Finished (Return tt),
             {| lock_held := lock_held self; connected := false; _connection_count := 0 |})
       else (Finished (Return tt), self)).

(** Context manager for safe database connections, around [body]. *)
Definition get_connection {A} (connect_error : option exn) (body : T A) : T A :=
  with_lock
    (andthen (update (fun self =>
                        {| lock_held := lock_held self; connected := connected self;
                           _connection_count := _connection_count self + 1 |})) (fun _ =>
     andthen (_get_connection connect_error) (fun conn =>
     try_except_finally
       body
       (fun e => andthen close_connection (fun _ => throw e))
       (update (fun self =>
                  {| lock_held := lock_held self; connected := connected self;
                     _connection_count := _connection_count self - 1 |}))))).

(** Execute a query safely; [fetched] is what
    [conn.execute(...).fetchall()] returns or raises. *)
Definition execute_query {A} (connect_error : option exn) (fetched : result A) : T A :=
  get_connection connect_error
    (fun self => (Finished fetched, self)).

End Manager.

(** ** Invariants of the service state *)

Module Invariants.
Import Rag.

(** A context dictionary holds the three counts, as integers. *)
Definition has_totals (d : gmap string pyvalue) : Prop :=
  exists banks atms poi : Z,
    d !! "total_banks" = Some (PyInt banks)
    /\ d !! "total_atms" = Some (PyInt atms)
    /\ d !! "total_poi" = Some (PyInt poi).

(** Every dictionary of the cache does. *)
Definition cache_holds_totals (self : ClaudeService) : Prop :=
  forall cache_key d, _db_cache self !! cache_key = Some d -> has_totals d.

(** A reference handed out by the service points to something. *)
Definition valid_ref (r : dict_ref) (self : ClaudeService) : Prop :=
  match r with
  | Cached cache_key => is_Some (_db_cache self !! cache_key)
  | Fresh _ => True
  end.

Section Reachable.
Variable lower : string -> string.
Variable json_dumps : gmap string pyvalue -> string.
Variable repr : pyvalue -> string.

(** The states a service goes through: created, then any sequence of its
    public operations, against any database and LLM. *)
Inductive reachable : ClaudeService -> Prop :=
| reach_init : reachable init
| reach_basic_stats db location self :
    reachable self -> reachable (snd (get_basic_stats db location self))
| reach_database_context db intent location self :
    reachable self -> reachable (snd (get_database_context db intent location self))
| reach_response w query self :
    reachable self ->
    reachable (snd (generate_response lower json_dumps repr w query self))
| reach_clear self :
    reachable self -> reachable (snd (clear_conversation_history self)).

End Reachable.

(** A reference that points to something holding the counts. *)
Definition good_ref (r : dict_ref) (self : ClaudeService) : Prop :=
  valid_ref r self /\ has_totals (deref r self).

(** [m] returns from every state whose cache holds the counts, into such
    a state, with a result satisfying [post]. *)
Definition keeps_totals {A} (m : M ClaudeService A)
    (post : A -> ClaudeService -> Prop) : Prop :=
  forall self, cache_holds_totals self ->
    exists a self', m self = (Return a, self')
      /\ cache_holds_totals self' /\ post a self'.

End Invariants.

(** ** The financial query, clause by clause *)

Module FinancialQuery.
Import Duckdb.

(** The comparison of [ORDER BY category, name]. *)
Definition by_category_name (a b : poi) : bool :=
  match String.compare (category a) (category b) with
  | Lt => true
  | Gt => false
  | Eq => string_le (name a) (name b)
  end.

(** The WHERE clause of the financial query. *)
Definition financial_where (province_filter : string)
    (district_param category_param : option string) (r : poi) : bool :=
  is_financial (category r) && in_province province_filter r
  && from_option (String.eqb (district r)) true district_param
  && from_option (String.eqb (category r)) true category_param.

End FinancialQuery.

(** ** More sample data *)

Module Examples.
Import Duckdb.

(** A database file that opens at the second attempt. *)
Definition flaky : database :=
  {| poi_density := Sample.table;
     connect_error := fun attempt =>
       match attempt with O => Some "IO Error: file is locked" | _ => None end;
     execute_error := fun _ => None;
     close_error := None;
     AVG := exact_avg;
     TIMES := Qmult;
     ROUND := exact_round;
     group_rank := fun _ _ => O |}.

(** Stand-ins for the serializers, for running the service on an example. *)
Definition plain_json (context : gmap string Rag.pyvalue) : string := "{}".
Definition plain_repr (v : Rag.pyvalue) : string := "[]".

(** The world when the LLM cannot be reached, and when it answers. *)
Definition offline : Rag.world :=
  {| Rag.db := healthy Sample.table;
     Rag.messages_create := fun _ => Raise "Connection error.";
     Rag.today := "2025-01-01";
     Rag.now := "2025-01-01T09:00:00" |}.

Definition online : Rag.world :=
  {| Rag.db := healthy Sample.table;
     Rag.messages_create := fun _ => Return ["Halo! Ada yang bisa saya bantu?"];
     Rag.today := "2025-01-01";
     Rag.now := "2025-01-01T09:00:00" |}.

End Examples.

(** * Properties *)

Import Duckdb.

(** ** District classification *)

Lemma Qltb_lt (x y : Q) : Qltb x y = true <-> (x < y)%Q.
Proof.
  unfold Qltb. rewrite negb_true_iff, <- not_true_iff_false, Qle_bool_iff.
  split; [apply Qnot_le_lt | apply Qlt_not_le].
Qed.

Lemma Qltb_ge (x y : Q) : Qltb x y = false <-> (y <= x)%Q.
Proof. unfold Qltb. rewrite negb_false_iff. apply Qle_bool_iff. Qed.

(** A rule [avg > c AND total < k] of the CASE expression is taken exactly
    when both comparisons hold. *)
Lemma when_gt_lt (avg c : Q) (total k : Z) :
  when (sql_and (sql_gt (Some avg) c) (Some (total <? k))) = true
  <-> (c < avg)%Q /\ total < k.
Proof.
  cbn. rewrite <- Qltb_lt, <- Z.ltb_lt.
  destruct (Qltb c avg), (total <? k); cbn; intuition congruence.
Qed.

Lemma when_lt_gt (avg c : Q) (total k : Z) :
  when (sql_and (sql_lt (Some avg) c) (Some (total >? k))) = true
  <-> (avg < c)%Q /\ total > k.
Proof.
  cbn. rewrite <- Qltb_lt, Z.gt_lt_iff, <- Z.ltb_lt, Z.gtb_ltb.
  destruct (Qltb avg c), (k <? total); cbn; intuition congruence.
Qed.

(** A district without POI rows has a NULL average: no rule is TRUE. *)
Lemma area_classification_null (total : Z) :
  area_classification None total = "BALANCED".
Proof.
  unfold area_classification. cbn.
  destruct (total <? 2), (total <? 3), (total >? 2), (total >? 0); reflexivity.
Qed.

(** Every row the district query returns is classified by
    [area_classification] from its own total and the average of the join. *)
Lemma district_analysis_rows (db : database) (location : string) :
  Forall (fun row : district_row =>
            let '(_, _, _, total_financial, avg_poi_density, classification) := row in
            exists avg : option Q,
              avg_poi_density = default 0%Q avg
              /\ classification = area_classification avg total_financial)
         (district_analysis db location).
Proof.
  unfold district_analysis. apply Forall_forall. intros row Hrow.
  apply list_elem_of_In, in_map_iff in Hrow as ([[[[d b] a] t] avg] & <- & _).
  exists avg. split; reflexivity.
Qed.

(** C1 (as amended): the classification of a district with average
    intensity [avg] and [total] financial points follows the threshold
    rules in order -- [avg > 0.7] and [total < 2]: HIGH_PRIORITY_WHITESPACE;
    [avg > 0.5] and [total < 3]: MEDIUM_PRIORITY_WHITESPACE; [avg < 0.3] and
    [total > 2]: POTENTIAL_RISK_OVERSUPPLY; [avg < 0.2] and [total > 0]:
    HIGH_RISK_LOW_DEMAND; otherwise BALANCED.  (0.8, 1) is
    HIGH_PRIORITY_WHITESPACE, (0.2, 5) is POTENTIAL_RISK_OVERSUPPLY,
    (0.4, 1) is BALANCED, and every threshold is strict: at exactly 0.7,
    0.5, 0.3 or 0.2 the rule of that threshold is not taken. *)
Theorem area_classification_rules (avg : Q) (total : Z) :
  let high := (0.7 < avg)%Q /\ total < 2 in
  let medium := (0.5 < avg)%Q /\ total < 3 in
  let oversupply := (avg < 0.3)%Q /\ total > 2 in
  let low_demand := (avg < 0.2)%Q /\ total > 0 in
  (high -> area_classification (Some avg) total = "HIGH_PRIORITY_WHITESPACE")
  /\ (~ high -> medium ->
      area_classification (Some avg) total = "MEDIUM_PRIORITY_WHITESPACE")
  /\ (~ high -> ~ medium -> oversupply ->
      area_classification (Some avg) total = "POTENTIAL_RISK_OVERSUPPLY")
  /\ (~ high -> ~ medium -> ~ oversupply -> low_demand ->
      area_classification (Some avg) total = "HIGH_RISK_LOW_DEMAND")
  /\ (~ high -> ~ medium -> ~ oversupply -> ~ low_demand ->
      area_classification (Some avg) total = "BALANCED")
  /\ area_classification (Some 0.8%Q) 1 = "HIGH_PRIORITY_WHITESPACE"
  /\ area_classification (Some 0.2%Q) 5 = "POTENTIAL_RISK_OVERSUPPLY"
  /\ area_classification (Some 0.4%Q) 1 = "BALANCED"
  /\ area_classification (Some 0.7%Q) total =
       (if total <? 3 then "MEDIUM_PRIORITY_WHITESPACE" else "BALANCED")
  /\ area_classification (Some 0.5%Q) total = "BALANCED"
  /\ area_classification (Some 0.3%Q) total = "BALANCED"
  /\ area_classification (Some 0.2%Q) total =
       (if total >? 2 then "POTENTIAL_RISK_OVERSUPPLY" else "BALANCED").
Proof.
  cbv zeta.
  assert (Hfirst : forall c : bool, c = false <-> ~ c = true)
    by (intros []; intuition congruence).
  pose proof (when_gt_lt avg 0.7 total 2) as H1.
  pose proof (when_gt_lt avg 0.5 total 3) as H2.
  pose proof (when_lt_gt avg 0.3 total 2) as H3.
  pose proof (when_lt_gt avg 0.2 total 0) as H4.
  unfold area_classification.
  set (w1 := when (sql_and (sql_gt (Some avg) 0.7) _)) in *.
  set (w2 := when (sql_and (sql_gt (Some avg) 0.5) _)) in *.
  set (w3 := when (sql_and (sql_lt (Some avg) 0.3) _)) in *.
  set (w4 := when (sql_and (sql_lt (Some avg) 0.2) _)) in *.
  rewrite <- H1, <- H2, <- H3, <- H4, <- !Hfirst.
  clearbody w1 w2 w3 w4. clear H1 H2 H3 H4 Hfirst.
  repeat match goal with |- _ /\ _ => split end.
  1-5: intros; repeat match goal with H : _ = _ |- _ => rewrite H; clear H end;
       reflexivity.
  1-3: reflexivity.
  all: cbn; destruct (total <? 2) eqn:E2, (total <? 3) eqn:E3,
         (total >? 2) eqn:E4, (total >? 0) eqn:E5; try reflexivity; lia.
Qed.

(** Witness for C1: the district (0.8, 1) satisfies the first rule. *)
Lemma area_classification_rules_witness :
  area_classification (Some 0.8%Q) 1 = "HIGH_PRIORITY_WHITESPACE".
Proof.
  apply (proj1 (area_classification_rules 0.8%Q 1)).
  split; [reflexivity | lia].
Defined.

(** C1 as stated fails at (0.2, 5): the third rule ([avg < 0.3] and
    [total > 2]) comes before the fourth, whose [avg < 0.2] is false
    at 0.2 anyway. *)
Lemma area_classification_02_5 :
  area_classification (Some 0.2%Q) 5 = "POTENTIAL_RISK_OVERSUPPLY"
  /\ area_classification (Some 0.2%Q) 5 <> "HIGH_RISK_LOW_DEMAND".
Proof. split; [reflexivity | discriminate]. Qed.

(** ** Map directives *)

Lemma MAP_CENTERS_lookup (location : string) :
  Rag.MAP_CENTERS !! location =
    if String.eqb location "Bali" then Some ((-8.6705)%Q, 115.2126%Q)
    else if String.eqb location "Indonesia" then Some ((-2.5)%Q, 118%Q)
    else None.
Proof.
  unfold Rag.MAP_CENTERS.
  destruct (String.eqb_spec location "Bali") as [->|Hb]; [reflexivity|].
  rewrite lookup_insert_ne by congruence.
  destruct (String.eqb_spec location "Indonesia") as [->|Hi]; [reflexivity|].
  rewrite lookup_singleton_ne by congruence. reflexivity.
Qed.

(** [directive_config.get(intent, directive_config["gdp_national"])] on a
    table of the five entries. *)
Lemma directive_config_get (g w r b a : Rag.MapDirective) (intent : string) :
  let directive_config : gmap string Rag.MapDirective :=
    {[ "gdp_national" := g; "whitespots" := w; "risk_assessment" := r;
       "bank_distribution" := b; "business_analysis" := a ]} in
  default (directive_config !!! "gdp_national") (directive_config !! intent) =
    if String.eqb intent "gdp_national" then g
    else if String.eqb intent "whitespots" then w
    else if String.eqb intent "risk_assessment" then r
    else if String.eqb intent "bank_distribution" then b
    else if String.eqb intent "business_analysis" then a
    else g.
Proof.
  cbv zeta. rewrite lookup_total_insert_eq.
  repeat (match goal with
          | |- context [String.eqb intent ?k] =>
              destruct (String.eqb_spec intent k) as [->|?];
              [reflexivity
              | rewrite ?lookup_insert_ne, ?lookup_singleton_ne by congruence]
          end).
  reflexivity.
Qed.

(** C2 (as amended): for the intents whitespots, risk_assessment,
    bank_distribution and business_analysis the center of the directive is
    resolved from the location table (Bali, Indonesia), defaulting to the
    Bali center for any other location; for gdp_national and for every
    unknown intent the center is the Indonesia center, whatever the
    location. *)
Theorem generate_map_directive_center (intent location : string) :
  Rag.center (Rag.generate_map_directive intent location) =
    Some (if bool_decide (intent ∈ ["whitespots"; "risk_assessment";
                                    "bank_distribution"; "business_analysis"])
          then (if String.eqb location "Bali" then ((-8.6705)%Q, 115.2126%Q)
                else if String.eqb location "Indonesia" then ((-2.5)%Q, 118%Q)
                else ((-8.6705)%Q, 115.2126%Q))
          else ((-2.5)%Q, 118%Q)).
Proof.
  unfold Rag.generate_map_directive. cbv zeta.
  rewrite directive_config_get, MAP_CENTERS_lookup.
  repeat (match goal with
          | |- context [String.eqb intent ?k] =>
              destruct (String.eqb_spec intent k) as [->|?]
          end; [vm_compute bool_decide; cbn;
                try (destruct (String.eqb location "Bali"),
                       (String.eqb location "Indonesia")); reflexivity |]).
  rewrite bool_decide_eq_false_2; [reflexivity|].
  rewrite !elem_of_cons, elem_of_nil. intuition congruence.
Qed.

(** C2 as stated fails: at the same location "Bali" the intent gdp_national
    gets the Indonesia center and whitespots the Bali center. *)
Lemma generate_map_directive_center_by_intent :
  Rag.center (Rag.generate_map_directive "gdp_national" "Bali")
    = Some ((-2.5)%Q, 118%Q)
  /\ Rag.center (Rag.generate_map_directive "whitespots" "Bali")
    = Some ((-8.6705)%Q, 115.2126%Q).
Proof. split; vm_compute; reflexivity. Qed.

Lemma generate_map_directive_zoom_business (location : string) :
  Rag.zoom (Rag.generate_map_directive "business_analysis" location) = Some 11.
Proof.
  unfold Rag.generate_map_directive. cbv zeta.
  rewrite directive_config_get. reflexivity.
Qed.

(** ** Intent and entity extraction *)

Lemma starts_with_spec (w s : string) :
  starts_with w s = true <-> exists rest, s = w +:+ rest.
Proof.
  revert s. induction w as [|c w IH]; intros s; cbn.
  - split; [intros _; exists s; reflexivity | reflexivity].
  - destruct s as [|c' s]; cbn.
    + split; [discriminate | intros [rest H]; discriminate].
    + rewrite andb_true_iff, IH, Ascii.eqb_eq.
      split; [intros [-> [rest ->]]; exists rest; reflexivity|].
      intros [rest H]. injection H as -> ->. split; [reflexivity | exists rest; reflexivity].
Qed.

(** [str_in] is the substring test. *)
Lemma str_in_spec (w s : string) :
  str_in w s = true <-> exists before rest, s = before +:+ w +:+ rest.
Proof.
  induction s as [|c s IH]; cbn [str_in]; rewrite orb_true_iff, starts_with_spec.
  - split.
    + intros [[rest H]|H]; [|discriminate]. exists EmptyString, rest. exact H.
    + intros ([|c b] & rest & H); [left; exists rest; exact H | discriminate].
  - rewrite IH. split.
    + intros [[rest H]|(b & rest & H)].
      * exists EmptyString, rest. exact H.
      * exists (String c b), rest. rewrite H. reflexivity.
    + intros ([|c' b] & rest & H).
      * left. exists rest. exact H.
      * right. exists b, rest. injection H as _ H. exact H.
Qed.

Lemma first_matching_intent_found (before after : list (string * list string))
    (intent : string) (keywords : list string) (q default_intent : string) :
  existsb (fun word => str_in word q) keywords = true ->
  (forall i ks, In (i, ks) before -> existsb (fun word => str_in word q) ks = false) ->
  Rag.first_matching_intent (before ++ (intent, keywords) :: after)%list q default_intent
  = intent.
Proof.
  intros Hhit. induction before as [|[i ks] before IH]; intros Hmiss; cbn.
  - now rewrite Hhit.
  - rewrite (Hmiss i ks) by (left; reflexivity).
    apply IH. intros i' ks' Hin. apply (Hmiss i' ks'). right. exact Hin.
Qed.

Lemma first_matching_intent_default (table : list (string * list string))
    (q default_intent : string) :
  (forall i ks, In (i, ks) table -> existsb (fun word => str_in word q) ks = false) ->
  Rag.first_matching_intent table q default_intent = default_intent.
Proof.
  induction table as [|[i ks] table IH]; intros Hmiss; cbn; [reflexivity|].
  rewrite (Hmiss i ks) by (left; reflexivity).
  apply IH. intros i' ks' Hin. apply (Hmiss i' ks'). right. exact Hin.
Qed.

Lemma existsb_str_in_false (q : string) (ks : list string) :
  (forall w, In w ks -> str_in w q = false) ->
  existsb (fun word => str_in word q) ks = false.
Proof.
  intros H. apply not_true_iff_false. rewrite existsb_exists.
  intros (w & Hin & Hw). rewrite (H w Hin) in Hw. discriminate.
Qed.

Section Extraction.

Variable lower : string -> string.

Lemma extract_location (query : string) :
  snd (Rag.extract_intent_and_entities lower query) =
    if str_in "bali" (lower query) then "Bali"
    else if String.eqb (fst (fst (Rag.extract_intent_and_entities lower query)))
                       "gdp_national"
         then "Indonesia" else "Bali".
Proof. reflexivity. Qed.

(** C3: the intents are tried in the order greeting, whitespots,
    risk_assessment, gdp_national, business_analysis, bank_distribution;
    a query whose lower-cased text contains a keyword of an intent and no
    keyword of an earlier-listed intent gets that intent, and a query that
    contains no keyword at all gets "general_info". *)
Theorem extract_intent_first_match (query : string) :
  let intent_of q := fst (fst (Rag.extract_intent_and_entities lower q)) in
  map fst Rag.INTENT_KEYWORDS =
    ["greeting"; "whitespots"; "risk_assessment"; "gdp_national";
     "business_analysis"; "bank_distribution"]
  /\ (forall before intent keywords after word,
        Rag.INTENT_KEYWORDS = (before ++ (intent, keywords) :: after)%list ->
        In word keywords ->
        str_in word (lower query) = true ->
        (forall i ks w, In (i, ks) before -> In w ks -> str_in w (lower query) = false) ->
        intent_of query = intent)
  /\ ((forall i ks w, In (i, ks) Rag.INTENT_KEYWORDS -> In w ks ->
                      str_in w (lower query) = false) ->
      intent_of query = "general_info").
Proof.
  cbv zeta. unfold Rag.extract_intent_and_entities. cbn [fst].
  split; [reflexivity | split].
  - intros before intent keywords after word -> Hin Hword Hmiss.
    apply first_matching_intent_found.
    + apply existsb_exists. exists word. split; assumption.
    + intros i ks Hiks. apply existsb_str_in_false. intros w Hw.
      apply (Hmiss i ks w); assumption.
  - intros Hmiss. apply first_matching_intent_default.
    intros i ks Hiks. apply existsb_str_in_false. intros w Hw.
    apply (Hmiss i ks w); assumption.
Qed.

(** C6: the location is "Bali" when the lower-cased query contains "bali";
    otherwise it is "Indonesia" exactly when the intent is "gdp_national",
    and "Bali" for every other intent. *)
Theorem extract_location_resolution (query : string) :
  let '(intent, _, location) := Rag.extract_intent_and_entities lower query in
  (str_in "bali" (lower query) = true -> location = "Bali")
  /\ (str_in "bali" (lower query) = false -> intent = "gdp_national" ->
      location = "Indonesia")
  /\ (str_in "bali" (lower query) = false -> intent <> "gdp_national" ->
      location = "Bali")
  /\ (location = "Indonesia" <->
      str_in "bali" (lower query) = false /\ intent = "gdp_national").
Proof.
  unfold Rag.extract_intent_and_entities. cbv zeta.
  set (intent := Rag.first_matching_intent _ _ _).
  destruct (str_in "bali" (lower query)) eqn:Hbali;
    [|destruct (String.eqb_spec intent "gdp_national") as [Hi|Hi]];
    intuition (discriminate || congruence).
Qed.

(** C8: [generate_map_directive "business_analysis" "Bali"] has zoom 11
    and the Bali center, and so has the directive of every query that is
    classified as business_analysis: its location is "Bali", whatever
    entities were extracted. *)
Theorem business_analysis_directive :
  Rag.zoom (Rag.generate_map_directive "business_analysis" "Bali") = Some 11
  /\ Rag.center (Rag.generate_map_directive "business_analysis" "Bali")
     = Some ((-8.6705)%Q, 115.2126%Q)
  /\ forall query intent entities location,
       Rag.extract_intent_and_entities lower query = (intent, entities, location) ->
       intent = "business_analysis" ->
       location = "Bali"
       /\ Rag.zoom (Rag.generate_map_directive intent location) = Some 11
       /\ Rag.center (Rag.generate_map_directive intent location)
          = Some ((-8.6705)%Q, 115.2126%Q).
Proof.
  split; [apply generate_map_directive_zoom_business | split].
  - vm_compute. reflexivity.
  - intros query intent entities location Hex ->.
    assert (location = "Bali") as ->.
    { pose proof (extract_location query) as H.
      rewrite Hex in H. cbn in H. rewrite H.
      destruct (str_in "bali" (lower query)); reflexivity. }
    split; [reflexivity | split].
    + apply generate_map_directive_zoom_business.
    + vm_compute. reflexivity.
Qed.

End Extraction.

(** ** Database access of the service *)

Ltac run :=
  unfold bind, ret, lift, gets, modify, try_except, raise.

Lemma session_ok (db : database) (stmts : list statement) :
  ~ Rag.session_raises db stmts ->
  Rag.get_db_connection db = Return tt
  /\ (forall stmt, In stmt stmts -> execute_error db stmt = None)
  /\ close_error db = None.
Proof.
  unfold Rag.session_raises. intros H. repeat split.
  - destruct (Rag.get_db_connection db) as [[]|e] eqn:E; [reflexivity|].
    exfalso. apply H. left. reflexivity.
  - intros stmt Hin. destruct (execute_error db stmt) eqn:E; [|reflexivity].
    exfalso. apply H. right. left. exists stmt. rewrite E. eauto.
  - destruct (close_error db) eqn:E; [|reflexivity].
    exfalso. apply H. right. right. eauto.
Qed.

Lemma healthy_session (table : list poi) (stmts : list statement) :
  ~ Rag.session_raises (healthy table) stmts.
Proof.
  intros [H|[(stmt & _ & [e H])|[e H]]]; discriminate.
Qed.

Lemma query_basic_stats_raises (db : database) (location : string) :
  Rag.session_raises db [CountBanks; CountAtms; CountPoi] ->
  exists e, Rag.query_basic_stats db location = Raise e.
Proof.
  unfold Rag.session_raises, Rag.query_basic_stats, execute, close, outcome.
  intros [H|[(stmt & Hin & [e He])|[e He]]].
  - destruct (Rag.get_db_connection db); [discriminate | eauto].
  - destruct (Rag.get_db_connection db); cbn; [|eauto].
    destruct Hin as [<-|[<-|[<-|[]]]]; rewrite ?He; cbn; eauto;
      repeat (match goal with
              | |- context [execute_error db ?s] =>
                  destruct (execute_error db s); cbn; eauto
              end).
  - rewrite He.
    destruct (Rag.get_db_connection db); cbn; [|eauto].
    repeat (match goal with
            | |- context [execute_error db ?s] =>
                destruct (execute_error db s); cbn; eauto
            end).
Qed.

Lemma query_basic_stats_ok (db : database) (location : string) :
  ~ Rag.session_raises db [CountBanks; CountAtms; CountPoi] ->
  Rag.query_basic_stats db location =
    Return {[ "total_banks" := Rag.PyInt (count_banks (poi_density db) location);
              "total_atms" := Rag.PyInt (count_atms (poi_density db) location);
              "total_poi" := Rag.PyInt (count_poi (poi_density db) location) ]}.
Proof.
  intros H. apply session_ok in H as (Hc & He & Hx).
  unfold Rag.query_basic_stats, execute, close, outcome.
  rewrite Hc, Hx, !He by (cbn; tauto). reflexivity.
Qed.

(** [get_basic_stats] by cases: a cache hit, a computed and stored result,
    or the zero default that is not stored. *)
Lemma get_basic_stats_eq (db : database) (location : string) (self : Rag.ClaudeService) :
  Rag.get_basic_stats db location self =
    match Rag._db_cache self !! ("basic_stats_" +:+ location) with
    | Some _ => (Return (Rag.Cached ("basic_stats_" +:+ location)), self)
    | None =>
        match Rag.query_basic_stats db location with
        | Return stats =>
            (Return (Rag.Cached ("basic_stats_" +:+ location)),
             {| Rag.conversation_history := Rag.conversation_history self;
                Rag._db_cache :=
                  <[ "basic_stats_" +:+ location := stats ]> (Rag._db_cache self) |})
        | Raise _ => (Return (Rag.Fresh Rag.zero_stats), self)
        end
    end.
Proof.
  unfold Rag.get_basic_stats, Rag.cache_store. run.
  destruct (Rag._db_cache self !! _); [reflexivity|].
  destruct (Rag.query_basic_stats db location); reflexivity.
Qed.

Lemma get_district_analysis_eq (db : database) (location : string)
    (self : Rag.ClaudeService) :
  (Rag.session_raises db [DistrictAnalysis] ->
   Rag.get_district_analysis db location self = (Return [], self))
  /\ (~ Rag.session_raises db [DistrictAnalysis] ->
      Rag.get_district_analysis db location self
      = (Return (district_analysis db location), self)).
Proof.
  unfold Rag.get_district_analysis, execute, close, outcome. run. split.
  - unfold Rag.session_raises. intros [H|[(stmt & Hin & [e He])|[e He]]].
    + destruct (Rag.get_db_connection db); [discriminate | reflexivity].
    + destruct Hin as [<-|[]]. rewrite He.
      destruct (Rag.get_db_connection db); reflexivity.
    + rewrite He. destruct (Rag.get_db_connection db);
        [destruct (execute_error db DistrictAnalysis)|]; reflexivity.
  - intros H. apply session_ok in H as (Hc & He & Hx).
    rewrite Hc, Hx, He by (cbn; tauto). reflexivity.
Qed.

Lemma get_business_opportunities_eq (db : database) (location : string)
    (self : Rag.ClaudeService) :
  (Rag.session_raises db [BusinessOpportunities] ->
   Rag.get_business_opportunities db location self = (Return [], self))
  /\ (~ Rag.session_raises db [BusinessOpportunities] ->
      Rag.get_business_opportunities db location self
      = (Return (business_opportunities db location), self)).
Proof.
  unfold Rag.get_business_opportunities, execute, close, outcome. run. split.
  - unfold Rag.session_raises. intros [H|[(stmt & Hin & [e He])|[e He]]].
    + destruct (Rag.get_db_connection db); [discriminate | reflexivity].
    + destruct Hin as [<-|[]]. rewrite He.
      destruct (Rag.get_db_connection db); reflexivity.
    + rewrite He. destruct (Rag.get_db_connection db);
        [destruct (execute_error db BusinessOpportunities)|]; reflexivity.
  - intros H. apply session_ok in H as (Hc & He & Hx).
    rewrite Hc, Hx, He by (cbn; tauto). reflexivity.
Qed.

Lemma returns_bind {A B} (m : M Rag.ClaudeService A) (k : A -> M Rag.ClaudeService B)
    (self : Rag.ClaudeService) :
  Rag.returns m self -> (forall a self', Rag.returns (k a) self') ->
  Rag.returns (bind m k) self.
Proof.
  intros (a & self1 & Hm & H1) Hk. destruct (Hk a self1) as (b & self2 & Hb & H2).
  exists b, self2. unfold bind. rewrite Hm. split; [exact Hb | congruence].
Qed.

Lemma returns_ret {A} (a : A) (self : Rag.ClaudeService) : Rag.returns (ret a) self.
Proof. exists a, self. split; reflexivity. Qed.

Lemma returns_get_basic_stats db location self :
  Rag.returns (Rag.get_basic_stats db location) self.
Proof.
  unfold Rag.returns. rewrite get_basic_stats_eq.
  destruct (Rag._db_cache self !! _); [eauto|].
  destruct (Rag.query_basic_stats db location); eauto.
Qed.

Lemma returns_get_district_analysis db location self :
  Rag.returns (Rag.get_district_analysis db location) self.
Proof.
  unfold Rag.returns, Rag.get_district_analysis. run.
  destruct (Rag.get_db_connection db); [|eauto].
  destruct (execute db DistrictAnalysis _); [|eauto].
  destruct (close db); eauto.
Qed.

Lemma returns_get_business_opportunities db location self :
  Rag.returns (Rag.get_business_opportunities db location) self.
Proof.
  unfold Rag.returns, Rag.get_business_opportunities. run.
  destruct (Rag.get_db_connection db); [|eauto].
  destruct (execute db BusinessOpportunities _); [|eauto].
  destruct (close db); eauto.
Qed.

Lemma returns_setitem r key v self : Rag.returns (Rag.setitem r key v) self.
Proof. destruct r; unfold Rag.returns, Rag.setitem; run; eauto. Qed.

Lemma returns_get_database_context db intent location self :
  Rag.returns (Rag.get_database_context db intent location) self.
Proof.
  unfold Rag.get_database_context.
  apply returns_bind; [apply returns_get_basic_stats|]. intros context self1.
  destruct (_ || _).
  - apply returns_bind; [apply returns_get_district_analysis|]. intros.
    apply returns_setitem.
  - destruct (String.eqb intent _); [|apply returns_ret].
    apply returns_bind; [apply returns_get_business_opportunities|]. intros.
    apply returns_bind; [apply returns_setitem|]. intros.
    destruct (String.eqb _ _); [apply returns_setitem | apply returns_ret].
Qed.

(** C5: when the database session of the operation raises (connecting,
    executing a statement or closing), [get_basic_stats] -- which only
    queries on a cache miss -- returns the zero-valued mapping
    {total_banks: 0, total_atms: 0, total_poi: 0}, and
    [get_district_analysis] and [get_business_opportunities] return the
    empty list; none of them, nor [get_database_context], ever raises,
    whatever the database, intent and location. *)
Theorem database_errors_degrade (db : database) (intent location : string)
    (self : Rag.ClaudeService) :
  (Rag.session_raises db [CountBanks; CountAtms; CountPoi] ->
   Rag._db_cache self !! ("basic_stats_" +:+ location) = None ->
   Rag.get_basic_stats db location self = (Return (Rag.Fresh Rag.zero_stats), self)
   /\ Rag.zero_stats
      = {[ "total_banks" := Rag.PyInt 0; "total_atms" := Rag.PyInt 0;
           "total_poi" := Rag.PyInt 0 ]})
  /\ (Rag.session_raises db [DistrictAnalysis] ->
      Rag.get_district_analysis db location self = (Return [], self))
  /\ (Rag.session_raises db [BusinessOpportunities] ->
      Rag.get_business_opportunities db location self = (Return [], self))
  /\ (exists stats self', Rag.get_basic_stats db location self = (Return stats, self'))
  /\ (exists rows self', Rag.get_district_analysis db location self = (Return rows, self'))
  /\ (exists rows self',
        Rag.get_business_opportunities db location self = (Return rows, self'))
  /\ (exists context self',
        Rag.get_database_context db intent location self = (Return context, self')).
Proof.
  repeat match goal with |- _ /\ _ => split end.
  - intros Hraise Hmiss. rewrite get_basic_stats_eq, Hmiss.
    destruct (query_basic_stats_raises db location Hraise) as [e ->].
    split; reflexivity.
  - apply get_district_analysis_eq.
  - apply get_business_opportunities_eq.
  - destruct (returns_get_basic_stats db location self) as (a & s & H & _); eauto.
  - destruct (returns_get_district_analysis db location self) as (a & s & H & _); eauto.
  - destruct (returns_get_business_opportunities db location self) as (a & s & H & _);
      eauto.
  - destruct (returns_get_database_context db intent location self) as (a & s & H & _);
      eauto.
Qed.

(** Witness for C5: a database file that cannot be opened. *)
Lemma database_errors_degrade_witness :
  Rag.get_basic_stats Sample.unreachable "Bali" Rag.init
    = (Return (Rag.Fresh Rag.zero_stats), Rag.init)
  /\ Rag.get_district_analysis Sample.unreachable "Bali" Rag.init = (Return [], Rag.init)
  /\ Rag.get_business_opportunities Sample.unreachable "Bali" Rag.init
     = (Return [], Rag.init).
Proof.
  pose proof (database_errors_degrade Sample.unreachable "whitespots" "Bali" Rag.init)
    as (H1 & H2 & H3 & _).
  assert (Hraise : forall stmts, Rag.session_raises Sample.unreachable stmts)
    by (intros stmts; left; reflexivity).
  split; [apply H1; [apply Hraise | reflexivity] | split].
  - apply H2, Hraise.
  - apply H3, Hraise.
Defined.

(** C7: after [clear_conversation_history] the history is the empty list
    and the cache is empty; [get_conversation_history] returns the empty
    list, and a following [get_basic_stats], for any location, misses the
    cache and queries the database: it returns (and stores) the counts
    computed from the table, or the zero default when the query raises --
    never a value cached before the clearing. *)
Theorem clear_conversation_history_resets (db : database) (location : string)
    (self : Rag.ClaudeService) :
  let cleared := snd (Rag.clear_conversation_history self) in
  let cache_key := "basic_stats_" +:+ location in
  Rag.conversation_history cleared = []
  /\ Rag._db_cache cleared = ∅
  /\ Rag.get_conversation_history cleared = (Return [], cleared)
  /\ Rag.get_basic_stats db location cleared =
       match Rag.query_basic_stats db location with
       | Return stats =>
           (Return (Rag.Cached cache_key),
            {| Rag.conversation_history := [];
               Rag._db_cache := {[ cache_key := stats ]} |})
       | Raise _ => (Return (Rag.Fresh Rag.zero_stats), cleared)
       end
  /\ (~ Rag.session_raises db [CountBanks; CountAtms; CountPoi] ->
      exists stats self',
        Rag.get_basic_stats db location cleared = (Return stats, self')
        /\ Rag.deref stats self' =
             {[ "total_banks" := Rag.PyInt (count_banks (poi_density db) location);
                "total_atms" := Rag.PyInt (count_atms (poi_density db) location);
                "total_poi" := Rag.PyInt (count_poi (poi_density db) location) ]}).
Proof.
  cbv zeta. cbn [Rag.clear_conversation_history modify snd].
  repeat match goal with |- _ /\ _ => split end; try reflexivity.
  - rewrite get_basic_stats_eq. cbn. rewrite lookup_empty.
    destruct (Rag.query_basic_stats db location); reflexivity.
  - intros Hok. rewrite get_basic_stats_eq. cbn. rewrite lookup_empty.
    rewrite (query_basic_stats_ok db location Hok).
    eexists _, _. split; [reflexivity|].
    cbn. rewrite lookup_insert_eq. reflexivity.
Qed.

(** Witness for C7: a service holding zero counts for Bali is cleared; the
    next call counts the sample table's one bank, one ATM and one POI. *)
Lemma clear_conversation_history_resets_witness :
  exists stats self',
    Rag.get_basic_stats (healthy Sample.table) "Bali"
      (snd (Rag.clear_conversation_history Sample.stale)) = (Return stats, self')
    /\ Rag.deref stats self' =
         {[ "total_banks" := Rag.PyInt 1; "total_atms" := Rag.PyInt 1;
            "total_poi" := Rag.PyInt 1 ]}.
Proof.
  exact (proj2 (proj2 (proj2 (proj2
           (clear_conversation_history_resets (healthy Sample.table) "Bali" Sample.stale))))
           (healthy_session Sample.table _)).
Defined.

(** C10: when [get_basic_stats] misses the cache and the database session
    raises, it returns the zero default and stores nothing: the service is
    unchanged and the cache still has no entry for the location.  The next
    call for the same location therefore queries the database again, and
    an entry appears only when that query succeeds. *)
Theorem failed_stats_not_cached (db : database) (location : string)
    (self : Rag.ClaudeService) :
  let cache_key := "basic_stats_" +:+ location in
  Rag._db_cache self !! cache_key = None ->
  Rag.session_raises db [CountBanks; CountAtms; CountPoi] ->
  let after := snd (Rag.get_basic_stats db location self) in
  fst (Rag.get_basic_stats db location self) = Return (Rag.Fresh Rag.zero_stats)
  /\ after = self
  /\ Rag._db_cache after !! cache_key = None
  /\ forall db' : database,
       let again := Rag.get_basic_stats db' location after in
       (Rag.session_raises db' [CountBanks; CountAtms; CountPoi] ->
        fst again = Return (Rag.Fresh Rag.zero_stats)
        /\ Rag._db_cache (snd again) !! cache_key = None)
       /\ (~ Rag.session_raises db' [CountBanks; CountAtms; CountPoi] ->
           fst again = Return (Rag.Cached cache_key)
           /\ Rag._db_cache (snd again) !! cache_key =
                Some {[ "total_banks" := Rag.PyInt (count_banks (poi_density db') location);
                        "total_atms" := Rag.PyInt (count_atms (poi_density db') location);
                        "total_poi" := Rag.PyInt (count_poi (poi_density db') location) ]}).
Proof.
  cbv zeta. intros Hmiss Hraise.
  rewrite get_basic_stats_eq, Hmiss.
  destruct (query_basic_stats_raises db location Hraise) as [e ->]. cbn [fst snd].
  repeat match goal with |- _ /\ _ => split end; try reflexivity; try exact Hmiss.
  intros db'. rewrite get_basic_stats_eq, Hmiss. split; intros H.
  - destruct (query_basic_stats_raises db' location H) as [e' ->].
    split; [reflexivity | exact Hmiss].
  - rewrite (query_basic_stats_ok db' location H).
    split; [reflexivity | apply lookup_insert_eq].
Qed.

(** Witness for C10: a new service, and a database that cannot be opened. *)
Lemma failed_stats_not_cached_witness :
  snd (Rag.get_basic_stats Sample.unreachable "Bali" Rag.init) = Rag.init
  /\ Rag._db_cache (snd (Rag.get_basic_stats Sample.unreachable "Bali" Rag.init))
       !! "basic_stats_Bali" = None.
Proof.
  pose proof (failed_stats_not_cached Sample.unreachable "Bali" Rag.init
                eq_refl (or_introl eq_refl)) as (_ & H1 & H2 & _).
  split; [exact H1 | exact H2].
Defined.

(** ** Response generation *)

Lemma append_assoc (a b c : string) : (a +:+ b) +:+ c = a +:+ b +:+ c.
Proof.
  induction a as [|x a IH]; [reflexivity|].
  change (String x ((a +:+ b) +:+ c) = String x (a +:+ b +:+ c)).
  now rewrite IH.
Qed.

Lemma append_nil_r (w : string) : w +:+ EmptyString = w.
Proof.
  induction w as [|c w IH]; [reflexivity|].
  change (String c (w +:+ EmptyString) = String c w). now rewrite IH.
Qed.

Lemma str_in_self (w : string) : str_in w w = true.
Proof.
  apply str_in_spec. exists EmptyString, EmptyString.
  change (w = w +:+ EmptyString). now rewrite append_nil_r.
Qed.

Lemma str_in_app_l (w s rest : string) :
  str_in w s = true -> str_in w (s +:+ rest) = true.
Proof.
  rewrite !str_in_spec. intros (b & r & ->). exists b, (r +:+ rest).
  now rewrite !append_assoc.
Qed.

Lemma str_in_app_r (w s before : string) :
  str_in w s = true -> str_in w (before +:+ s) = true.
Proof.
  rewrite !str_in_spec. intros (b & r & ->). exists (before +:+ b), r.
  now rewrite !append_assoc.
Qed.

(** Finds an interpolated part inside a concatenation. *)
Ltac embedded :=
  solve [ apply str_in_self
        | apply str_in_app_l; embedded
        | apply str_in_app_r; embedded ].

(** Finds a part of a line of the fallback text, which is indented and may
    end in two blanks. *)
Ltac embedded_in_line :=
  solve [ apply str_in_spec; exists "            ", EmptyString;
          rewrite ?append_assoc, ?append_nil_r; reflexivity
        | apply str_in_spec; exists "            ", "  ";
          rewrite ?append_assoc; reflexivity
        | apply str_in_app_l; embedded_in_line
        | apply str_in_app_r; embedded_in_line ].

Section Response.

Variable lower : string -> string.
Variable json_dumps : gmap string Rag.pyvalue -> string.
Variable repr : Rag.pyvalue -> string.

(** What an f-string shows for [db_context.get(key, 0)]. *)
Lemma stat_shown (context : gmap string Rag.pyvalue) (key : string) :
  Rag.stat repr context key =
    match context !! key with
    | Some (Rag.PyInt n) => pretty n
    | Some v => repr v
    | None => "0"
    end.
Proof. unfold Rag.stat. destruct (context !! key) as [[]|]; reflexivity. Qed.

(** The fallback text names the location, gives each count of the context
    under its own label, and ends with the error text. *)
Lemma error_response_embeds (location : string) (context : gmap string Rag.pyvalue)
    (e : exn) :
  let text := Rag.error_response repr location context e in
  let shown key :=
    match context !! key with
    | Some (Rag.PyInt n) => pretty n
    | Some v => repr v
    | None => "0"
    end in
  str_in ("Data " +:+ location +:+ ":") text = true
  /\ str_in ("- Bank: " +:+ shown "total_banks" +:+ " lokasi") text = true
  /\ str_in ("- ATM: " +:+ shown "total_atms" +:+ " lokasi") text = true
  /\ str_in ("- POI: " +:+ shown "total_poi" +:+ " titik aktivitas") text = true
  /\ str_in ("Error: " +:+ e) text = true.
Proof.
  cbv beta zeta. rewrite <- !stat_shown. unfold Rag.error_response. cbn [unlines].
  set (b := Rag.stat repr context "total_banks").
  set (a := Rag.stat repr context "total_atms").
  set (p := Rag.stat repr context "total_poi").
  clearbody b a p.
  repeat match goal with |- _ /\ _ => split end; embedded_in_line.
Qed.

(** C4: [generate_response] first assembles the context (which never
    raises and leaves the history alone) and then calls the LLM once.  When
    the call returns a text, exactly one entry (timestamp, query, text) is
    appended to the history and the text is returned; when the call raises
    (or the response has no content block), nothing is appended and the
    fallback text is returned.  That text names the location, shows after
    the labels Bank, ATM and POI the values the assembled context holds
    under total_banks, total_atms and total_poi (0 for a missing key), and
    ends with the error text.  In both cases the text is paired with the
    same directive, [generate_map_directive] of the extracted intent and
    location. *)
Theorem generate_response_outcomes (w : Rag.world) (query : string)
    (self : Rag.ClaudeService) :
  let '(intent, _, location) := Rag.extract_intent_and_entities lower query in
  let map_directive := Rag.generate_map_directive intent location in
  let deep :=
    bool_decide (intent ∈ ["whitespots"; "risk_assessment"; "business_analysis";
                           "bank_distribution"]) in
  exists (db_context : Rag.dict_ref) (self' : Rag.ClaudeService),
    (if deep then Rag.get_database_context (Rag.db w) intent location
     else Rag.get_basic_stats (Rag.db w) location) self = (Return db_context, self')
    /\ Rag.conversation_history self' = Rag.conversation_history self
    /\ let context := Rag.deref db_context self' in
       let request :=
         {| Rag.model := "claude-3-5-sonnet-20241022";
            Rag.max_tokens := if deep then 800 else 200;
            Rag.system :=
              Rag.create_system_prompt json_dumps (Rag.today w) intent location context;
            Rag.messages :=
              [("user",
                "User Query: " +:+ dquote +:+ query +:+ dquote +:+ newline +:+ newline
                +:+ "Provide helpful response based on context.")] |} in
       let fallback e :=
         (Return (Rag.error_response repr location context e, map_directive), self') in
       Rag.generate_response lower json_dumps repr w query self =
         match Rag.messages_create w request with
         | Return (text :: _) =>
             (Return (text, map_directive),
              {| Rag.conversation_history :=
                   (Rag.conversation_history self
                    ++ [ {| Rag.timestamp := Rag.now w;
                            Rag.query := query;
                            Rag.response := text |} ])%list;
                 Rag._db_cache := Rag._db_cache self' |})
         | Return [] => fallback "list index out of range"
         | Raise e => fallback e
         end
       /\ forall e,
           let text := Rag.error_response repr location context e in
           let shown key :=
             match context !! key with
             | Some (Rag.PyInt n) => pretty n
             | Some v => repr v
             | None => "0"
             end in
           str_in ("Data " +:+ location +:+ ":") text = true
           /\ str_in ("- Bank: " +:+ shown "total_banks" +:+ " lokasi") text = true
           /\ str_in ("- ATM: " +:+ shown "total_atms" +:+ " lokasi") text = true
           /\ str_in ("- POI: " +:+ shown "total_poi" +:+ " titik aktivitas") text = true
           /\ str_in ("Error: " +:+ e) text = true.
Proof.
  unfold Rag.generate_response.
  destruct (Rag.extract_intent_and_entities lower query) as [[intent entities] location].
  cbv zeta.
  set (deep := bool_decide _).
  set (assemble := if deep then _ else _).
  assert (Hassemble : Rag.returns assemble self).
  { subst assemble. destruct deep;
      [apply returns_get_database_context | apply returns_get_basic_stats]. }
  destruct Hassemble as (db_context & self' & Hrun & Hhistory).
  exists db_context, self'. split; [exact Hrun | split; [exact Hhistory | split]].
  - unfold bind at 1. rewrite Hrun.
    unfold Rag.history_append. run. cbn [Rag.first_text].
    destruct (Rag.messages_create w _) as [[|text content]|e]; cbn;
      rewrite ?Hhistory; reflexivity.
  - intros e. apply error_response_embeds.
Qed.

End Response.

(** ** The financial endpoint *)

Lemma upper_char_cased (c : ascii) :
  is_upper (upper_char c) = true ->
  is_cased c = true /\ lower_char c = lower_char (upper_char c).
Proof.
  destruct c as [[] [] [] [] [] [] [] []]; vm_compute; intuition congruence.
Qed.

Lemma title_of_atm (t : string) : upper t = "ATM" -> title t = "Atm".
Proof.
  destruct t as [|c1 [|c2 [|c3 [|c4 t]]]]; try discriminate.
  intros [= H1 H2 H3]. unfold title. cbn [title_from].
  destruct (upper_char_cased c1) as [-> _]; [now rewrite H1|].
  destruct (upper_char_cased c2) as [-> ->]; [now rewrite H2|].
  destruct (upper_char_cased c3) as [_ ->]; [now rewrite H3|].
  rewrite H1, H2, H3. reflexivity.
Qed.

Lemma title_of_bank (t : string) : upper t = "BANK" -> title t = "Bank".
Proof.
  destruct t as [|c1 [|c2 [|c3 [|c4 [|c5 t]]]]]; try discriminate.
  intros [= H1 H2 H3 H4]. unfold title. cbn [title_from].
  destruct (upper_char_cased c1) as [-> _]; [now rewrite H1|].
  destruct (upper_char_cased c2) as [-> ->]; [now rewrite H2|].
  destruct (upper_char_cased c3) as [-> ->]; [now rewrite H3|].
  destruct (upper_char_cased c4) as [_ ->]; [now rewrite H4|].
  rewrite H1, H2, H3, H4. reflexivity.
Qed.

Lemma insert_by_Forall {A} (P : A -> Prop) (before : A -> A -> bool) (x : A)
    (l : list A) :
  P x -> Forall P l -> Forall P (insert_by before x l).
Proof.
  intros Hx. induction 1 as [|y l Hy Hl IH]; cbn.
  - repeat constructor. exact Hx.
  - destruct (before x y); repeat constructor; assumption.
Qed.

Lemma order_by_Forall {A} (P : A -> Prop) (before : A -> A -> bool) (l : list A) :
  Forall P l -> Forall P (order_by before l).
Proof.
  induction 1 as [|x l Hx Hl IH]; cbn; [constructor|].
  apply insert_by_Forall; assumption.
Qed.

(** With a [category = ?] parameter [c], every returned row has category
    [c], and [c] is one of 'Bank' and 'ATM'. *)
Lemma financial_institutions_category (table : list poi) (province_filter : string)
    (district_param : option string) (c : string) :
  Forall (fun r => category r = c /\ is_financial c = true)
         (financial_institutions table province_filter district_param (Some c)).
Proof.
  unfold financial_institutions. apply order_by_Forall.
  apply Forall_forall. intros r Hr.
  apply list_elem_of_In, filter_In in Hr as [_ Hr]. cbn in Hr.
  repeat (apply andb_true_iff in Hr as [Hr ?]).
  assert (category r = c) as <- by now apply String.eqb_eq.
  split; [reflexivity | assumption].
Qed.

Lemma format_rows_spec (result : list poi) :
  Api.format_rows result =
    {| Api.count := Z.of_nat (length result);
       Api.banks := map Api.institution_of_row
                      (List.filter (fun r => String.eqb (category r) "Bank") result);
       Api.atms := map Api.institution_of_row
                     (List.filter (fun r => negb (String.eqb (category r) "Bank")) result) |}.
Proof.
  unfold Api.format_rows.
  generalize (Z.of_nat (length result)) as n.
  assert (H : forall n (bs cs : list Api.institution),
    fold_left
      (fun data row =>
         let institution := Api.institution_of_row row in
         if String.eqb (category row) "Bank"
         then {| Api.count := Api.count data;
                 Api.banks := (Api.banks data ++ [institution])%list;
                 Api.atms := Api.atms data |}
         else {| Api.count := Api.count data;
                 Api.banks := Api.banks data;
                 Api.atms := (Api.atms data ++ [institution])%list |})
      result {| Api.count := n; Api.banks := bs; Api.atms := cs |}
    = {| Api.count := n;
         Api.banks :=
           (bs ++ map Api.institution_of_row
                    (List.filter (fun r => String.eqb (category r) "Bank") result))%list;
         Api.atms :=
           (cs ++ map Api.institution_of_row
                    (List.filter (fun r => negb (String.eqb (category r) "Bank"))
                       result))%list |}).
  { induction result as [|row result IH]; intros n bs cs; cbn.
    - now rewrite !app_nil_r.
    - destruct (String.eqb (category row) "Bank"); cbn; rewrite IH, <- app_assoc;
        reflexivity. }
  intros n. exact (H n [] []).
Qed.

Lemma financial_data_of (db : database) (type_arg province_arg district_arg : option string)
    (data : Api.financial_data) :
  Api.get_financial_data db type_arg province_arg district_arg = Api.Ok200 data ->
  data = Api.format_rows
           (financial_institutions (poi_density db) (default "Bali" province_arg)
              (if Api.truthy district_arg then district_arg else None)
              (Api.category_param type_arg)).
Proof.
  unfold Api.get_financial_data, Api.get_db_connection, connect, execute, close,
    outcome, rbind.
  destruct (connect_error db 0%nat); [discriminate|].
  destruct (execute_error db FinancialInstitutions); [discriminate|].
  destruct (close_error db); [discriminate|].
  now intros [= <-].
Qed.

Lemma filter_all {A} (p : A -> bool) (l : list A) :
  Forall (fun x => p x = true) l -> List.filter p l = l.
Proof. induction 1 as [|x l Hx _ IH]; cbn; [reflexivity | now rewrite Hx, IH]. Qed.

Lemma filter_none {A} (p : A -> bool) (l : list A) :
  Forall (fun x => p x = false) l -> List.filter p l = [].
Proof. induction 1 as [|x l Hx _ IH]; cbn; [reflexivity | now rewrite Hx, IH]. Qed.

(** The first half of C9 holds: with type=bank, in any capitalization, a
    successful response lists only records of category "Bank", all of them
    under [banks], and [atms] is empty. *)
Lemma financial_type_bank (db : database) (t : string)
    (province_arg district_arg : option string) (data : Api.financial_data) :
  upper t = "BANK" ->
  Api.get_financial_data db (Some t) province_arg district_arg = Api.Ok200 data ->
  Forall (fun i => Api.inst_type i = "Bank") (Api.banks data)
  /\ Api.atms data = []
  /\ Api.count data = Z.of_nat (length (Api.banks data)).
Proof.
  intros Hup Hdata. apply financial_data_of in Hdata as ->.
  assert (Api.category_param (Some t) = Some "Bank") as ->.
  { unfold Api.category_param, Api.truthy. rewrite Hup, (title_of_bank t Hup).
    destruct t; [discriminate | reflexivity]. }
  rewrite format_rows_spec. cbn [Api.banks Api.atms Api.count].
  pose proof (financial_institutions_category (poi_density db)
                (default "Bali" province_arg)
                (if Api.truthy district_arg then district_arg else None) "Bank") as H.
  set (rows := financial_institutions _ _ _ _) in *.
  rewrite (filter_all _ rows), (filter_none _ rows).
  - repeat split.
    + apply Forall_forall. intros i Hi.
      apply list_elem_of_In, in_map_iff in Hi as (r & <- & Hr).
      rewrite Forall_forall in H. apply list_elem_of_In, H in Hr as [Hr _]. exact Hr.
    + now rewrite length_map.
  - eapply Forall_impl; [exact H|]. cbn. intros r [-> _]. reflexivity.
  - eapply Forall_impl; [exact H|]. cbn. intros r [-> _]. reflexivity.
Qed.

(** The second half fails: with type=atm, in any capitalization, the
    parameter of [category = ?] is [title] of it, "Atm", which is the
    category of no financial row; every successful response is empty. *)
Lemma financial_type_atm (db : database) (t : string)
    (province_arg district_arg : option string) :
  upper t = "ATM" ->
  Api.category_param (Some t) = Some "Atm"
  /\ forall data,
       Api.get_financial_data db (Some t) province_arg district_arg = Api.Ok200 data ->
       data = {| Api.count := 0; Api.banks := []; Api.atms := [] |}.
Proof.
  intros Hup.
  assert (Hparam : Api.category_param (Some t) = Some "Atm").
  { unfold Api.category_param, Api.truthy. rewrite Hup, (title_of_atm t Hup).
    destruct t; [discriminate | reflexivity]. }
  split; [exact Hparam|].
  intros data Hdata. apply financial_data_of in Hdata as ->. rewrite Hparam.
  pose proof (financial_institutions_category (poi_density db)
                (default "Bali" province_arg)
                (if Api.truthy district_arg then district_arg else None) "Atm") as H.
  destruct (financial_institutions _ _ _ _) as [|r rows]; [reflexivity|].
  apply Forall_inv in H as [_ H]. discriminate.
Qed.

(** C9 at the failing input: on the sample table, which has one ATM in
    Bali, /api/financial?province=Bali&type=atm (and type=ATM) answers with
    no record at all, while the same request without [type] lists the ATM
    under [atms] and type=bank lists the bank only. *)
Theorem financial_type_atm_selects_nothing :
  Api.get_financial_data (healthy Sample.table) (Some "atm") (Some "Bali") None
    = Api.Ok200 {| Api.count := 0; Api.banks := []; Api.atms := [] |}
  /\ Api.get_financial_data (healthy Sample.table) (Some "ATM") (Some "Bali") None
     = Api.Ok200 {| Api.count := 0; Api.banks := []; Api.atms := [] |}
  /\ Api.get_financial_data (healthy Sample.table) None (Some "Bali") None
     = Api.Ok200 {| Api.count := 2;
                    Api.banks := [Api.institution_of_row Sample.bank_denpasar];
                    Api.atms := [Api.institution_of_row Sample.atm_kuta] |}
  /\ Api.get_financial_data (healthy Sample.table) (Some "bank") (Some "Bali") None
     = Api.Ok200 {| Api.count := 1;
                    Api.banks := [Api.institution_of_row Sample.bank_denpasar];
                    Api.atms := [] |}.
Proof. repeat split; vm_compute; reflexivity. Qed.

(** ** Witnesses on concrete queries *)

(** Witness for C3: "cabang berisiko" is a risk_assessment keyword, and the
    query has no greeting or whitespots keyword. *)
Lemma extract_intent_first_match_witness :
  fst (fst (Rag.extract_intent_and_entities ascii_lower "Cabang berisiko di Bali?"))
  = "risk_assessment".
Proof.
  apply (proj1 (proj2 (extract_intent_first_match ascii_lower "Cabang berisiko di Bali?"))
           [ ("greeting", ["halo"; "hai"; "hello"; "apa kabar"; "selamat"]);
             ("whitespots", ["belum terjangkau"; "white-spot"; "white spot";
                             "lokasi terbaik"; "ekspansi"]) ]
           "risk_assessment" ["cabang berisiko"; "pengawasan"; "berisiko"]
           [ ("gdp_national", ["kondisi nasional"; "ekonomi nasional"; "gdp"; "nasional"]);
             ("business_analysis", ["coffee shop"; "kedai kopi"; "lokasi strategis"; "usaha"]);
             ("bank_distribution", ["sebaran bank"; "lokasi bank"; "cabang bank"]) ]
           "cabang berisiko").
  - reflexivity.
  - left. reflexivity.
  - reflexivity.
  - intros i ks w Hin Hw.
    destruct Hin as [[= <- <-]|[[= <- <-]|[]]]; cbn in Hw;
      repeat (destruct Hw as [<-|Hw]; [reflexivity|]); contradiction.
Defined.

(** Witness for C6: no "bali" in the query and a national-GDP keyword. *)
Lemma extract_location_resolution_witness :
  snd (Rag.extract_intent_and_entities ascii_lower "Bagaimana ekonomi nasional?")
  = "Indonesia".
Proof.
  pose proof (extract_location_resolution ascii_lower "Bagaimana ekonomi nasional?")
    as H.
  change (Rag.extract_intent_and_entities ascii_lower "Bagaimana ekonomi nasional?")
    with ("gdp_national", @nil string, "Indonesia") in H.
  destruct H as (_ & H & _). cbn [snd]. apply H; reflexivity.
Defined.

(** Witness for C8: the sample query of the source. *)
Lemma business_analysis_directive_witness :
  Rag.zoom (Rag.generate_map_directive "business_analysis" "Bali") = Some 11
  /\ Rag.center (Rag.generate_map_directive "business_analysis" "Bali")
     = Some ((-8.6705)%Q, 115.2126%Q).
Proof.
  exact (proj2 (proj2 (proj2 (business_analysis_directive ascii_lower))
                  "Lokasi strategis untuk coffee shop di Bali?"
                  "business_analysis" ["Bali"] "Bali" eq_refl eq_refl)).
Defined.

(** * Further properties *)

Import Invariants FinancialQuery.

(** ** The statistics cache *)

Lemma cache_key_inj (location location' : string) :
  "basic_stats_" +:+ location = "basic_stats_" +:+ location' -> location = location'.
Proof. intros H. injection H. trivial. Qed.

(** The counts the three COUNT queries compute from the table. *)
Lemma counts_of_session (db : database) (location : string) :
  Rag.get_db_connection db = Return tt ->
  (forall stmt, In stmt [CountBanks; CountAtms; CountPoi] -> execute_error db stmt = None) ->
  close_error db = None ->
  Rag.query_basic_stats db location =
    Return {[ "total_banks" := Rag.PyInt (count_banks (poi_density db) location);
              "total_atms" := Rag.PyInt (count_atms (poi_density db) location);
              "total_poi" := Rag.PyInt (count_poi (poi_density db) location) ]}.
Proof.
  intros Hc He Hx. unfold Rag.query_basic_stats, execute, close, outcome.
  rewrite Hc, Hx, !He by (cbn; tauto). reflexivity.
Qed.

(** X1: [get_db_connection] retries once, so a database whose first
    connection attempt fails and whose second succeeds still serves
    [get_basic_stats]: on a cache miss the counts of the table are computed,
    stored and returned, as if the first attempt had not failed. *)
Theorem stats_survive_one_failed_connect (db : database) (location : string)
    (self : Rag.ClaudeService) (e : exn) :
  let cache_key := "basic_stats_" +:+ location in
  connect_error db 0%nat = Some e ->
  connect_error db 1%nat = None ->
  (forall stmt, execute_error db stmt = None) ->
  close_error db = None ->
  Rag._db_cache self !! cache_key = None ->
  exists self',
    Rag.get_basic_stats db location self = (Return (Rag.Cached cache_key), self')
    /\ Rag.deref (Rag.Cached cache_key) self' =
         {[ "total_banks" := Rag.PyInt (count_banks (poi_density db) location);
            "total_atms" := Rag.PyInt (count_atms (poi_density db) location);
            "total_poi" := Rag.PyInt (count_poi (poi_density db) location) ]}.
Proof.
  cbv zeta. intros H0 H1 He Hx Hmiss.
  rewrite get_basic_stats_eq, Hmiss, counts_of_session; try assumption.
  - eexists. split; [reflexivity|]. cbn. rewrite lookup_insert_eq. reflexivity.
  - unfold Rag.get_db_connection, connect, outcome. rewrite H0, H1. reflexivity.
  - intros stmt _. apply He.
Qed.

Lemma stats_survive_one_failed_connect_witness :
  exists self',
    Rag.get_basic_stats Examples.flaky "Bali" Rag.init
      = (Return (Rag.Cached "basic_stats_Bali"), self')
    /\ Rag.deref (Rag.Cached "basic_stats_Bali") self' =
         {[ "total_banks" := Rag.PyInt 1; "total_atms" := Rag.PyInt 1;
            "total_poi" := Rag.PyInt 1 ]}.
Proof.
  exact (stats_survive_one_failed_connect Examples.flaky "Bali" Rag.init
           "IO Error: file is locked" eq_refl eq_refl (fun _ => eq_refl) eq_refl eq_refl).
Defined.

(** X2: counts computed once are served from the cache from then on: after
    a successful [get_basic_stats], a second call for the same location
    returns the same dictionary and leaves the service unchanged whatever
    the database is by then -- unreachable, or holding other rows. *)
Theorem cached_stats_ignore_database (db db' : database) (location : string)
    (self : Rag.ClaudeService) :
  let cache_key := "basic_stats_" +:+ location in
  ~ Rag.session_raises db [CountBanks; CountAtms; CountPoi] ->
  Rag._db_cache self !! cache_key = None ->
  let first := Rag.get_basic_stats db location self in
  fst first = Return (Rag.Cached cache_key)
  /\ Rag.get_basic_stats db' location (snd first) = (Return (Rag.Cached cache_key), snd first)
  /\ Rag.deref (Rag.Cached cache_key) (snd first) =
       {[ "total_banks" := Rag.PyInt (count_banks (poi_density db) location);
          "total_atms" := Rag.PyInt (count_atms (poi_density db) location);
          "total_poi" := Rag.PyInt (count_poi (poi_density db) location) ]}.
Proof.
  cbv zeta. intros Hok Hmiss.
  rewrite (get_basic_stats_eq db), Hmiss, (query_basic_stats_ok db location Hok).
  cbn [fst snd]. split; [reflexivity | split].
  - rewrite get_basic_stats_eq. cbn. rewrite lookup_insert_eq. reflexivity.
  - cbn. rewrite lookup_insert_eq. reflexivity.
Qed.

Lemma cached_stats_ignore_database_witness :
  Rag.get_basic_stats Sample.unreachable "Bali"
    (snd (Rag.get_basic_stats (healthy Sample.table) "Bali" Rag.init))
  = (Return (Rag.Cached "basic_stats_Bali"),
     snd (Rag.get_basic_stats (healthy Sample.table) "Bali" Rag.init)).
Proof.
  exact (proj1 (proj2 (cached_stats_ignore_database (healthy Sample.table)
                         Sample.unreachable "Bali" Rag.init
                         (healthy_session Sample.table _) eq_refl))).
Defined.

(** X3: [get_basic_stats] for one location leaves alone the cache entry
    of every other location, and the conversation history. *)
Theorem get_basic_stats_other_location (db : database) (location location' : string)
    (self : Rag.ClaudeService) :
  location <> location' ->
  let after := snd (Rag.get_basic_stats db location self) in
  Rag._db_cache after !! ("basic_stats_" +:+ location')
    = Rag._db_cache self !! ("basic_stats_" +:+ location')
  /\ Rag.conversation_history after = Rag.conversation_history self.
Proof.
  intros Hne. cbv zeta. rewrite get_basic_stats_eq.
  destruct (Rag._db_cache self !! _); [split; reflexivity|].
  destruct (Rag.query_basic_stats db location); [|split; reflexivity].
  cbn. split; [|reflexivity].
  apply lookup_insert_ne. intros H. apply Hne, cache_key_inj, H.
Qed.

Lemma get_basic_stats_other_location_witness :
  Rag._db_cache (snd (Rag.get_basic_stats (healthy Sample.table) "Indonesia" Sample.stale))
    !! "basic_stats_Bali" = Some Rag.zero_stats.
Proof.
  refine (proj1 (get_basic_stats_other_location (healthy Sample.table)
                   "Indonesia" "Bali" Sample.stale _)).
  discriminate.
Defined.

(** ** What the cache holds *)

(** The two queries return the same rows from every state, and leave it
    alone. *)
Lemma get_district_analysis_result (db : database) (location : string) :
  exists rows, forall self,
    Rag.get_district_analysis db location self = (Return rows, self).
Proof.
  unfold Rag.get_district_analysis, execute, close, outcome, rbind. run.
  destruct (Rag.get_db_connection db); [|eauto].
  destruct (execute_error db DistrictAnalysis); [eauto|].
  destruct (close_error db); eauto.
Qed.

Lemma get_business_opportunities_result (db : database) (location : string) :
  exists rows, forall self,
    Rag.get_business_opportunities db location self = (Return rows, self).
Proof.
  unfold Rag.get_business_opportunities, execute, close, outcome, rbind. run.
  destruct (Rag.get_db_connection db); [|eauto].
  destruct (execute_error db BusinessOpportunities); [eauto|].
  destruct (close_error db); eauto.
Qed.

Lemma has_totals_insert (d : gmap string Rag.pyvalue) (key : string) (v : Rag.pyvalue) :
  key <> "total_banks" -> key <> "total_atms" -> key <> "total_poi" ->
  has_totals d -> has_totals (<[key := v]> d).
Proof.
  intros H1 H2 H3 (b & a & p & Hb & Ha & Hp). exists b, a, p.
  rewrite !lookup_insert_ne by congruence. auto.
Qed.

Lemma has_totals_zero : has_totals Rag.zero_stats.
Proof. exists 0, 0, 0. repeat split; reflexivity. Qed.

Lemma keeps_get_basic_stats db location :
  keeps_totals (Rag.get_basic_stats db location) good_ref.
Proof.
  intros self Hinv. rewrite get_basic_stats_eq.
  destruct (Rag._db_cache self !! _) as [d|] eqn:Hd.
  - eexists _, _. split; [reflexivity | split; [exact Hinv|]].
    split; cbn; rewrite Hd; [eauto | apply (Hinv _ _ Hd)].
  - destruct (Rag.query_basic_stats db location) as [stats|e] eqn:Hq.
    + assert (Hstats : has_totals stats).
      { unfold Rag.query_basic_stats, execute, close, outcome, rbind in Hq.
        destruct (Rag.get_db_connection db); [|discriminate].
        repeat (match type of Hq with
                | context [execute_error db ?s] => destruct (execute_error db s)
                end; [discriminate|]).
        destruct (close_error db); [discriminate|]. injection Hq as <-.
        eexists _, _, _. repeat split; reflexivity. }
      eexists _, _. split; [reflexivity | split; [|split]].
      * intros k d. cbn. rewrite lookup_insert. case_decide.
        -- intros [= <-]. exact Hstats.
        -- apply Hinv.
      * cbn. rewrite lookup_insert_eq. eauto.
      * cbn. rewrite lookup_insert_eq. exact Hstats.
    + eexists _, _. split; [reflexivity | split; [exact Hinv|]].
      split; [exact I | apply has_totals_zero].
Qed.

Lemma keeps_setitem r key v :
  key <> "total_banks" -> key <> "total_atms" -> key <> "total_poi" ->
  forall self, cache_holds_totals self -> good_ref r self ->
    exists r' self', Rag.setitem r key v self = (Return r', self')
      /\ cache_holds_totals self' /\ good_ref r' self'
      /\ Rag.conversation_history self' = Rag.conversation_history self.
Proof.
  intros H1 H2 H3 self Hinv [Hvalid Htot]. destruct r as [k|d]; unfold Rag.setitem; run.
  - eexists _, _. split; [reflexivity|]. cbn in *. destruct Hvalid as [d Hd].
    rewrite Hd in Htot. cbn in Htot. split; [|split; [split|reflexivity]].
    + intros k' d'. cbn. rewrite lookup_alter. case_decide.
      * subst. rewrite Hd. intros [= <-]. now apply has_totals_insert.
      * apply Hinv.
    + cbn. rewrite lookup_alter_eq, Hd. cbn. eauto.
    + cbn. rewrite lookup_alter_eq, Hd. cbn. now apply has_totals_insert.
  - eexists _, _. split; [reflexivity|]. split; [exact Hinv|].
    split; [|reflexivity]. split; [exact I|]. cbn in *. now apply has_totals_insert.
Qed.

Lemma keeps_get_database_context db intent location :
  keeps_totals (Rag.get_database_context db intent location) good_ref.
Proof.
  intros self Hinv. unfold Rag.get_database_context. cbv zeta.
  match goal with |- context [Rag.get_basic_stats db ?l] => set (loc := l) end.
  clearbody loc.
  destruct (keeps_get_basic_stats db loc self Hinv) as (r & s1 & Hrun & Hinv1 & Hr).
  unfold bind at 1. rewrite Hrun. cbv beta iota.
  destruct (_ || _).
  - destruct (get_district_analysis_result db loc) as (rows & Hrows).
    unfold bind. rewrite Hrows. cbv beta iota.
    destruct (keeps_setitem r "district_analysis" (Rag.PyDistricts rows)
                ltac:(discriminate) ltac:(discriminate) ltac:(discriminate)
                s1 Hinv1 Hr) as (r' & s2 & -> & ? & ? & _). eauto.
  - destruct (String.eqb intent _); [|unfold ret; eauto].
    destruct (get_business_opportunities_result db loc) as (rows & Hrows).
    unfold bind at 1. rewrite Hrows. cbv beta iota.
    destruct (keeps_setitem r "business_opportunities" (Rag.PyOpportunities rows)
                ltac:(discriminate) ltac:(discriminate) ltac:(discriminate)
                s1 Hinv1 Hr) as (r' & s2 & Hset & Hinv2 & Hr' & _).
    unfold bind. rewrite Hset. cbv beta iota.
    destruct (String.eqb loc "Bali"); [|unfold ret; eauto].
    destruct (keeps_setitem r' "recommended_business_areas"
                (Rag.PyAreas Rag.recommended_business_areas)
                ltac:(discriminate) ltac:(discriminate) ltac:(discriminate)
                s2 Hinv2 Hr') as (r'' & s3 & -> & ? & ? & _). eauto.
Qed.

Section Totals.

Variable lower : string -> string.
Variable json_dumps : gmap string Rag.pyvalue -> string.
Variable repr : Rag.pyvalue -> string.

(** Context assembly of [generate_response] from a state whose cache
    holds the counts. *)
Lemma assemble_keeps_totals (deep : bool) (db : database) (intent location : string) :
  keeps_totals (if deep then Rag.get_database_context db intent location
                else Rag.get_basic_stats db location) good_ref.
Proof.
  destruct deep; [apply keeps_get_database_context | apply keeps_get_basic_stats].
Qed.

Lemma generate_response_keeps_totals (w : Rag.world) (query : string)
    (self : Rag.ClaudeService) :
  cache_holds_totals self ->
  cache_holds_totals (snd (Rag.generate_response lower json_dumps repr w query self)).
Proof.
  intros Hinv. unfold Rag.generate_response.
  destruct (Rag.extract_intent_and_entities lower query) as [[intent entities] location].
  destruct (assemble_keeps_totals
              (bool_decide (intent ∈ ["whitespots"; "risk_assessment";
                                      "business_analysis"; "bank_distribution"]))
              (Rag.db w) intent location self Hinv) as (r & s1 & Hrun & Hinv1 & _).
  unfold bind at 1. rewrite Hrun. unfold Rag.history_append. run.
  destruct (Rag.messages_create w _) as [[|text content]|e]; cbn; exact Hinv1.
Qed.

Lemma reachable_totals (self : Rag.ClaudeService) :
  reachable lower json_dumps repr self -> cache_holds_totals self.
Proof.
  induction 1 as [|db location self _ IH|db intent location self _ IH
                 |w query self _ IH|self _ IH].
  - intros k d. cbn. rewrite lookup_empty. discriminate.
  - destruct (keeps_get_basic_stats db location self IH) as (r & s & -> & H & _).
    exact H.
  - destruct (keeps_get_database_context db intent location self IH)
      as (r & s & -> & H & _). exact H.
  - apply generate_response_keeps_totals, IH.
  - intros k d. cbn. rewrite lookup_empty. discriminate.
Qed.

(** X5: in every state the service can reach through its operations, each
    dictionary of the cache holds total_banks, total_atms and total_poi as
    integers, and so does every context that [get_basic_stats] and
    [get_database_context] return from it. *)
Theorem reachable_cache_holds_totals (self : Rag.ClaudeService) :
  reachable lower json_dumps repr self ->
  cache_holds_totals self
  /\ (forall db location,
        exists stats self',
          Rag.get_basic_stats db location self = (Return stats, self')
          /\ has_totals (Rag.deref stats self'))
  /\ (forall db intent location,
        exists context self',
          Rag.get_database_context db intent location self = (Return context, self')
          /\ has_totals (Rag.deref context self')).
Proof.
  intros Hreach. apply reachable_totals in Hreach.
  split; [exact Hreach | split].
  - intros db location.
    destruct (keeps_get_basic_stats db location self Hreach) as (r & s & H & _ & _ & Ht).
    eauto.
  - intros db intent location.
    destruct (keeps_get_database_context db intent location self Hreach)
      as (r & s & H & _ & _ & Ht).
    eauto.
Qed.

(** X6: from a reachable state, when the LLM call raises, the context
    that [generate_response] assembled holds total_banks, total_atms and
    total_poi as integers, and the fallback text shows exactly these after
    the labels Bank, ATM and POI, followed by the error text: the default
    of [db_context.get(key, 0)] never stands in for a missing key. *)
Theorem fallback_reports_counts (w : Rag.world) (query : string)
    (self : Rag.ClaudeService) (e : exn) :
  reachable lower json_dumps repr self ->
  (forall request, Rag.messages_create w request = Raise e) ->
  let '(intent, _, location) := Rag.extract_intent_and_entities lower query in
  let deep :=
    bool_decide (intent ∈ ["whitespots"; "risk_assessment"; "business_analysis";
                           "bank_distribution"]) in
  exists (db_context : Rag.dict_ref) (self' : Rag.ClaudeService) (text : string)
         (banks atms poi : Z),
    (if deep then Rag.get_database_context (Rag.db w) intent location
     else Rag.get_basic_stats (Rag.db w) location) self = (Return db_context, self')
    /\ Rag.generate_response lower json_dumps repr w query self
       = (Return (text, Rag.generate_map_directive intent location), self')
    /\ Rag.deref db_context self' !! "total_banks" = Some (Rag.PyInt banks)
    /\ Rag.deref db_context self' !! "total_atms" = Some (Rag.PyInt atms)
    /\ Rag.deref db_context self' !! "total_poi" = Some (Rag.PyInt poi)
    /\ str_in ("Data " +:+ location +:+ ":") text = true
    /\ str_in ("- Bank: " +:+ pretty banks +:+ " lokasi") text = true
    /\ str_in ("- ATM: " +:+ pretty atms +:+ " lokasi") text = true
    /\ str_in ("- POI: " +:+ pretty poi +:+ " titik aktivitas") text = true
    /\ str_in ("Error: " +:+ e) text = true.
Proof.
  intros Hreach Hllm. apply reachable_totals in Hreach.
  unfold Rag.generate_response.
  destruct (Rag.extract_intent_and_entities lower query) as [[intent entities] location].
  cbv zeta.
  destruct (assemble_keeps_totals
              (bool_decide (intent ∈ ["whitespots"; "risk_assessment";
                                      "business_analysis"; "bank_distribution"]))
              (Rag.db w) intent location self Hreach)
    as (r & s1 & Hrun & _ & _ & (b & a & p & Hb & Ha & Hp)).
  exists r, s1, (Rag.error_response repr location (Rag.deref r s1) e), b, a, p.
  split; [exact Hrun|]. split.
  { unfold bind at 1. rewrite Hrun. run. rewrite Hllm. reflexivity. }
  split; [exact Hb|]. split; [exact Ha|]. split; [exact Hp|].
  pose proof (error_response_embeds repr location (Rag.deref r s1) e) as H.
  cbv beta zeta in H. rewrite Hb, Ha, Hp in H. exact H.
Qed.

End Totals.

(** X4: the context of a whitespots or risk_assessment request is the
    dictionary held in the cache, not a copy: when the basic statistics are
    cached (already, or by this call), [get_database_context] writes the
    key district_analysis -- with the rows [get_district_analysis] returned
    -- into the cache entry of the location, and every later
    [get_basic_stats] for that location returns the entry with it. *)
Theorem analysis_lands_in_cache (db : database) (intent location : string)
    (self : Rag.ClaudeService) :
  let cache_key := "basic_stats_" +:+ location in
  intent = "whitespots" \/ intent = "risk_assessment" ->
  location <> EmptyString -> location <> "None" ->
  is_Some (Rag._db_cache self !! cache_key)
  \/ ~ Rag.session_raises db [CountBanks; CountAtms; CountPoi] ->
  exists rows self' d,
    Rag.get_database_context db intent location self = (Return (Rag.Cached cache_key), self')
    /\ Rag.get_district_analysis db location self = (Return rows, self)
    /\ Rag._db_cache self' !! cache_key = Some d
    /\ d !! "district_analysis" = Some (Rag.PyDistricts rows)
    /\ forall db', Rag.get_basic_stats db' location self'
                   = (Return (Rag.Cached cache_key), self').
Proof.
  cbv zeta. intros Hintent He Hn Hcached.
  unfold Rag.get_database_context. cbv zeta.
  destruct (String.eqb_spec location EmptyString) as [|_]; [contradiction|].
  destruct (String.eqb_spec location "None") as [|_]; [contradiction|]. cbn [orb].
  assert (Hstats : exists s1 d1,
             Rag.get_basic_stats db location self
             = (Return (Rag.Cached ("basic_stats_" +:+ location)), s1)
             /\ Rag._db_cache s1 !! ("basic_stats_" +:+ location) = Some d1).
  { rewrite get_basic_stats_eq.
    destruct (Rag._db_cache self !! _) as [d|] eqn:Hd; [eauto|].
    destruct Hcached as [[d Hd']|Hok]; [congruence|].
    rewrite (query_basic_stats_ok db location Hok).
    eexists _, _. split; [reflexivity|]. cbn. apply lookup_insert_eq. }
  destruct Hstats as (s1 & d1 & Hrun & Hd1).
  unfold bind at 1. rewrite Hrun. cbv beta iota.
  assert ((String.eqb intent "whitespots" || String.eqb intent "risk_assessment") = true)
    as -> by (destruct Hintent as [->| ->]; reflexivity).
  destruct (get_district_analysis_result db location) as (rows & Hda).
  unfold bind. rewrite Hda. cbv beta iota. unfold Rag.setitem. run.
  eexists rows, _, (<["district_analysis" := Rag.PyDistricts rows]> d1).
  split; [reflexivity|]. split; [apply Hda|]. cbn [Rag._db_cache].
  assert (Hentry : alter (insert "district_analysis" (Rag.PyDistricts rows))
                     ("basic_stats_" +:+ location) (Rag._db_cache s1)
                   !! ("basic_stats_" +:+ location)
                   = Some (<["district_analysis" := Rag.PyDistricts rows]> d1))
    by (rewrite lookup_alter_eq, Hd1; reflexivity).
  split; [exact Hentry | split; [apply lookup_insert_eq|]].
  intros db'. rewrite get_basic_stats_eq. cbn [Rag._db_cache]. rewrite Hentry.
  reflexivity.
Qed.

Lemma analysis_lands_in_cache_witness :
  exists rows self' d,
    Rag.get_database_context (healthy Sample.table) "whitespots" "Bali" Rag.init
      = (Return (Rag.Cached "basic_stats_Bali"), self')
    /\ Rag.get_district_analysis (healthy Sample.table) "Bali" Rag.init
       = (Return rows, Rag.init)
    /\ Rag._db_cache self' !! "basic_stats_Bali" = Some d
    /\ d !! "district_analysis" = Some (Rag.PyDistricts rows)
    /\ forall db', Rag.get_basic_stats db' "Bali" self'
                   = (Return (Rag.Cached "basic_stats_Bali"), self').
Proof.
  apply (analysis_lands_in_cache (healthy Sample.table) "whitespots" "Bali" Rag.init).
  - left. reflexivity.
  - discriminate.
  - discriminate.
  - right. apply healthy_session.
Defined.

(** ** More on extraction and directives *)

Lemma first_matching_intent_range (table : list (string * list string))
    (q default_intent : string) :
  In (Rag.first_matching_intent table q default_intent)
     (default_intent :: map fst table).
Proof.
  induction table as [|[i ks] table IH]; cbn; [left; reflexivity|].
  destruct (existsb _ ks); [right; left; reflexivity|].
  destruct IH as [IH|IH]; [left; exact IH | right; right; exact IH].
Qed.

(** The directive in full, intent by intent. *)
Lemma generate_map_directive_cases (intent location : string) :
  let center := default ((-8.6705)%Q, 115.2126%Q) (Rag.MAP_CENTERS !! location) in
  let zoom := if String.eqb location "Bali" then 10 else 5 in
  let config (mode : string) (flags : list string) (center : Q * Q) (zoom : Z) :=
    {| Rag.mode := mode;
       Rag.filters := list_to_map ((fun flag => (flag, true)) <$> flags);
       Rag.center := Some center;
       Rag.zoom := Some zoom;
       Rag.highlights := None |} in
  let gdp := config "gdp" [] ((-2.5)%Q, 118%Q) 5 in
  Rag.generate_map_directive intent location =
    if String.eqb intent "gdp_national" then gdp
    else if String.eqb intent "whitespots"
    then config "whitespots" ["show_heatmap"; "show_financial"] center zoom
    else if String.eqb intent "risk_assessment"
    then config "risk" ["show_heatmap"; "show_financial"; "highlight_risk"] center zoom
    else if String.eqb intent "bank_distribution"
    then config "financial" ["show_financial"; "group_by_category"] center zoom
    else if String.eqb intent "business_analysis"
    then config "business_analysis"
           ["show_heatmap"; "show_poi_density"; "show_financial";
            "show_recommended_areas"] center 11
    else gdp.
Proof.
  cbv zeta. unfold Rag.generate_map_directive. cbv zeta.
  rewrite directive_config_get. reflexivity.
Qed.

(** X7: an intent without an entry of its own in the directive table
    (greeting, general_info, gdp_national itself, anything else) gets the
    national directive -- mode gdp, no filters, Indonesia center, zoom 5 --
    whatever the location, Bali included. *)
Theorem unknown_intent_directive (intent location : string) :
  ~ In intent ["whitespots"; "risk_assessment"; "bank_distribution"; "business_analysis"] ->
  Rag.generate_map_directive intent location =
    {| Rag.mode := "gdp"; Rag.filters := ∅;
       Rag.center := Some ((-2.5)%Q, 118%Q); Rag.zoom := Some 5;
       Rag.highlights := None |}.
Proof.
  intros Hnot. rewrite generate_map_directive_cases. cbv zeta.
  destruct (String.eqb_spec intent "gdp_national"); [reflexivity|].
  repeat (match goal with
          | |- context [String.eqb intent ?k] =>
              destruct (String.eqb_spec intent k) as [->|?];
              [exfalso; apply Hnot; cbn; tauto|]
          end).
  reflexivity.
Qed.

Lemma unknown_intent_directive_witness :
  Rag.generate_map_directive "greeting" "Bali" =
    {| Rag.mode := "gdp"; Rag.filters := ∅;
       Rag.center := Some ((-2.5)%Q, 118%Q); Rag.zoom := Some 5;
       Rag.highlights := None |}.
Proof.
  apply unknown_intent_directive. cbn. intros [H|[H|[H|[H|[]]]]]; discriminate.
Defined.

Section Queries.
Variable lower : string -> string.

Lemma extract_intent_range (query : string) :
  In (fst (fst (Rag.extract_intent_and_entities lower query)))
     ["general_info"; "greeting"; "whitespots"; "risk_assessment"; "gdp_national";
      "business_analysis"; "bank_distribution"].
Proof. apply (first_matching_intent_range Rag.INTENT_KEYWORDS). Qed.

(** X8: the directive of a query, end to end.  A query classified
    greeting, general_info or gdp_national gets mode gdp, the Indonesia
    center and zoom 5; one classified whitespots, risk_assessment or
    bank_distribution always has location Bali, the Bali center and zoom
    10 (modes whitespots, risk, financial); business_analysis has the Bali
    center and zoom 11.  The location Indonesia never reaches a
    deep-analysis directive. *)
Theorem query_directive (query : string) :
  let '(intent, _, location) := Rag.extract_intent_and_entities lower query in
  let directive := Rag.generate_map_directive intent location in
  (In intent ["greeting"; "general_info"; "gdp_national"]
   /\ Rag.mode directive = "gdp"
   /\ Rag.center directive = Some ((-2.5)%Q, 118%Q)
   /\ Rag.zoom directive = Some 5)
  \/ (In (intent, Rag.mode directive)
         [("whitespots", "whitespots"); ("risk_assessment", "risk");
          ("bank_distribution", "financial")]
      /\ location = "Bali"
      /\ Rag.center directive = Some ((-8.6705)%Q, 115.2126%Q)
      /\ Rag.zoom directive = Some 10)
  \/ (intent = "business_analysis"
      /\ Rag.mode directive = "business_analysis"
      /\ location = "Bali"
      /\ Rag.center directive = Some ((-8.6705)%Q, 115.2126%Q)
      /\ Rag.zoom directive = Some 11).
Proof.
  pose proof (extract_intent_range query) as Hrange.
  pose proof (extract_location lower query) as Hloc.
  destruct (Rag.extract_intent_and_entities lower query) as [[intent entities] location].
  cbn [fst snd] in *. cbv zeta.
  assert (Hbali : intent <> "gdp_national" -> location = "Bali").
  { intros Hne. rewrite Hloc. destruct (str_in "bali" (lower query)); [reflexivity|].
    destruct (String.eqb_spec intent "gdp_national"); [contradiction | reflexivity]. }
  clear Hloc.
  destruct Hrange as [<-|[<-|[<-|[<-|[<-|[<-|[<-|[]]]]]]]].
  - left. vm_compute. tauto.
  - left. vm_compute. tauto.
  - right. left. rewrite Hbali by discriminate. vm_compute. tauto.
  - right. left. rewrite Hbali by discriminate. vm_compute. tauto.
  - left. rewrite generate_map_directive_cases. cbn. tauto.
  - right. right. rewrite Hbali by discriminate. vm_compute. tauto.
  - right. left. rewrite Hbali by discriminate. vm_compute. tauto.
Qed.

Lemma filter_sublist {A} (p : A -> bool) (l : list A) : List.filter p l `sublist_of` l.
Proof.
  induction l as [|x l IH]; cbn; [constructor|].
  destruct (p x); [now apply sublist_skip | now apply sublist_cons].
Qed.

Lemma map_sublist {A B} (f : A -> B) (l k : list A) :
  l `sublist_of` k -> map f l `sublist_of` map f k.
Proof. induction 1; cbn; constructor; assumption. Qed.

(** X9: the entities of a query are taken from the fixed table Bali, BNI,
    BCA, BRI, MANDIRI, BSI, BTN, CIMB, DANAMON in that order (so without
    repetition, and whatever the order of mention): Bali is listed exactly
    when the lower-cased query contains bali (then the location is Bali
    too), and a bank exactly when its lower-case name occurs in it. *)
Theorem extract_entities_table (query : string) :
  let '(_, entities, location) := Rag.extract_intent_and_entities lower query in
  entities `sublist_of`
    ["Bali"; "BNI"; "BCA"; "BRI"; "MANDIRI"; "BSI"; "BTN"; "CIMB"; "DANAMON"]
  /\ (In "Bali" entities <-> str_in "bali" (lower query) = true)
  /\ (In "Bali" entities -> location = "Bali")
  /\ (forall bank, In bank Rag.BANK_ENTITIES ->
        (In (upper bank) entities <-> str_in bank (lower query) = true)).
Proof.
  unfold Rag.extract_intent_and_entities. cbv zeta.
  set (q := lower query).
  set (banks := map upper (List.filter (fun bank => str_in bank q) Rag.BANK_ENTITIES)).
  assert (Hbanks : banks `sublist_of` ["BNI"; "BCA"; "BRI"; "MANDIRI"; "BSI"; "BTN";
                                      "CIMB"; "DANAMON"]).
  { apply (map_sublist upper _ Rag.BANK_ENTITIES), filter_sublist. }
  assert (Hno : ~ In "Bali" banks).
  { intros H. apply list_elem_of_In in H.
    pose proof (elem_of_sublist _ _ _ H Hbanks) as H'.
    rewrite !elem_of_cons, elem_of_nil in H'. intuition discriminate. }
  assert (Hin : forall bank, In bank Rag.BANK_ENTITIES ->
                  (In (upper bank) banks <-> str_in bank q = true)).
  { intros bank Hbank. unfold banks. rewrite in_map_iff. split.
    - intros (b & Hup & Hb). apply filter_In in Hb as [Hb Hq].
      assert (b = bank) as <-; [|exact Hq].
      cbn in Hbank, Hb.
      repeat (destruct Hbank as [<-|Hbank]; [
        repeat (destruct Hb as [<-|Hb]; [first [reflexivity | discriminate]|]);
        contradiction |]).
      contradiction.
    - intros Hq. exists bank. split; [reflexivity|]. apply filter_In. auto. }
  destruct (str_in "bali" q) eqn:Hbali.
  - split; [now apply sublist_skip|]. split; [cbn; tauto|]. split; [reflexivity|].
    intros bank Hbank. rewrite <- (Hin bank Hbank). cbn.
    split; [intros [H|H]; [|exact H] | tauto].
    exfalso. cbn in Hbank.
    repeat (destruct Hbank as [<-|Hbank]; [discriminate|]). contradiction.
  - split; [now apply sublist_cons|]. cbn [app].
    split; [split; [intros H; contradiction | discriminate]|].
    split; [intros H; contradiction | exact Hin].
Qed.

End Queries.

(** ** Prompts and the business context *)

Section Prompts.
Variable lower : string -> string.
Variable json_dumps : gmap string Rag.pyvalue -> string.

(** X10: the system prompt of a query.  For the four deep-analysis
    intents it is the long template, which embeds the intent, the location,
    the date and the serialized context; for every other query it is one of
    the three fixed prompts of [simple_intents], independent of location,
    date and database context. *)
Theorem system_prompt_by_depth (query : string) :
  let '(intent, _, location) := Rag.extract_intent_and_entities lower query in
  let deep :=
    bool_decide (intent ∈ ["whitespots"; "risk_assessment"; "business_analysis";
                           "bank_distribution"]) in
  if deep
  then forall today context,
         let prompt := Rag.create_system_prompt json_dumps today intent location context in
         str_in intent prompt = true /\ str_in location prompt = true
         /\ str_in today prompt = true /\ str_in (json_dumps context) prompt = true
  else exists prompt,
         Rag.simple_intents !! intent = Some prompt
         /\ forall today place context,
              Rag.create_system_prompt json_dumps today intent place context = prompt.
Proof.
  pose proof (extract_intent_range lower query) as Hrange.
  destruct (Rag.extract_intent_and_entities lower query) as [[intent entities] location].
  cbn [fst snd] in Hrange. cbv zeta.
  assert (Hdeep : forall today place context,
             Rag.simple_intents !! intent = None ->
             let prompt := Rag.create_system_prompt json_dumps today intent place context in
             str_in intent prompt = true /\ str_in place prompt = true
             /\ str_in today prompt = true /\ str_in (json_dumps context) prompt = true).
  { intros today place context Hnone. cbv zeta. unfold Rag.create_system_prompt.
    rewrite Hnone. cbn [unlines].
    generalize (json_dumps context) as dump. intros dump.
    repeat split; embedded. }
  assert (Hshallow : forall prompt,
             Rag.simple_intents !! intent = Some prompt ->
             exists prompt,
               Rag.simple_intents !! intent = Some prompt
               /\ forall today place context,
                    Rag.create_system_prompt json_dumps today intent place context = prompt).
  { intros prompt Hsome. exists prompt. split; [exact Hsome|].
    intros. unfold Rag.create_system_prompt. now rewrite Hsome. }
  destruct Hrange as [<-|[<-|[<-|[<-|[<-|[<-|[<-|[]]]]]]]].
  - apply (Hshallow _ eq_refl).
  - apply (Hshallow _ eq_refl).
  - intros today context. apply Hdeep. reflexivity.
  - intros today context. apply Hdeep. reflexivity.
  - apply (Hshallow _ eq_refl).
  - intros today context. apply Hdeep. reflexivity.
  - intros today context. apply Hdeep. reflexivity.
Qed.

End Prompts.

(** Writing a key through a valid reference. *)
Lemma setitem_deref (r : Rag.dict_ref) (key : string) (v : Rag.pyvalue)
    (self : Rag.ClaudeService) :
  valid_ref r self ->
  exists r' self',
    Rag.setitem r key v self = (Return r', self')
    /\ valid_ref r' self'
    /\ Rag.deref r' self' = <[key := v]> (Rag.deref r self).
Proof.
  intros Hvalid. destruct r as [k|d]; unfold Rag.setitem, bind, modify, ret.
  - destruct Hvalid as [d Hd]. eexists _, _. split; [reflexivity|].
    cbn. rewrite lookup_alter_eq, Hd. cbn. eauto.
  - eexists _, _. split; [reflexivity|]. split; [exact I | reflexivity].
Qed.

Lemma get_basic_stats_valid (db : database) (location : string) (self : Rag.ClaudeService) :
  exists r self',
    Rag.get_basic_stats db location self = (Return r, self') /\ valid_ref r self'.
Proof.
  rewrite get_basic_stats_eq.
  destruct (Rag._db_cache self !! _) as [d|] eqn:Hd.
  - eexists _, _. split; [reflexivity|]. cbn. rewrite Hd. eauto.
  - destruct (Rag.query_basic_stats db location).
    + eexists _, _. split; [reflexivity|]. cbn. rewrite lookup_insert_eq. eauto.
    + eexists _, _. split; [reflexivity | exact I].
Qed.

(** X11: for business_analysis at location Bali -- or at the empty
    location or the text None, which both mean Bali -- the context holds
    under business_opportunities the empty list when the session of the
    opportunities query raises and the rows of the query for Bali when it
    does not, and under recommended_business_areas the three areas
    Seminyak, Ubud and Canggu. *)
Theorem business_context_has_areas (db : database) (location : string)
    (self : Rag.ClaudeService) :
  In location ["Bali"; EmptyString; "None"] ->
  exists context self' rows,
    Rag.get_database_context db "business_analysis" location self = (Return context, self')
    /\ (Rag.session_raises db [BusinessOpportunities] -> rows = [])
    /\ (~ Rag.session_raises db [BusinessOpportunities] ->
        rows = business_opportunities db "Bali")
    /\ Rag.deref context self' !! "business_opportunities"
       = Some (Rag.PyOpportunities rows)
    /\ Rag.deref context self' !! "recommended_business_areas"
       = Some (Rag.PyAreas Rag.recommended_business_areas)
    /\ map Rag.area_name Rag.recommended_business_areas
       = ["Seminyak Business District"; "Ubud Cultural Center"; "Canggu Beach Area"].
Proof.
  intros Hloc.
  assert (Heq : Rag.get_database_context db "business_analysis" location self
                = Rag.get_database_context db "business_analysis" "Bali" self).
  { destruct Hloc as [<-|[<-|[<-|[]]]]; reflexivity. }
  rewrite Heq. clear Heq Hloc.
  unfold Rag.get_database_context. cbn [String.eqb orb Ascii.eqb Bool.eqb].
  change ((if ("Bali" =? "")%string || ("Bali" =? "None")%string then "Bali" else "Bali"))
    with "Bali".
  destruct (get_basic_stats_valid db "Bali" self) as (r & s1 & Hrun & Hvalid).
  unfold bind at 1. rewrite Hrun. cbv beta iota.
  change (("business_analysis" =? "whitespots")%string
          || ("business_analysis" =? "risk_assessment")%string) with false.
  change (("business_analysis" =? "business_analysis")%string) with true. cbv iota.
  destruct (get_business_opportunities_result db "Bali") as (rows & Hbo).
  assert (Hrows : (Rag.session_raises db [BusinessOpportunities] -> rows = [])
                  /\ (~ Rag.session_raises db [BusinessOpportunities] ->
                      rows = business_opportunities db "Bali")).
  { destruct (get_business_opportunities_eq db "Bali" s1) as [H1 H2].
    rewrite Hbo in H1, H2. split; intros H; [apply H1 in H | apply H2 in H]; congruence. }
  unfold bind at 1. rewrite Hbo. cbv beta iota.
  destruct (setitem_deref r "business_opportunities" (Rag.PyOpportunities rows) s1 Hvalid)
    as (r1 & s2 & Hset1 & Hvalid1 & Hd1).
  unfold bind. rewrite Hset1. cbv beta iota.
  change (("Bali" =? "Bali")%string) with true. cbv iota.
  destruct (setitem_deref r1 "recommended_business_areas"
              (Rag.PyAreas Rag.recommended_business_areas) s2 Hvalid1)
    as (r2 & s3 & Hset2 & _ & Hd2).
  exists r2, s3, rows. split; [exact Hset2|].
  split; [apply Hrows|]. split; [apply Hrows|].
  rewrite Hd2, Hd1. split; [|split; [apply lookup_insert_eq | reflexivity]].
  rewrite lookup_insert_ne by discriminate. apply lookup_insert_eq.
Qed.

Lemma business_context_has_areas_witness :
  exists context self' rows,
    Rag.get_database_context (healthy Sample.table) "business_analysis" "None" Rag.init
      = (Return context, self')
    /\ (Rag.session_raises (healthy Sample.table) [BusinessOpportunities] -> rows = [])
    /\ (~ Rag.session_raises (healthy Sample.table) [BusinessOpportunities] ->
        rows = business_opportunities (healthy Sample.table) "Bali")
    /\ Rag.deref context self' !! "business_opportunities"
       = Some (Rag.PyOpportunities rows)
    /\ Rag.deref context self' !! "recommended_business_areas"
       = Some (Rag.PyAreas Rag.recommended_business_areas)
    /\ map Rag.area_name Rag.recommended_business_areas
       = ["Seminyak Business District"; "Ubud Cultural Center"; "Canggu Beach Area"].
Proof.
  apply (business_context_has_areas (healthy Sample.table) "None" Rag.init).
  right. right. left. reflexivity.
Defined.

(** ** ORDER BY *)

Section OrderBy.
Context {A : Type} (before : A -> A -> bool).

Lemma insert_by_perm (x : A) (l : list A) : Permutation (insert_by before x l) (x :: l).
Proof.
  induction l as [|y l IH]; cbn; [reflexivity|].
  destruct (before x y); [reflexivity|].
  rewrite IH. apply perm_swap.
Qed.

Lemma order_by_perm (l : list A) : Permutation (order_by before l) l.
Proof.
  induction l as [|x l IH]; cbn; [reflexivity|].
  change (fold_right (insert_by before) [] l) with (order_by before l).
  rewrite insert_by_perm. now constructor.
Qed.

Hypothesis before_total : forall x y, before x y = true \/ before y x = true.
Hypothesis before_trans :
  forall x y z, before x y = true -> before y z = true -> before x z = true.

Lemma insert_by_sorted (x : A) (l : list A) :
  StronglySorted (fun a b => before a b = true) l ->
  StronglySorted (fun a b => before a b = true) (insert_by before x l).
Proof.
  induction 1 as [|y l Hl IH Hy]; cbn; [repeat constructor|].
  destruct (before x y) eqn:Hxy.
  - constructor; [constructor; assumption|].
    constructor; [exact Hxy|].
    eapply Forall_impl; [exact Hy|]. cbn. intros z Hz. now apply (before_trans x y z).
  - constructor; [exact IH|].
    assert (Hyx : before y x = true) by (destruct (before_total x y); congruence).
    apply Forall_forall. intros z Hz.
    apply list_elem_of_In in Hz.
    apply (Permutation_in _ (insert_by_perm x l)) in Hz. destruct Hz as [<-|Hz]; [exact Hyx|].
    rewrite Forall_forall in Hy. apply Hy, list_elem_of_In, Hz.
Qed.

Lemma order_by_sorted (l : list A) :
  StronglySorted (fun a b => before a b = true) (order_by before l).
Proof.
  induction l as [|x l IH]; cbn; [constructor|]. now apply insert_by_sorted.
Qed.

End OrderBy.

Lemma StronglySorted_filter {A} (R : A -> A -> Prop) (p : A -> bool) (l : list A) :
  StronglySorted R l -> StronglySorted R (List.filter p l).
Proof.
  induction 1 as [|x l Hl IH Hx]; cbn; [constructor|].
  destruct (p x); [|exact IH]. constructor; [exact IH|].
  apply Forall_forall. intros y Hy. apply list_elem_of_In, filter_In in Hy as [Hy _].
  rewrite Forall_forall in Hx. apply Hx, list_elem_of_In, Hy.
Qed.

Lemma StronglySorted_map {A B} (R : A -> A -> Prop) (S : B -> B -> Prop) (f : A -> B)
    (l : list A) :
  (forall x y, R x y -> S (f x) (f y)) ->
  StronglySorted R l -> StronglySorted S (map f l).
Proof.
  intros HRS. induction 1 as [|x l Hl IH Hx]; cbn; constructor; [exact IH|].
  apply Forall_forall. intros y Hy.
  apply list_elem_of_In, in_map_iff in Hy as (z & <- & Hz).
  rewrite Forall_forall in Hx. apply HRS, Hx, list_elem_of_In, Hz.
Qed.

(** String comparison *)
Lemma string_le_total (a b : string) : string_le a b = true \/ string_le b a = true.
Proof.
  unfold string_le. rewrite (String.compare_antisym b a).
  destruct (String.compare a b); cbn; auto.
Qed.

Lemma string_le_trans (a b c : string) :
  string_le a b = true -> string_le b c = true -> string_le a c = true.
Proof.
  intros H1 H2.
  assert (T := @PreOrder_Transitive _ _ (@partial_order_pre _ _ String.le_po)).
  specialize (T a b c). unfold String.le, String.leb, string_le in *.
  destruct (String.compare a b), (String.compare b c), (String.compare a c);
    try reflexivity; try discriminate; exfalso; apply T; exact I.
Qed.

Lemma compare_refl (a : string) : String.compare a a = Eq.
Proof.
  pose proof (String.compare_antisym a a) as H.
  destruct (String.compare a a); [reflexivity | discriminate..].
Qed.

Lemma compare_lt_trans (a b c : string) :
  String.compare a b = Lt -> String.compare b c = Lt -> String.compare a c = Lt.
Proof.
  intros H1 H2.
  assert (Hle : string_le a c = true).
  { apply (string_le_trans a b c); unfold string_le; [now rewrite H1 | now rewrite H2]. }
  unfold string_le in Hle. destruct (String.compare a c) eqn:H3;
    [|reflexivity|discriminate].
  apply String.compare_eq_iff in H3. subst c.
  rewrite String.compare_antisym, H1 in H2. discriminate.
Qed.

Lemma Permutation_filter {A} (p : A -> bool) (l k : list A) :
  Permutation l k -> Permutation (List.filter p l) (List.filter p k).
Proof.
  induction 1 as [|x l k _ IH|x y l|l k m _ IH1 _ IH2]; cbn.
  - constructor.
  - destruct (p x); [now constructor | exact IH].
  - destruct (p x), (p y); try reflexivity. apply perm_swap.
  - now transitivity (List.filter p k).
Qed.

Lemma StronglySorted_Forall {A} (R : A -> A -> Prop) (P : A -> Prop) (l : list A) :
  StronglySorted R l -> Forall P l -> StronglySorted (fun a b => R a b /\ P a /\ P b) l.
Proof.
  induction 1 as [|x l Hl IH Hx]; intros HP; constructor.
  - apply IH. now apply Forall_inv_tail in HP.
  - apply Forall_forall. intros y Hy.
    rewrite Forall_forall in Hx, HP.
    repeat split; [apply Hx, Hy | apply HP; left | apply HP; right; exact Hy].
Qed.

(** ** More on the financial endpoint *)

Lemma by_category_name_total (a b : poi) :
  by_category_name a b = true \/ by_category_name b a = true.
Proof.
  unfold by_category_name. rewrite (String.compare_antisym (category b) (category a)).
  destruct (String.compare (category a) (category b)); cbn; auto.
  apply string_le_total.
Qed.

Lemma by_category_name_trans (a b c : poi) :
  by_category_name a b = true -> by_category_name b c = true ->
  by_category_name a c = true.
Proof.
  unfold by_category_name.
  destruct (String.compare (category a) (category b)) eqn:H1; [| |discriminate];
    destruct (String.compare (category b) (category c)) eqn:H2; try discriminate.
  - apply String.compare_eq_iff in H1, H2. rewrite H1, H2, compare_refl.
    apply string_le_trans.
  - apply String.compare_eq_iff in H1. rewrite H1, H2. reflexivity.
  - apply String.compare_eq_iff in H2. rewrite <- H2, H1. reflexivity.
  - rewrite (compare_lt_trans _ _ _ H1 H2). reflexivity.
Qed.

Lemma financial_institutions_eq (table : list poi) (province_filter : string)
    (district_param category_param : option string) :
  financial_institutions table province_filter district_param category_param
  = order_by by_category_name
      (List.filter (financial_where province_filter district_param category_param) table).
Proof. reflexivity. Qed.

Lemma is_financial_cases (c : string) :
  is_financial c = true -> c = "Bank" \/ c = "ATM".
Proof.
  unfold is_financial. intros H. apply orb_true_iff in H as [H|H];
    apply String.eqb_eq in H; auto.
Qed.

(** X12: a successful /api/financial response counts what it lists:
    count is the number of banks plus the number of atms; every record
    under banks has type Bank and every record under atms type ATM; all are
    of the requested province (Bali when none is given) and, when a
    non-empty district is given, of that district. *)
Theorem financial_response_contents (db : database)
    (type_arg province_arg district_arg : option string) (data : Api.financial_data) :
  Api.get_financial_data db type_arg province_arg district_arg = Api.Ok200 data ->
  Api.count data = Z.of_nat (length (Api.banks data) + length (Api.atms data))
  /\ Forall (fun i => Api.inst_type i = "Bank") (Api.banks data)
  /\ Forall (fun i => Api.inst_type i = "ATM") (Api.atms data)
  /\ Forall (fun i => Api.inst_province i = default "Bali" province_arg)
            (Api.banks data ++ Api.atms data)%list
  /\ (forall d, district_arg = Some d -> d <> EmptyString ->
        Forall (fun i => Api.inst_district i = d) (Api.banks data ++ Api.atms data)%list).
Proof.
  intros Hdata. apply financial_data_of in Hdata as ->.
  rewrite format_rows_spec, financial_institutions_eq. cbn [Api.count Api.banks Api.atms].
  set (rows := order_by _ _).
  assert (Hrows : Forall (fun r =>
                     financial_where (default "Bali" province_arg)
                       (if Api.truthy district_arg then district_arg else None)
                       (Api.category_param type_arg) r = true) rows).
  { apply order_by_Forall, Forall_forall. intros r Hr.
    apply list_elem_of_In, filter_In in Hr as [_ Hr]. exact Hr. }
  assert (Hall : forall (P : poi -> Prop) (Q : Api.institution -> Prop) (p : poi -> bool),
             (forall r, In r rows -> p r = true -> P r -> Q (Api.institution_of_row r)) ->
             Forall P rows ->
             Forall Q (map Api.institution_of_row (List.filter p rows))).
  { intros P Q p HPQ HP. apply Forall_forall. intros i Hi.
    apply list_elem_of_In, in_map_iff in Hi as (r & <- & Hr).
    apply filter_In in Hr as [Hr Hp]. apply (HPQ r Hr Hp).
    rewrite Forall_forall in HP. apply HP, list_elem_of_In, Hr. }
  repeat match goal with |- _ /\ _ => split end.
  - rewrite !length_map. f_equal. clear. induction rows as [|r rows IH]; cbn; [reflexivity|].
    destruct (String.eqb (category r) "Bank"); cbn; lia.
  - apply (Hall (fun _ => True)); [|apply Forall_forall; trivial].
    intros r _ Hp _. now apply String.eqb_eq.
  - eapply Hall; [|exact Hrows]. cbn. intros r _ Hp Hw.
    unfold financial_where in Hw. repeat (apply andb_true_iff in Hw as [Hw _]).
    apply is_financial_cases in Hw as [Hw|Hw]; [|exact Hw].
    rewrite Hw in Hp. discriminate.
  - apply Forall_app. split; (eapply Hall; [|exact Hrows]); cbn; intros r _ _ Hw;
      unfold financial_where, in_province in Hw;
      repeat (apply andb_true_iff in Hw as [Hw ?]); now apply String.eqb_eq.
  - intros d -> Hd.
    assert (Api.truthy (Some d) = true) as Ht.
    { cbn. destruct (String.eqb_spec d EmptyString); [contradiction | reflexivity]. }
    rewrite Ht in Hrows.
    apply Forall_app. split; (eapply Hall; [|exact Hrows]); cbn; intros r _ _ Hw;
      unfold financial_where in Hw;
      repeat (apply andb_true_iff in Hw as [Hw ?]); now apply String.eqb_eq.
Qed.

Lemma financial_response_contents_witness :
  Forall (fun i => Api.inst_type i = "Bank")
    [Api.institution_of_row Sample.bank_denpasar].
Proof.
  exact (proj1 (proj2 (financial_response_contents (healthy Sample.table)
                         None (Some "Bali") None
                         {| Api.count := 2;
                            Api.banks := [Api.institution_of_row Sample.bank_denpasar];
                            Api.atms := [Api.institution_of_row Sample.atm_kuta] |}
                         eq_refl))).
Defined.

(** X13: filters the endpoint cannot use are dropped silently: a type
    that is neither bank nor atm in any capitalization gives the response
    of a request without type, and an empty district that of a request
    without district. *)
Theorem financial_filters_ignored (db : database) (t : string)
    (province_arg district_arg : option string) :
  (upper t <> "BANK" -> upper t <> "ATM" ->
   Api.get_financial_data db (Some t) province_arg district_arg
   = Api.get_financial_data db None province_arg district_arg)
  /\ Api.get_financial_data db (Some t) province_arg (Some EmptyString)
     = Api.get_financial_data db (Some t) province_arg None.
Proof.
  split; [|reflexivity].
  intros Hb Ha. unfold Api.get_financial_data.
  assert (Api.category_param (Some t) = None) as ->; [|reflexivity].
  unfold Api.category_param. rewrite bool_decide_eq_false_2, andb_false_r; [reflexivity|].
  rewrite !elem_of_cons, elem_of_nil. tauto.
Qed.

Lemma financial_filters_ignored_witness :
  Api.get_financial_data (healthy Sample.table) (Some "branch") (Some "Bali") None
  = Api.get_financial_data (healthy Sample.table) None (Some "Bali") None.
Proof.
  apply (proj1 (financial_filters_ignored (healthy Sample.table) "branch"
                  (Some "Bali") None)); discriminate.
Defined.

(** X14: without a type filter the response is complete and ordered:
    banks is a rearrangement of the table's Bank rows of the province (and
    district), atms of its ATM rows, and both lists are in ascending order
    of name. *)
Theorem financial_banks_sorted_complete (db : database)
    (province_arg district_arg : option string) (data : Api.financial_data) :
  Api.get_financial_data db None province_arg district_arg = Api.Ok200 data ->
  let selected (c : string) :=
    map Api.institution_of_row
      (List.filter
         (fun r => String.eqb (category r) c
                   && in_province (default "Bali" province_arg) r
                   && from_option (String.eqb (district r)) true
                        (if Api.truthy district_arg then district_arg else None))
         (poi_density db)) in
  let by_name (i j : Api.institution) :=
    string_le (Api.inst_name i) (Api.inst_name j) = true in
  Permutation (Api.banks data) (selected "Bank")
  /\ Permutation (Api.atms data) (selected "ATM")
  /\ StronglySorted by_name (Api.banks data)
  /\ StronglySorted by_name (Api.atms data).
Proof.
  intros Hdata. apply financial_data_of in Hdata as ->. cbv zeta.
  rewrite format_rows_spec, financial_institutions_eq. cbn [Api.banks Api.atms].
  set (W := financial_where _ _ _).
  set (rows := order_by by_category_name (List.filter W (poi_density db))).
  assert (Hsel : forall (p : poi -> bool) (c : string),
             (forall r, W r = true -> p r = String.eqb (category r) c) ->
             is_financial c = true ->
             Permutation
               (map Api.institution_of_row (List.filter p rows))
               (map Api.institution_of_row
                  (List.filter
                     (fun r => String.eqb (category r) c
                               && in_province (default "Bali" province_arg) r
                               && from_option (String.eqb (district r)) true
                                    (if Api.truthy district_arg then district_arg else None))
                     (poi_density db)))).
  { intros p c Hp Hc. apply Permutation_map.
    etransitivity; [apply Permutation_filter, order_by_perm|].
    induction (poi_density db) as [|r t IH]; cbn; [reflexivity|].
    destruct (W r) eqn:HW; cbn.
    - rewrite (Hp r HW). unfold W, financial_where in HW. cbn in HW.
      rewrite andb_true_r in HW.
      destruct (String.eqb_spec (category r) c) as [Hrc|Hrc]; cbn.
      + apply andb_true_iff in HW as [HW Hd]. apply andb_true_iff in HW as [_ Hpr].
        rewrite Hpr, Hd. cbn. now constructor.
      + exact IH.
    - destruct (String.eqb_spec (category r) c) as [Hrc|Hrc]; cbn; [|exact IH].
      unfold W, financial_where in HW. cbn in HW. rewrite andb_true_r in HW.
      rewrite Hrc, Hc in HW. cbn in HW. rewrite HW. exact IH. }
  assert (Hsorted : forall (p : poi -> bool) (c : string),
             (forall r, p r = true -> category r = c) ->
             StronglySorted
               (fun i j => string_le (Api.inst_name i) (Api.inst_name j) = true)
               (map Api.institution_of_row (List.filter p rows))).
  { intros p c Hp.
    apply (StronglySorted_map
             (fun a b => by_category_name a b = true /\ category a = c /\ category b = c)).
    - intros x y (Hxy & Hx & Hy). unfold by_category_name in Hxy.
      rewrite Hx, Hy, compare_refl in Hxy. exact Hxy.
    - apply StronglySorted_Forall.
      + apply StronglySorted_filter, order_by_sorted;
          [apply by_category_name_total | apply by_category_name_trans].
      + apply Forall_forall. intros r Hr.
        apply list_elem_of_In, filter_In in Hr as [_ Hr]. apply Hp, Hr. }
  assert (HW : forall r, In r rows -> W r = true).
  { intros r Hr. apply (Permutation_in _ (order_by_perm by_category_name _)) in Hr.
    apply filter_In in Hr as [_ Hr]. exact Hr. }
  repeat match goal with |- _ /\ _ => split end.
  - apply Hsel; [reflexivity..].
  - apply Hsel; [|reflexivity]. intros r Hr.
    unfold W, financial_where in Hr. repeat (apply andb_true_iff in Hr as [Hr _]).
    apply is_financial_cases in Hr as [-> | ->]; reflexivity.
  - apply (Hsorted _ "Bank"). intros r Hr. now apply String.eqb_eq.
  - rewrite (filter_ext_in _ (fun r => negb (String.eqb (category r) "Bank") && W r)).
    + apply (Hsorted _ "ATM"). intros r Hr. apply andb_true_iff in Hr as [Hn Hr].
      unfold W, financial_where in Hr. repeat (apply andb_true_iff in Hr as [Hr _]).
      apply is_financial_cases in Hr as [Hr|Hr]; [|exact Hr].
      rewrite Hr in Hn. discriminate.
    + intros r Hr. rewrite (HW r Hr), andb_true_r. reflexivity.
Qed.

Lemma financial_banks_sorted_complete_witness :
  Permutation [Api.institution_of_row Sample.bank_denpasar]
              [Api.institution_of_row Sample.bank_denpasar].
Proof.
  exact (proj1 (financial_banks_sorted_complete (healthy Sample.table)
                  (Some "Bali") None
                  {| Api.count := 2;
                     Api.banks := [Api.institution_of_row Sample.bank_denpasar];
                     Api.atms := [Api.institution_of_row Sample.atm_kuta] |}
                  eq_refl)).
Defined.

(** ** The aggregate queries *)

Lemma distinct_In (k : string) (keys : list string) : In k (distinct keys) <-> In k keys.
Proof.
  induction keys as [|x keys IH]; cbn; [tauto|].
  rewrite filter_In, IH, negb_true_iff.
  destruct (String.eqb_spec x k) as [->|Hne]; [tauto|].
  split; [tauto|]. intros [H|H]; [tauto|]. right. split; [assumption|reflexivity].
Qed.

Lemma distinct_NoDup (keys : list string) : NoDup (distinct keys).
Proof.
  induction keys as [|x keys IH]; cbn; [constructor|]. constructor.
  - rewrite list_elem_of_In, filter_In, String.eqb_refl. intros [_ H]. discriminate.
  - apply NoDup_ListNoDup, List.NoDup_filter, NoDup_ListNoDup, IH.
Qed.

Lemma count_where_bounds {A} (p : A -> bool) (l : list A) :
  0 <= count_where p l <= Z.of_nat (length l).
Proof.
  unfold count_where. split; [lia|]. apply inj_le, List.filter_length_le.
Qed.

(** Bank and ATM rows of a group add up. *)
Lemma count_financial_split (group : list poi) :
  Forall (fun r => is_financial (category r) = true) group ->
  count_where (fun r => String.eqb (category r) "Bank") group
  + count_where (fun r => String.eqb (category r) "ATM") group
  = Z.of_nat (length group).
Proof.
  unfold count_where. induction 1 as [|r group Hr _ IH]; cbn; [reflexivity|].
  unfold is_financial in Hr.
  destruct (String.eqb_spec (category r) "Bank") as [Hb|Hb];
    destruct (String.eqb_spec (category r) "ATM") as [Ha|Ha]; cbn in *;
    try congruence; lia.
Qed.

(** The groups of a statement are the distinct keys, each once. *)
Lemma group_by_In (db : database) (stmt : statement) (k : string) (keys : list string) :
  In k (group_by db stmt keys) <-> In k keys.
Proof.
  unfold group_by. rewrite <- (distinct_In k keys).
  split; apply Permutation_in; [|symmetry]; apply order_by_perm.
Qed.

Lemma group_by_NoDup (db : database) (stmt : statement) (keys : list string) :
  NoDup (group_by db stmt keys).
Proof.
  unfold group_by. apply NoDup_ListNoDup.
  eapply Permutation_NoDup; [symmetry; apply order_by_perm|].
  apply NoDup_ListNoDup, distinct_NoDup.
Qed.

(** Filtering by province and category, then by district, is one WHERE. *)
Lemma filter_district (p : poi -> bool) (d : string) (table : list poi) :
  List.filter (fun r => String.eqb (district r) d) (List.filter p table)
  = List.filter (fun r => p r && String.eqb (district r) d) table.
Proof.
  induction table as [|r t IH]; cbn; [reflexivity|].
  destruct (p r); cbn; [|exact IH].
  destruct (String.eqb (district r) d); cbn; [now rewrite IH | exact IH].
Qed.

(** The rows of subquery [d] joined with [p], district by district. *)
Lemma district_join_rows (db : database) (location : string) :
  Forall (fun '(d, banks, atms, total_financial, avg) =>
            total_financial = banks + atms
            /\ 1 <= total_financial /\ 0 <= banks /\ 0 <= atms
            /\ avg = sql_avg db
                       (map intensity
                          (List.filter
                             (fun r => negb (is_financial (category r))
                                       && in_province location r
                                       && String.eqb (district r) d) (poi_density db))))
         (district_join db location).
Proof.
  unfold district_join. cbv zeta.
  set (financial := List.filter _ (poi_density db)).
  apply Forall_forall. intros row Hrow.
  apply list_elem_of_In, in_map_iff in Hrow as (d & <- & Hd).
  apply group_by_In, in_map_iff in Hd as (r0 & Hr0 & Hin).
  set (group := List.filter (fun r => String.eqb (district r) d) financial).
  assert (Hgroup : Forall (fun r => is_financial (category r) = true) group).
  { apply Forall_forall. intros r Hr.
    apply list_elem_of_In, filter_In in Hr as [Hr _].
    apply filter_In in Hr as [_ Hr]. now apply andb_true_iff in Hr as [Hr _]. }
  assert (Hne : (1 <= length group)%nat).
  { assert (In r0 group) as Hg
      by (apply filter_In; split; [exact Hin | now apply String.eqb_eq]).
    destruct group; [destruct Hg | cbn; lia]. }
  repeat match goal with |- _ /\ _ => split end.
  - symmetry. apply count_financial_split, Hgroup.
  - lia.
  - apply count_where_bounds.
  - apply count_where_bounds.
  - now rewrite filter_district.
Qed.

(** The districts of the join are those with a bank or an ATM in the
    province. *)
Lemma district_join_districts (db : database) (location : string) (d : string) :
  In d (map (fun row => fst (fst (fst (fst row)))) (district_join db location))
  <-> exists r, In r (poi_density db)
                /\ is_financial (category r) = true
                /\ province r = location /\ district r = d.
Proof.
  unfold district_join. cbv zeta. rewrite map_map. cbn. rewrite map_id.
  rewrite group_by_In, in_map_iff. split.
  - intros (r & Hd & Hr). apply filter_In in Hr as [Hr Hp].
    apply andb_true_iff in Hp as [Hf Hp]. apply String.eqb_eq in Hp. eauto.
  - intros (r & Hr & Hf & Hp & Hd). exists r. split; [exact Hd|].
    apply filter_In. split; [exact Hr|].
    unfold in_province. rewrite Hf, Hp, String.eqb_refl. reflexivity.
Qed.

(** X15: each row of the district analysis is consistent with the table.
    Its total_financial is banks plus atms and at least 1.  For a district
    without POI rows in the province the average shown is 0 and the class
    is BALANCED however many banks it has (the CASE sees the NULL average,
    the column its COALESCE); for any other district the average is the
    engine's AVG over the intensities of exactly its POI rows in the
    province, and the class is the CASE on that very number and the total.
    The districts listed are those with a bank or an ATM in the province,
    each once: a district that has POI rows only is never listed. *)
Theorem district_analysis_consistent (db : database) (location : string) :
  let rows := district_analysis db location in
  let district_of (row : district_row) := fst (fst (fst (fst (fst row)))) in
  Forall (fun row : district_row =>
            let '(d, banks, atms, total_financial, avg_poi_density, classification) := row in
            let activity :=
              map intensity
                (List.filter (fun r => negb (is_financial (category r))
                                       && in_province location r
                                       && String.eqb (district r) d) (poi_density db)) in
            total_financial = banks + atms
            /\ 1 <= total_financial /\ 0 <= banks /\ 0 <= atms
            /\ (activity = [] ->
                avg_poi_density = 0%Q /\ classification = "BALANCED")
            /\ (activity <> [] ->
                avg_poi_density = AVG db activity
                /\ classification = area_classification (Some avg_poi_density)
                                      total_financial))
         rows
  /\ NoDup (map district_of rows)
  /\ forall d, In d (map district_of rows)
               <-> exists r, In r (poi_density db)
                             /\ is_financial (category r) = true
                             /\ province r = location /\ district r = d.
Proof.
  cbv zeta. unfold district_analysis.
  assert (Hdistricts :
            Permutation
              (map (fun row : district_row => fst (fst (fst (fst (fst row)))))
                 (map (fun '(d, banks, atms, total_financial, avg) =>
                         (d, banks, atms, total_financial, default 0%Q avg,
                          area_classification avg total_financial))
                    (order_by (fun a b => desc_nulls_last (snd a) (snd b))
                       (district_join db location))))
              (map (fun row => fst (fst (fst (fst row)))) (district_join db location))).
  { rewrite map_map. etransitivity; [|apply Permutation_map, order_by_perm].
    apply Permutation_refl'. apply map_ext. now intros [[[[d b] a] t] avg]. }
  split; [|split].
  - apply Forall_forall. intros row Hrow.
    apply list_elem_of_In, in_map_iff in Hrow as ([[[[d b] a] t] avg] & <- & Hin).
    apply (Permutation_in _ (order_by_perm _ _)) in Hin.
    pose proof (district_join_rows db location) as H.
    rewrite Forall_forall in H. apply list_elem_of_In, H in Hin.
    destruct Hin as (H1 & H2 & H3 & H4 & H5). cbv zeta.
    repeat match goal with |- _ /\ _ => split end; try assumption.
    + intros Hnil. rewrite Hnil in H5. subst avg. cbn.
      split; [reflexivity | apply area_classification_null].
    + intros Hne. rewrite H5.
      destruct (map intensity _) as [|x xs] eqn:E; [contradiction|].
      cbn [sql_avg default]. split; reflexivity.
  - apply NoDup_ListNoDup.
    apply (Permutation_NoDup (symmetry Hdistricts)).
    unfold district_join. cbv zeta. rewrite map_map. cbn. rewrite map_id.
    apply NoDup_ListNoDup, group_by_NoDup.
  - intros d. rewrite <- district_join_districts.
    split; apply Permutation_in; [|symmetry]; exact Hdistricts.
Qed.

Lemma desc_nulls_last_total (a b : option Q) :
  desc_nulls_last a b = true \/ desc_nulls_last b a = true.
Proof.
  destruct a as [x|], b as [y|]; cbn; auto.
  rewrite !Qle_bool_iff. destruct (Qlt_le_dec x y) as [H|H]; [right|left]; auto.
  now apply Qlt_le_weak.
Qed.

Lemma desc_nulls_last_trans (a b c : option Q) :
  desc_nulls_last a b = true -> desc_nulls_last b c = true ->
  desc_nulls_last a c = true.
Proof.
  destruct a as [x|], b as [y|], c as [z|]; cbn; try discriminate; auto.
  rewrite !Qle_bool_iff. intros H1 H2. now apply (Qle_trans _ y).
Qed.

(** X16: the district analysis is ordered by average intensity,
    descending, with the districts without POI rows last: after a district
    without POI rows come only such districts, and a district with POI rows
    never has a greater average than one before it. *)
Theorem district_analysis_order (db : database) (location : string) :
  let activity (d : string) :=
    map intensity
      (List.filter (fun r => negb (is_financial (category r))
                             && in_province location r
                             && String.eqb (district r) d) (poi_density db)) in
  StronglySorted
    (fun earlier later : district_row =>
       let '(d1, _, _, _, avg1, _) := earlier in
       let '(d2, _, _, _, avg2, _) := later in
       (activity d1 = [] -> activity d2 = [])
       /\ (activity d2 <> [] -> (avg2 <= avg1)%Q))
    (district_analysis db location).
Proof.
  intros activity. unfold district_analysis.
  apply (StronglySorted_map
           (fun a b : string * Z * Z * Z * option Q =>
              desc_nulls_last (snd a) (snd b) = true
              /\ snd a = sql_avg db (activity (fst (fst (fst (fst a)))))
              /\ snd b = sql_avg db (activity (fst (fst (fst (fst b))))))).
  - intros [[[[d1 b1] a1] t1] avg1] [[[[d2 b2] a2] t2] avg2]. cbn.
    intros (Hord & -> & ->).
    destruct (activity d1) as [|x xs] eqn:E1, (activity d2) as [|y ys] eqn:E2;
      cbn in *; try discriminate.
    + split; [reflexivity | intros H; contradiction].
    + split; [discriminate | intros H; contradiction].
    + split; [discriminate | intros _]. now apply Qle_bool_iff.
  - apply StronglySorted_Forall.
    + apply order_by_sorted.
      * intros a b. apply desc_nulls_last_total.
      * intros a b c. apply desc_nulls_last_trans.
    + apply Forall_forall. intros row Hrow. apply list_elem_of_In in Hrow.
      apply (Permutation_in _ (order_by_perm _ _)) in Hrow.
      pose proof (district_join_rows db location) as H.
      rewrite Forall_forall in H. apply list_elem_of_In, H in Hrow.
      destruct row as [[[[d b] a] t] avg]. cbn. now destruct Hrow as (_ & _ & _ & _ & ->).
Qed.

Lemma StronglySorted_weaken {A} (R S : A -> A -> Prop) (l : list A) :
  (forall x y, R x y -> S x y) -> StronglySorted R l -> StronglySorted S l.
Proof.
  intros HRS. induction 1 as [|x l Hl IH Hx]; constructor; [exact IH|].
  eapply Forall_impl; [exact Hx|]. intros y. apply HRS.
Qed.

Lemma StronglySorted_take {A} (R : A -> A -> Prop) (n : nat) (l : list A) :
  StronglySorted R l -> StronglySorted R (take n l).
Proof.
  intros H. revert n. induction H as [|x l Hl IH Hx]; intros [|n]; cbn;
    try constructor; [apply IH|].
  apply Forall_take, Hx.
Qed.

(** X17: the business opportunities are at most 10 rows, one per
    district.  The average of a row is the engine's AVG over the
    intensities of exactly the district's POI rows in the province, and is
    above 0.5; its points are the number of those rows, at least 1; its
    high-activity spots are those above 0.7; its score is the engine's
    ROUND, to 2 digits, of average times points.  The rows are in
    descending order of score. *)
Theorem business_opportunities_rows (db : database) (location : string) :
  let rows := business_opportunities db location in
  (length rows <= 10)%nat
  /\ Forall (fun row : opportunity_row =>
               let '(d, avg, points, high, score) := row in
               let activity :=
                 map intensity
                   (List.filter (fun r => negb (is_financial (category r))
                                          && in_province location r
                                          && String.eqb (district r) d) (poi_density db)) in
               avg = AVG db activity
               /\ (0.5 < avg)%Q
               /\ points = Z.of_nat (length activity) /\ 1 <= points
               /\ high = Z.of_nat (length (List.filter (fun x => Qltb 0.7 x) activity))
               /\ 0 <= high <= points
               /\ score = ROUND db (TIMES db avg (inject_Z points)) 2)
            rows
  /\ StronglySorted
       (fun earlier later : opportunity_row => (snd later <= snd earlier)%Q) rows
  /\ NoDup (map (fun row : opportunity_row => fst (fst (fst (fst row)))) rows).
Proof.
  cbv zeta. unfold business_opportunities. cbv zeta.
  set (other := List.filter _ (poi_density db)).
  set (groups := map _ (group_by db BusinessOpportunities (map district other))).
  set (kept := List.filter _ groups).
  set (before := fun a b : opportunity_row => Qle_bool (snd b) (snd a)).
  assert (Hgroups : Forall (fun row : opportunity_row =>
               let '(d, avg, points, high, score) := row in
               let activity :=
                 map intensity
                   (List.filter (fun r => negb (is_financial (category r))
                                          && in_province location r
                                          && String.eqb (district r) d) (poi_density db)) in
               avg = AVG db activity
               /\ points = Z.of_nat (length activity) /\ 1 <= points
               /\ high = Z.of_nat (length (List.filter (fun x => Qltb 0.7 x) activity))
               /\ 0 <= high <= points
               /\ score = ROUND db (TIMES db avg (inject_Z points)) 2) groups).
  { apply Forall_forall. intros row Hrow.
    apply list_elem_of_In, in_map_iff in Hrow as (d & <- & Hd).
    apply group_by_In, in_map_iff in Hd as (r0 & Hr0 & Hin). cbv zeta.
    rewrite <- (filter_district
                  (fun r => negb (is_financial (category r)) && in_province location r)).
    fold other.
    set (xs := map intensity (List.filter _ other)).
    assert (Hne : (1 <= length xs)%nat).
    { unfold xs. rewrite length_map.
      assert (In r0 (List.filter (fun r => String.eqb (district r) d) other)) as Hg
        by (apply filter_In; split; [exact Hin | now apply String.eqb_eq]).
      destruct (List.filter _ other); [destruct Hg | cbn; lia]. }
    repeat match goal with |- _ /\ _ => split end; try reflexivity; try lia.
    - destruct xs; [cbn in Hne; lia | reflexivity].
    - apply count_where_bounds.
    - apply count_where_bounds. }
  assert (Hkept : Forall (fun row : opportunity_row =>
                            let '(d, avg, _, _, _) := row in (0.5 < avg)%Q) kept).
  { apply Forall_forall. intros [[[[d avg] n] h] s] Hrow.
    apply list_elem_of_In, filter_In in Hrow as [_ Hrow]. now apply Qltb_lt. }
  assert (Hperm : Permutation (order_by before kept) kept) by apply order_by_perm.
  repeat match goal with |- _ /\ _ => split end.
  - rewrite length_take. lia.
  - apply Forall_take, Forall_forall. intros row Hrow. apply list_elem_of_In in Hrow.
    apply (Permutation_in _ Hperm) in Hrow.
    rewrite Forall_forall in Hkept, Hgroups.
    pose proof (Hkept row (proj2 (list_elem_of_In _ _) Hrow)) as H1.
    apply filter_In in Hrow as [Hrow _].
    pose proof (Hgroups row (proj2 (list_elem_of_In _ _) Hrow)) as H2.
    destruct row as [[[[d avg] n] h] s]. cbv zeta in *. tauto.
  - apply StronglySorted_take.
    apply (StronglySorted_weaken (fun a b => before a b = true)).
    + intros x y H. now apply Qle_bool_iff.
    + apply order_by_sorted.
      * intros a b. unfold before. rewrite !Qle_bool_iff.
        destruct (Qlt_le_dec (snd a) (snd b)) as [H|H]; [right|left]; auto.
        now apply Qlt_le_weak.
      * intros a b c. unfold before. rewrite !Qle_bool_iff. intros H1 H2.
        now apply (Qle_trans _ (snd b)).
  - apply NoDup_ListNoDup.
    assert (Hsub : forall l : list opportunity_row,
               List.NoDup (map (fun row : opportunity_row => fst (fst (fst (fst row)))) l) ->
               forall n, List.NoDup (map (fun row : opportunity_row =>
                                            fst (fst (fst (fst row)))) (take n l))).
    { intros l Hl n. apply NoDup_ListNoDup. apply NoDup_ListNoDup in Hl.
      eapply sublist_NoDup; [exact Hl | apply (map_sublist _ (take n l) l), sublist_take]. }
    apply Hsub.
    apply (Permutation_NoDup (l := map (fun row : opportunity_row =>
                                          fst (fst (fst (fst row)))) kept));
      [apply Permutation_map; symmetry; exact Hperm|].
    assert (Hg : List.NoDup (map (fun row : opportunity_row =>
                                    fst (fst (fst (fst row)))) groups)).
    { unfold groups. rewrite map_map. cbn. rewrite map_id.
      apply NoDup_ListNoDup, group_by_NoDup. }
    apply NoDup_ListNoDup. apply NoDup_ListNoDup in Hg.
    eapply sublist_NoDup; [exact Hg | apply map_sublist, filter_sublist].
Qed.

(** ** The routes *)

Section RouteProperties.

Variable lower : string -> string.
Variable json_dumps : gmap string Rag.pyvalue -> string.
Variable repr : Rag.pyvalue -> string.
Variable strip : string -> string.
Variable wrong_type : string -> Routes.json -> exn.
Variable print : string -> result unit.
Variable len : string -> Z.

(** [generate_response] always returns, with the directive of the
    extracted intent and location, and no highlights. *)
Lemma generate_response_returns (w : Rag.world) (query : string)
    (self : Rag.ClaudeService) :
  exists text directive self',
    Rag.generate_response lower json_dumps repr w query self = (Return (text, directive), self')
    /\ Rag.highlights directive = None.
Proof.
  unfold Rag.generate_response.
  destruct (Rag.extract_intent_and_entities lower query) as [[intent entities] location].
  set (assemble := if bool_decide _ then _ else _).
  assert (Hassemble : Rag.returns assemble self).
  { subst assemble. destruct (bool_decide _);
      [apply returns_get_database_context | apply returns_get_basic_stats]. }
  destruct Hassemble as (db_context & self' & Hrun & _).
  unfold bind at 1. rewrite Hrun. unfold Rag.history_append. run. cbn [Rag.first_text].
  assert (Hnone : Rag.highlights (Rag.generate_map_directive intent location) = None).
  { unfold Rag.generate_map_directive. cbv zeta. rewrite directive_config_get.
    repeat (match goal with |- context [String.eqb intent ?k] =>
              destruct (String.eqb intent k) end; [reflexivity|]).
    reflexivity. }
  destruct (Rag.messages_create w _) as [[|text content]|e]; cbn; eauto.
Qed.

(** X18: the chat route validates before it looks for the service, and
    prints the query before it calls the service.  A falsy body, or an
    object without the key query, is answered 400 even when the service is
    disabled.  With a string query a disabled service gives 503.  With a
    service, when the [print] of the query raises (a lone surrogate cannot
    be encoded) [generate_response] is not called, the service is
    unchanged and the route fails; otherwise [generate_response] runs, and
    the answer is 200 with the stripped query, its text and directive and
    an empty highlights list -- unless the second [print] raises, and the
    route fails with the service already changed.  A route that fails -- also
    on a query that is not a string -- answers 500 with the error text when
    the [print] of its handler succeeds, and raises when that fails too. *)
Theorem chat_endpoint_outcomes (w : Rag.world) (timestamp : string)
    (data : Routes.json) (claude_service : option Rag.ClaudeService) :
  let answer :=
    Routes.chat_endpoint lower json_dumps repr strip wrong_type print len w timestamp
      (Return data) claude_service in
  let failed (e : exn) (service : option Rag.ClaudeService) :=
    match print ("Chat endpoint error: " +:+ e) with
    | Return _ => (Return (Routes.ChatError 500 e), service)
    | Raise e' => (Raise e', service)
    end in
  (Routes.truth data = false ->
   answer = (Return (Routes.ChatError 400 "Query is required"), claude_service))
  /\ (forall fields, data = Routes.JObject fields ->
      match fields !! "query" with
      | None => answer = (Return (Routes.ChatError 400 "Query is required"), claude_service)
      | Some (Routes.JString q) =>
          match claude_service with
          | None =>
              answer =
                (Return (Routes.ChatError 503
                   "Claude service not available. Please set CLAUDE_API_KEY environment variable."),
                 None)
          | Some self =>
              match print ("Processing query: " +:+ strip q) with
              | Raise e => answer = failed e (Some self)
              | Return _ =>
                  exists text directive self',
                    Rag.generate_response lower json_dumps repr w (strip q) self
                    = (Return (text, directive), self')
                    /\ Routes.highlights (Routes.directive_to_json directive) = []
                    /\ answer =
                         match print ("Response generated: " +:+ pretty (len text)
                                      +:+ " characters") with
                         | Return _ =>
                             (Return (Routes.ChatOk (strip q) text
                                        (Routes.directive_to_json directive) timestamp),
                              Some self')
                         | Raise e => failed e (Some self')
                         end
              end
          end
      | Some v => answer = failed (wrong_type "strip" v) claude_service
      end).
Proof.
  cbv zeta. split.
  - intros Hfalse. unfold Routes.chat_endpoint. run. cbn. rewrite Hfalse. reflexivity.
  - intros fields ->. unfold Routes.chat_endpoint. run. cbn -[Rag.generate_response].
    destruct (fields !! "query") as [v|] eqn:Hq.
    + assert ((size fields =? 0)%nat = false) as ->.
      { apply Nat.eqb_neq. intros Hs. apply map_size_empty_iff in Hs. subst.
        rewrite lookup_empty in Hq. discriminate. }
      cbn -[Rag.generate_response].
      destruct v; cbn -[Rag.generate_response];
        try (destruct (print ("Chat endpoint error: " +:+ _)); reflexivity).
      destruct claude_service as [self|]; [|reflexivity].
      destruct (print ("Processing query: " +:+ strip s)) as [[]|e].
      * destruct (generate_response_returns w (strip s) self)
          as (text & directive & self' & Hrun & Hh).
        exists text, directive, self'. split; [exact Hrun|].
        split; [cbn [Routes.directive_to_json Routes.highlights]; now rewrite Hh|].
        unfold Routes.on_service. rewrite Hrun.
        destruct (print ("Response generated: " +:+ _)) as [[]|e]; [reflexivity|].
        destruct (print ("Chat endpoint error: " +:+ e)); reflexivity.
      * destruct (print ("Chat endpoint error: " +:+ e)); reflexivity.
    + destruct (size fields =? 0)%nat; reflexivity.
Qed.


(** X21: the search route is a placeholder: whenever it succeeds its
    results are the empty list, and it succeeds exactly on an object body,
    echoing query (default empty) and location (default Bali); any other
    body, null included, and a body that cannot be parsed, is answered 500,
    never 400. *)
Theorem search_endpoint_placeholder (timestamp : string)
    (request_json : result Routes.json) :
  match Routes.search_endpoint wrong_type timestamp request_json with
  | Routes.SearchOk query location results _ =>
      results = []
      /\ exists fields,
           request_json = Return (Routes.JObject fields)
           /\ query = default (Routes.JString EmptyString) (fields !! "query")
           /\ location = default (Routes.JString "Bali") (fields !! "location")
  | Routes.SearchError status error =>
      status = 500
      /\ (request_json = Raise error
          \/ exists data,
               request_json = Return data
               /\ error = wrong_type "get" data
               /\ forall fields, data <> Routes.JObject fields)
  end.
Proof.
  unfold Routes.search_endpoint, Routes.get_or, Routes.perform_web_search, rbind.
  destruct request_json as [data|e]; [|split; [reflexivity | left; reflexivity]].
  destruct data; try (split; [reflexivity | right; eexists; repeat split; discriminate]).
  split; [reflexivity|]. eauto.
Qed.

(** X20: the conversation routes.  Without a service both answer 503.
    With one, reading returns its history and changes nothing; clearing
    leaves a service with empty history and empty statistics cache, and a
    read after it returns the empty list. *)
Theorem conversation_routes (claude_service : option Rag.ClaudeService) :
  let read := Routes.get_conversation_history claude_service in
  let cleared := Routes.clear_conversation_history claude_service in
  match claude_service with
  | None =>
      read = (Return (Routes.ConversationError 503 "Claude service not available"), None)
      /\ cleared
         = (Return (Routes.ConversationError 503 "Claude service not available"), None)
  | Some self =>
      read = (Return (Routes.HistoryOk (Rag.conversation_history self)), Some self)
      /\ cleared = (Return (Routes.ClearedOk "Conversation history cleared"),
                    Some Rag.init)
      /\ Routes.get_conversation_history (snd cleared)
         = (Return (Routes.HistoryOk []), Some Rag.init)
  end.
Proof.
  destruct claude_service as [self|]; cbv zeta; repeat split; reflexivity.
Qed.

(** X19: a chat request that the LLM answers shows up in the
    conversation route exactly when the [print] of its query succeeded.
    Then the history read afterwards is the previous one followed by one
    entry with the stripped query and the answer -- also when the route
    went on to fail at its second [print]; when the [print] of the query
    raised, the history is the previous one. *)
Theorem chat_then_conversation (w : Rag.world) (timestamp q text : string)
    (rest : list string) (fields : gmap string Routes.json) (self : Rag.ClaudeService) :
  fields !! "query" = Some (Routes.JString q) ->
  (forall request, Rag.messages_create w request = Return (text :: rest)) ->
  let after :=
    snd (Routes.chat_endpoint lower json_dumps repr strip wrong_type print len w timestamp
           (Return (Routes.JObject fields)) (Some self)) in
  fst (Routes.get_conversation_history after)
  = Return (Routes.HistoryOk
              match print ("Processing query: " +:+ strip q) with
              | Return _ =>
                  (Rag.conversation_history self
                   ++ [ {| Rag.timestamp := Rag.now w;
                           Rag.query := strip q;
                           Rag.response := text |} ])%list
              | Raise _ => Rag.conversation_history self
              end).
Proof.
  intros Hq Hllm. cbv zeta.
  unfold Routes.chat_endpoint. run. cbn -[Rag.generate_response].
  assert ((size fields =? 0)%nat = false) as ->.
  { apply Nat.eqb_neq. intros Hs. apply map_size_empty_iff in Hs. subst.
    rewrite lookup_empty in Hq. discriminate. }
  rewrite Hq. cbn -[Rag.generate_response]. unfold Routes.on_service.
  destruct (print ("Processing query: " +:+ strip q)) as [[]|e];
    [|destruct (print ("Chat endpoint error: " +:+ e)); reflexivity].
  assert (Hrun : exists directive cache,
             Rag.generate_response lower json_dumps repr w (strip q) self
             = (Return (text, directive),
                {| Rag.conversation_history :=
                     (Rag.conversation_history self
                      ++ [ {| Rag.timestamp := Rag.now w;
                              Rag.query := strip q;
                              Rag.response := text |} ])%list;
                   Rag._db_cache := cache |})).
  { unfold Rag.generate_response.
    destruct (Rag.extract_intent_and_entities lower (strip q))
      as [[intent entities] location].
    set (assemble := if bool_decide _ then _ else _).
    assert (Hassemble : Rag.returns assemble self).
    { subst assemble. destruct (bool_decide _);
        [apply returns_get_database_context | apply returns_get_basic_stats]. }
    destruct Hassemble as (db_context & self' & Hrun & Hh).
    unfold bind at 1. rewrite Hrun. unfold Rag.history_append. run.
    rewrite Hllm. cbn. rewrite Hh. eauto. }
  destruct Hrun as (directive & cache & ->).
  destruct (print ("Response generated: " +:+ _)) as [[]|e]; [reflexivity|].
  destruct (print ("Chat endpoint error: " +:+ e)); reflexivity.
Qed.

(** X22: a successful health check reports poi_total = poi_financial +
    poi_density, the total being the size of the table, and the service as
    enabled and ready exactly when it exists; it succeeds only when no step
    raises, and otherwise answers 500 with the text of a step that
    raised. *)
Theorem health_check_report (db : database)
    (health_error : Routes.health_statement -> option exn)
    (claude_service : option Rag.ClaudeService) :
  match Routes.health_check db health_error claude_service with
  | Routes.HealthOk report =>
      Routes.poi_total report = Routes.poi_financial report + Routes.poi_density report
      /\ Routes.poi_total report = Z.of_nat (length (poi_density db))
      /\ (Routes.enabled report = true <-> is_Some claude_service)
      /\ (Routes.status report = "ready" <-> is_Some claude_service)
      /\ connect_error db 0%nat = None
      /\ (forall stmt, health_error stmt = None)
      /\ close_error db = None
  | Routes.HealthError status error =>
      status = 500
      /\ (connect_error db 0%nat = Some error
          \/ (exists stmt, health_error stmt = Some error)
          \/ close_error db = Some error)
  end.
Proof.
  unfold Routes.health_check, Api.get_db_connection, connect, close, outcome, rbind.
  destruct (connect_error db 0%nat) as [e|]; [split; [reflexivity | left; reflexivity]|].
  destruct (health_error Routes.CountAll) as [e|] eqn:H1;
    [split; [reflexivity | right; left; eauto]|].
  destruct (health_error Routes.CountFinancial) as [e|] eqn:H2;
    [split; [reflexivity | right; left; eauto]|].
  destruct (health_error Routes.CountDensity) as [e|] eqn:H3;
    [split; [reflexivity | right; left; eauto]|].
  destruct (close_error db) as [e|]; [split; [reflexivity | right; right; reflexivity]|].
  cbn. repeat match goal with |- _ /\ _ => split end; try reflexivity.
  - unfold count_where. rewrite <- Nat2Z.inj_add. f_equal.
    induction (poi_density db) as [|r t IH]; cbn; [reflexivity|].
    destruct (is_financial (category r)); cbn; lia.
  - destruct claude_service; split; intros H; try reflexivity; try discriminate; eauto.
    destruct H as [? H]; discriminate.
  - destruct claude_service; split; intros H; try reflexivity; try discriminate; eauto.
    destruct H as [? H]; discriminate.
  - intros []; assumption.
Qed.

End RouteProperties.

(** ** The connection manager *)

(** X23: a query that raises never gets back to its caller.  The handler
    of [get_connection] calls [close_connection] while the lock is still
    held, and the lock is not reentrant: [execute_query] neither returns
    nor raises, and the manager is left with the lock held. *)
Theorem failed_query_blocks (connect_error : option exn) (A : Type) (e : exn)
    (self : Manager.DatabaseManager) :
  Manager.lock_held self = false ->
  Manager.connected self = true \/ connect_error = None ->
  @Manager.execute_query A connect_error (Raise e) self
  = (Manager.Blocked,
     {| Manager.lock_held := true; Manager.connected := true;
        Manager._connection_count := Manager._connection_count self + 1 |}).
Proof.
  intros Hfree Hconn.
  unfold Manager.execute_query, Manager.get_connection, Manager.with_lock,
    Manager.andthen, Manager.update, Manager._get_connection,
    Manager.try_except_finally, Manager.close_connection, Manager.with_lock.
  rewrite Hfree. cbn.
  destruct (Manager.connected self) eqn:Hc; [reflexivity|].
  destruct Hconn as [Hconn| ->]; [discriminate | reflexivity].
Qed.

Lemma failed_query_blocks_witness :
  @Manager.execute_query (list Z) None (Raise "Catalog Error: no such table") Manager.init
  = (Manager.Blocked,
     {| Manager.lock_held := true; Manager.connected := true;
        Manager._connection_count := 1 |}).
Proof.
  exact (failed_query_blocks None (list Z) "Catalog Error: no such table" Manager.init
           eq_refl (or_intror eq_refl)).
Defined.

(** X24: a query that succeeds returns its rows, releases the lock,
    restores the connection count and keeps the connection open, so that a
    later query succeeds without connecting again -- even when connecting
    would now fail. *)
Theorem query_keeps_connection (connect_error connect_error' : option exn) (A B : Type)
    (rows : A) (rows' : B) (self : Manager.DatabaseManager) :
  Manager.lock_held self = false ->
  Manager.connected self = true \/ connect_error = None ->
  let first := Manager.execute_query connect_error (Return rows) self in
  first = (Manager.Finished (Return rows),
           {| Manager.lock_held := false; Manager.connected := true;
              Manager._connection_count := Manager._connection_count self |})
  /\ fst (Manager.execute_query connect_error' (Return rows') (snd first))
     = Manager.Finished (Return rows').
Proof.
  intros Hfree Hconn. cbv zeta.
  assert (H1 : Manager.execute_query connect_error (Return rows) self
               = (Manager.Finished (Return rows),
                  {| Manager.lock_held := false; Manager.connected := true;
                     Manager._connection_count := Manager._connection_count self |})).
  { unfold Manager.execute_query, Manager.get_connection, Manager.with_lock,
      Manager.andthen, Manager.update, Manager._get_connection,
      Manager.try_except_finally.
    rewrite Hfree. cbn.
    destruct (Manager.connected self) eqn:Hc; cbn.
    - do 2 f_equal. f_equal. lia.
    - destruct Hconn as [Hconn| ->]; [discriminate|]. cbn. do 2 f_equal. f_equal. lia. }
  rewrite H1. split; reflexivity.
Qed.

Lemma query_keeps_connection_witness :
  fst (Manager.execute_query (Some "IO Error") (Return [2])
         (snd (Manager.execute_query None (Return [1]) Manager.init)))
  = Manager.Finished (Return [2]).
Proof.
  exact (proj2 (query_keeps_connection None (Some "IO Error") (list Z) (list Z) [1] [2]
                  Manager.init eq_refl (or_intror eq_refl))).
Defined.


(** ** Witnesses on the sample data *)

(** Witness for X5: the state after a whitespots context on the sample
    table. *)
Lemma reachable_cache_holds_totals_witness :
  cache_holds_totals
    (snd (Rag.get_database_context (healthy Sample.table) "whitespots" "Bali" Rag.init)).
Proof.
  exact (proj1 (reachable_cache_holds_totals ascii_lower Examples.plain_json
                  Examples.plain_repr _
                  (reach_database_context ascii_lower Examples.plain_json
                     Examples.plain_repr (healthy Sample.table) "whitespots" "Bali"
                     Rag.init
                     (reach_init ascii_lower Examples.plain_json Examples.plain_repr)))).
Defined.

(** Witness for X6: a greeting while the LLM cannot be reached; the
    sample table has one bank, one ATM and one POI in Bali. *)
Lemma fallback_reports_counts_witness :
  exists (db_context : Rag.dict_ref) (self' : Rag.ClaudeService) (text : string)
         (banks atms poi : Z),
    Rag.get_basic_stats (healthy Sample.table) "Bali" Rag.init = (Return db_context, self')
    /\ Rag.generate_response ascii_lower Examples.plain_json Examples.plain_repr
         Examples.offline "Halo" Rag.init
       = (Return (text, Rag.generate_map_directive "greeting" "Bali"), self')
    /\ Rag.deref db_context self' !! "total_banks" = Some (Rag.PyInt banks)
    /\ Rag.deref db_context self' !! "total_atms" = Some (Rag.PyInt atms)
    /\ Rag.deref db_context self' !! "total_poi" = Some (Rag.PyInt poi)
    /\ str_in "Data Bali:" text = true
    /\ str_in ("- Bank: " +:+ pretty banks +:+ " lokasi") text = true
    /\ str_in ("- ATM: " +:+ pretty atms +:+ " lokasi") text = true
    /\ str_in ("- POI: " +:+ pretty poi +:+ " titik aktivitas") text = true
    /\ str_in "Error: Connection error." text = true.
Proof.
  exact (fallback_reports_counts ascii_lower Examples.plain_json Examples.plain_repr
           Examples.offline "Halo" Rag.init "Connection error."
           (reach_init ascii_lower Examples.plain_json Examples.plain_repr)
           (fun _ => eq_refl)).
Defined.

(** Witness for X19: a greeting that the LLM answers, printed without
    error. *)
Lemma chat_then_conversation_witness :
  fst (Routes.get_conversation_history
         (snd (Routes.chat_endpoint ascii_lower Examples.plain_json Examples.plain_repr
                 (fun s => s) (fun _ _ => "TypeError")
                 (fun _ => Return tt) (fun s => Z.of_nat (String.length s))
                 Examples.online "2025-01-01T09:00:01"
                 (Return (Routes.JObject {[ "query" := Routes.JString "Halo" ]}))
                 (Some Rag.init))))
  = Return (Routes.HistoryOk
              [ {| Rag.timestamp := "2025-01-01T09:00:00";
                   Rag.query := "Halo";
                   Rag.response := "Halo! Ada yang bisa saya bantu?" |} ]).
Proof.
  exact (chat_then_conversation ascii_lower Examples.plain_json Examples.plain_repr
           (fun s => s) (fun _ _ => "TypeError")
           (fun _ => Return tt) (fun s => Z.of_nat (String.length s))
           Examples.online "2025-01-01T09:00:01"
           "Halo" "Halo! Ada yang bisa saya bantu?" []
           {[ "query" := Routes.JString "Halo" ]} Rag.init
           eq_refl (fun _ => eq_refl)).
Defined.
